(** * IEEE_754.py: the single-precision analyser, embedded and verified

    The Python module [IEEE_754.py] turns a float into the 32-character
    binary string of its IEEE 754 single-precision encoding, splits that
    string into sign, exponent and mantissa, classifies special encodings
    and converts binary and hexadecimal text back to floats.

    The embedding follows the source function by function.  Python values
    are modelled as follows:
    - a [str] that the caller gives ([binary_to_float], [hex_to_float],
      [int]) is a [Py.str], the list of its code points; a [str] that the
      module builds from ASCII characters (the binary string and its
      slices, [hex]'s result, the tags) is a [string], and
      [Py.code_points] turns it into a [Py.str] where one is read;
    - [int] is [Z];
    - [float] is a binary64 number, a [spec_float] of the standard
      library's [SpecFloat] with [prec = 53] and [emax = 1024]; its one
      NaN is the quiet NaN that [float('nan')] produces, of pattern
      0x7fc00000; the C conversions keep the sign and the payload of
      every NaN, which [SpecFloat] cannot hold, so no statement below is
      about the sign or the payload of a NaN;
    - a raised exception is the [Raise] case of [result]. *)

From Stdlib Require Import ZArith List String Ascii Bool Lia QArith.
From Stdlib Require Import Floats.SpecFloat.
Import ListNotations.

Local Open Scope string_scope.
Local Open Scope Z_scope.

(** ** Exceptions and results *)

Inductive exn : Type :=
| ValueError      (* int(): invalid literal; binary_to_float: wrong length *)
| OverflowError   (* struct.pack('!f', x): float too large *)
| StructError     (* struct.error: 'I' format requires 0 <= number <= 4294967295 *)
| IndexError.     (* string index out of range *)

Inductive result (A : Type) : Type :=
| Ok (a : A)
| Raise (e : exn).

Arguments Ok {A} a.
Arguments Raise {A} e.

Definition bind {A B : Type} (r : result A) (k : A -> result B) : result B :=
  match r with
  | Ok a => k a
  | Raise e => Raise e
  end.

Notation "x <- c1 ;; c2" := (bind c1 (fun x => c2))
  (at level 61, c1 at next level, right associativity).

(** ** Python built-ins used by the module *)

Module Py.

(** *** Text *)

(** A [str], as the list of its code points. *)
Definition str : Type := list N.

(** The [str] of an 8-bit string. *)
Definition code_points (s : string) : str :=
  map N_of_ascii (list_ascii_of_string s).

(** *** Characters *)

Definition ord (c : ascii) : Z := Z.of_N (N_of_ascii c).

(** The character of a code point below 256. *)
Definition chr (ch : N) : ascii := ascii_of_N ch.

(** [Py_ISSPACE]: the ASCII white space of the C locale. *)
Definition Py_ISSPACE (c : ascii) : bool :=
  ((9 <=? ord c) && (ord c <=? 13)) || (ord c =? 32).

(** [Py_UNICODE_ISSPACE]: the white space of Unicode (bidirectional type
    WS, B or S, or category Zs). *)
Definition Py_UNICODE_ISSPACE (ch : N) : bool :=
  (((9 <=? ch) && (ch <=? 13)) || ((28 <=? ch) && (ch <=? 32))
   || (ch =? 0x85) || (ch =? 0xA0) || (ch =? 0x1680)
   || ((0x2000 <=? ch) && (ch <=? 0x200A))
   || (ch =? 0x2028) || (ch =? 0x2029) || (ch =? 0x202F)
   || (ch =? 0x205F) || (ch =? 0x3000))%N.

(** The decimal digits of Unicode 14.0 (category Nd), the version of
    CPython 3.11: runs of code points, each a whole number of decades
    that start at a digit zero. *)
Definition decimal_digits : list (N * N) :=
  [ (0x30, 0x39); (0x660, 0x669); (0x6F0, 0x6F9); (0x7C0, 0x7C9);
    (0x966, 0x96F); (0x9E6, 0x9EF); (0xA66, 0xA6F); (0xAE6, 0xAEF);
    (0xB66, 0xB6F); (0xBE6, 0xBEF); (0xC66, 0xC6F); (0xCE6, 0xCEF);
    (0xD66, 0xD6F); (0xDE6, 0xDEF); (0xE50, 0xE59); (0xED0, 0xED9);
    (0xF20, 0xF29); (0x1040, 0x1049); (0x1090, 0x1099); (0x17E0, 0x17E9);
    (0x1810, 0x1819); (0x1946, 0x194F); (0x19D0, 0x19D9); (0x1A80, 0x1A89);
    (0x1A90, 0x1A99); (0x1B50, 0x1B59); (0x1BB0, 0x1BB9); (0x1C40, 0x1C49);
    (0x1C50, 0x1C59); (0xA620, 0xA629); (0xA8D0, 0xA8D9); (0xA900, 0xA909);
    (0xA9D0, 0xA9D9); (0xA9F0, 0xA9F9); (0xAA50, 0xAA59); (0xABF0, 0xABF9);
    (0xFF10, 0xFF19); (0x104A0, 0x104A9); (0x10D30, 0x10D39);
    (0x11066, 0x1106F); (0x110F0, 0x110F9); (0x11136, 0x1113F);
    (0x111D0, 0x111D9); (0x112F0, 0x112F9); (0x11450, 0x11459);
    (0x114D0, 0x114D9); (0x11650, 0x11659); (0x116C0, 0x116C9);
    (0x11730, 0x11739); (0x118E0, 0x118E9); (0x11950, 0x11959);
    (0x11C50, 0x11C59); (0x11D50, 0x11D59); (0x11DA0, 0x11DA9);
    (0x16A60, 0x16A69); (0x16AC0, 0x16AC9); (0x16B50, 0x16B59);
    (0x1D7CE, 0x1D7FF); (0x1E140, 0x1E149); (0x1E2F0, 0x1E2F9);
    (0x1E950, 0x1E959); (0x1FBF0, 0x1FBF9) ]%N.

Fixpoint decimal_in (runs : list (N * N)) (ch : N) : option N :=
  match runs with
  | [] => None
  | (first, last) :: runs' =>
      if ((first <=? ch) && (ch <=? last))%N
      then Some ((ch - first) mod 10)%N
      else decimal_in runs' ch
  end.

(** [Py_UNICODE_TODECIMAL]: the value of a decimal digit of any script;
    [None] is the C function's -1. *)
Definition Py_UNICODE_TODECIMAL (ch : N) : option N :=
  decimal_in decimal_digits ch.

(** [_PyLong_DigitValue]: 0-9, then a-z and A-Z for 10-35, and 37 for
    every other character. *)
Definition digit_value (c : ascii) : Z :=
  let n := ord c in
  if (48 <=? n) && (n <=? 57) then n - 48
  else if (97 <=? n) && (n <=? 122) then n - 87
  else if (65 <=? n) && (n <=? 90) then n - 55
  else 37.

Definition is_underscore (c : ascii) : bool := Ascii.eqb c "_".

(** *** [int(text, base)]

    [int] on a [str] first maps the text to ASCII
    ([_PyUnicode_TransformDecimalAndSpaceToASCII]): an all-ASCII text is
    kept; otherwise a code point below 127 is kept, a space of Unicode
    becomes a blank, a decimal digit of any script becomes the ASCII digit
    of its value, and at the first other character the text ends with a
    ['?'].
    [PyLong_FromString] then
    reads optional white space, an optional sign, for bases 2, 8 and 16 an
    optional [0b], [0o], [0x] prefix (followed by at most one underscore),
    digits separated by single underscores, and optional white space up
    to the end of the text. *)

Definition is_ascii (ch : N) : bool := (ch <? 128)%N.

(** The loop over the characters of a text that is not all ASCII. *)
Fixpoint to_ascii_chars (u : str) : list ascii :=
  match u with
  | [] => []
  | ch :: u' =>
      if (ch <? 127)%N then chr ch :: to_ascii_chars u'
      else if Py_UNICODE_ISSPACE ch then " "%char :: to_ascii_chars u'
      else
        match Py_UNICODE_TODECIMAL ch with
        | Some decimal => chr (48 + decimal) :: to_ascii_chars u'
        | None => ["?"%char]
        end
  end.

Definition transform_decimal_and_space (unicode : str) : list ascii :=
  if forallb is_ascii unicode then map chr unicode
  else to_ascii_chars unicode.

Fixpoint skip_space (l : list ascii) : list ascii :=
  match l with
  | c :: l' => if Py_ISSPACE c then skip_space l' else l
  | [] => []
  end.

(** After the sign: [(sign, rest)]. *)
Definition read_sign (l : list ascii) : Z * list ascii :=
  match l with
  | c :: l' =>
      if Ascii.eqb c "+" then (1, l')
      else if Ascii.eqb c "-" then (-1, l')
      else (1, l)
  | [] => (1, [])
  end.

Definition prefix_letter (base : Z) (c : ascii) : bool :=
  ((base =? 16) && (Ascii.eqb c "x" || Ascii.eqb c "X"))
  || ((base =? 8) && (Ascii.eqb c "o" || Ascii.eqb c "O"))
  || ((base =? 2) && (Ascii.eqb c "b" || Ascii.eqb c "B")).

Definition skip_prefix (base : Z) (l : list ascii) : list ascii :=
  match l with
  | c0 :: c1 :: l' =>
      if Ascii.eqb c0 "0" && prefix_letter base c1 then
        match l' with
        | c2 :: l'' => if is_underscore c2 then l'' else l'
        | [] => l'
        end
      else l
  | _ => l
  end.

(** The digit loop: [prev_us] says that the previous character was an
    underscore, [acc] is the value read so far and [cnt] the number of
    digits.  [None] is the syntax error of two underscores in a row;
    otherwise the loop stops at the first character that is neither a
    digit of the base nor an underscore. *)
Fixpoint scan_digits (base : Z) (prev_us : bool) (acc : Z) (cnt : Z)
         (l : list ascii) : option (Z * Z * bool * list ascii) :=
  match l with
  | c :: l' =>
      if is_underscore c then
        if prev_us then None else scan_digits base true acc cnt l'
      else if digit_value c <? base then
        scan_digits base false (acc * base + digit_value c) (cnt + 1) l'
      else Some (acc, cnt, prev_us, l)
  | [] => Some (acc, cnt, prev_us, [])
  end.

Definition is_power_of_two (base : Z) : bool := Z.land base (base - 1) =? 0.

(** The default of [sys.get_int_max_str_digits()]; it limits the bases
    that are not powers of two. *)
Definition max_str_digits : Z := 4300.

Definition starts_with_underscore (l : list ascii) : bool :=
  match l with
  | c :: _ => is_underscore c
  | [] => false
  end.

(** [PyLong_FromString] for a base from 2 to 36. *)
Definition PyLong_FromString (str : list ascii) (base : Z) : result Z :=
  let '(sign, str) := read_sign (skip_space str) in
  let start := skip_prefix base str in
  if starts_with_underscore start then Raise ValueError
  else
    match scan_digits base false 0 0 start with
    | None => Raise ValueError
    | Some (z, digits, prev_us, rest) =>
        if prev_us then Raise ValueError
        else if negb (is_power_of_two base) && (max_str_digits <? digits)
        then Raise ValueError
        else if (List.length rest =? List.length start)%nat then Raise ValueError
        else
          match skip_space rest with
          | [] => Ok (sign * z)
          | _ :: _ => Raise ValueError
          end
    end.

Definition int (text : str) (base : Z) : result Z :=
  PyLong_FromString (transform_decimal_and_space text) base.

(** *** [format(n, '032b')] and [hex(n)] *)

(** Binary digits of a positive number, most significant first, put in
    front of [acc]. *)
Fixpoint bin_digits (p : positive) (acc : string) : string :=
  match p with
  | xH => String "1" acc
  | xO q => bin_digits q (String "0" acc)
  | xI q => bin_digits q (String "1" acc)
  end.

Fixpoint zeros (n : nat) (acc : string) : string :=
  match n with
  | O => acc
  | S n' => String "0" (zeros n' acc)
  end.

(** ['032b']: binary digits without prefix, padded with zeros after the
    sign to at least 32 characters. *)
Definition format_032b (n : Z) : string :=
  match n with
  | Z0 => zeros 31 "0"
  | Zpos p => let d := bin_digits p "" in zeros (32 - String.length d) d
  | Zneg p => let d := bin_digits p "" in String "-" (zeros (31 - String.length d) d)
  end.

Definition hex_digit (d : Z) : ascii :=
  ascii_of_N (Z.to_N (if d <? 10 then 48 + d else 87 + d)).

Fixpoint hex_digits (fuel : nat) (n : Z) (acc : string) : string :=
  match fuel with
  | O => acc
  | S fuel' =>
      let acc' := String (hex_digit (n mod 16)) acc in
      if n / 16 =? 0 then acc' else hex_digits fuel' (n / 16) acc'
  end.

(** [hex(n)]: lower-case digits after [0x]. *)
Definition hex (n : Z) : string :=
  let a := Z.abs n in
  let d := hex_digits (S (Z.to_nat (Z.log2 a))) a "" in
  if n <? 0 then "-0x" ++ d else "0x" ++ d.

(** *** Indexing, slices and [startswith] *)

(** [s[i]] for [i >= 0]: a one-character string. *)
Definition index (s : string) (i : nat) : result string :=
  match String.get i s with
  | Some c => Ok (String c "")
  | None => Raise IndexError
  end.

(** [s[a:b]] for [0 <= a <= b]. *)
Definition slice (s : string) (a b : nat) : string := substring a (b - a) s.

(** [s[a:]]. *)
Definition slice_from (s : str) (a : nat) : str := skipn a s.

(** [s.startswith(p)] *)
Fixpoint startswith (s p : str) {struct p} : bool :=
  match p, s with
  | [], _ => true
  | _ :: _, [] => false
  | a :: p', b :: s' => (a =? b)%N && startswith s' p'
  end.

End Py.

Coercion Py.code_points : string >-> Py.str.

(** ** Python floats and numbers *)

Module Float.

(** binary64 *)
Definition prec : Z := 53.
Definition emax : Z := 1024.

(** The literals [0.0] and [1.0]. *)
Definition zero : spec_float := S754_zero false.
Definition one : spec_float := SFone prec emax.

Definition add (x y : spec_float) : spec_float := SFadd prec emax x y.
Definition mul (x y : spec_float) : spec_float := SFmul prec emax x y.

Definition is_infinity (x : spec_float) : bool :=
  match x with
  | S754_infinity _ => true
  | _ => false
  end.

(** [float(n)] for an [int]: the nearest float, ties to even;
    [OverflowError] when [n] is too large. *)
Definition of_int (n : Z) : result spec_float :=
  let r := binary_normalize prec emax n 0 false in
  if is_infinity r then Raise OverflowError else Ok r.

End Float.

(** A Python number: an [int] or a [float]. *)
Inductive num : Type :=
| Int (n : Z)
| Flt (x : spec_float).

Definition as_float (a : num) : result spec_float :=
  match a with
  | Int n => Float.of_int n
  | Flt x => Ok x
  end.

(** [a * b]: exact on two ints, otherwise both are converted to float. *)
Definition num_mul (a b : num) : result num :=
  match a, b with
  | Int m, Int n => Ok (Int (m * n))
  | _, _ =>
      x <- as_float a ;;
      y <- as_float b ;;
      Ok (Flt (Float.mul x y))
  end.

(** [2 ** e] for an int [e]: an int when [e >= 0], otherwise the float
    [pow(2.0, e)], which is the power of two itself. *)
Definition pow2 (e : Z) : num :=
  if 0 <=? e then Int (2 ^ e)
  else Flt (binary_normalize Float.prec Float.emax 1 e false).

(** ** The [struct] module, formats ['!f'] and ['!I'] *)

Module Struct.

(** binary32 *)
Definition prec : Z := 24.
Definition emax : Z := 128.

(** The C conversion [(float)x]: round to nearest, ties to even. *)
Definition to_single (x : spec_float) : spec_float :=
  match x with
  | S754_finite s m e => binary_round prec emax s m e
  | _ => x
  end.

(** The C conversion [(double)y], which is exact. *)
Definition to_double (y : spec_float) : spec_float :=
  match y with
  | S754_finite s m e => binary_round Float.prec Float.emax s m e
  | _ => y
  end.

Definition sign_field (s : bool) : Z := if s then 1 else 0.

(** The encoding of a binary32 number: sign, 8 bits of biased exponent,
    23 bits of fraction.  A subnormal number has the exponent field 0; a
    normal one, [m * 2^e] with [2^23 <= m < 2^24], has the exponent field
    [e + 23 + 127].  [S754_nan] stands for the quiet NaN of
    [float('nan')], 0x7fc00000; a NaN of another sign or payload, which
    the C conversion encodes with that sign and payload, is not a value
    of [spec_float]. *)
Definition bits_of_single (y : spec_float) : Z :=
  match y with
  | S754_zero s => sign_field s * 2 ^ 31
  | S754_infinity s => sign_field s * 2 ^ 31 + 255 * 2 ^ 23
  | S754_nan => 255 * 2 ^ 23 + 2 ^ 22
  | S754_finite s m e =>
      if Zpos m <? 2 ^ 23
      then sign_field s * 2 ^ 31 + Zpos m
      else sign_field s * 2 ^ 31 + (e + 150) * 2 ^ 23 + (Zpos m - 2 ^ 23)
  end.

(** The binary32 number of a 32-bit pattern.  Every pattern with the
    exponent field 255 and a fraction that is not 0 is a NaN; its sign
    and payload, which the C conversion keeps, are lost in [S754_nan]. *)
Definition single_of_bits (n : Z) : spec_float :=
  let s := 2 ^ 31 <=? n in
  let e := (n / 2 ^ 23) mod 256 in
  let m := n mod 2 ^ 23 in
  if e =? 255 then (if m =? 0 then S754_infinity s else S754_nan)
  else if e =? 0 then
    match m with
    | Zpos p => S754_finite s p (-149)
    | _ => S754_zero s
    end
  else
    match m + 2 ^ 23 with
    | Zpos p => S754_finite s p (e - 150)
    | _ => S754_nan
    end.

(** Four bytes, most significant first (network order, ['!']). *)
Definition bytes_of_uint32 (n : Z) : list Z :=
  [n / 2 ^ 24; (n / 2 ^ 16) mod 256; (n / 2 ^ 8) mod 256; n mod 256].

Definition uint32_of_bytes (b : list Z) : result Z :=
  match b with
  | [b3; b2; b1; b0] => Ok (((b3 * 256 + b2) * 256 + b1) * 256 + b0)
  | _ => Raise StructError
  end.

(** [struct.pack('!f', x)]: [OverflowError] when a finite [x] rounds to
    an infinity. *)
Definition pack_f (x : spec_float) : result (list Z) :=
  let y := to_single x in
  if Float.is_infinity y && negb (Float.is_infinity x)
  then Raise OverflowError
  else Ok (bytes_of_uint32 (bits_of_single y)).

(** [struct.unpack('!I', packed)[0]] *)
Definition unpack_I (packed : list Z) : result Z := uint32_of_bytes packed.

(** [struct.pack('!I', n)] *)
Definition pack_I (n : Z) : result (list Z) :=
  if (0 <=? n) && (n <=? 4294967295) then Ok (bytes_of_uint32 n)
  else Raise StructError.

(** [struct.unpack('!f', packed)[0]] *)
Definition unpack_f (packed : list Z) : result spec_float :=
  n <- uint32_of_bytes packed ;;
  Ok (to_double (single_of_bits n)).

End Struct.

(** ** class IEEE754SinglePrecision *)

Record IEEE754SinglePrecision : Type := {
  value : spec_float;
  binary_representation : string;
  sign_bit : string;
  exponent_bits : string;
  mantissa_bits : string
}.

Definition _get_binary_representation (value : spec_float) : result string :=
  packed <- Struct.pack_f value ;;
  as_int <- Struct.unpack_I packed ;;
  Ok (Py.format_032b as_int).

(** The three slices taken by [__init__]. *)
Definition init_fields (value : spec_float) (binary : string)
  : result IEEE754SinglePrecision :=
  sign_bit <- Py.index binary 0 ;;
  Ok {| value := value;
        binary_representation := binary;
        sign_bit := sign_bit;
        exponent_bits := Py.slice binary 1 9;
        mantissa_bits := Py.slice binary 9 32 |}.

Definition __init__ (value : spec_float) : result IEEE754SinglePrecision :=
  binary <- _get_binary_representation value ;;
  init_fields value binary.

Definition get_sign (self : IEEE754SinglePrecision) : result Z :=
  Py.int (sign_bit self) 10.

Definition get_exponent_raw (self : IEEE754SinglePrecision) : result Z :=
  Py.int (exponent_bits self) 2.

Definition get_exponent_unbiased (self : IEEE754SinglePrecision) : result Z :=
  raw <- get_exponent_raw self ;;
  Ok (raw - 127).

Definition get_mantissa (self : IEEE754SinglePrecision) : string :=
  mantissa_bits self.

(** The loop of [get_mantissa_value] over [enumerate(self.mantissa_bits)],
    from index [i] on. *)
Fixpoint mantissa_loop (i : Z) (bits : list ascii) (fraction : spec_float)
  : result spec_float :=
  match bits with
  | [] => Ok fraction
  | bit :: rest =>
      if Ascii.eqb bit "1" then
        term <- as_float (pow2 (- (i + 1))) ;;
        mantissa_loop (i + 1) rest (Float.add fraction term)
      else mantissa_loop (i + 1) rest fraction
  end.

Definition get_mantissa_value (self : IEEE754SinglePrecision)
  : result spec_float :=
  fraction <-
    mantissa_loop 0 (list_ascii_of_string (mantissa_bits self)) Float.zero ;;
  Ok (Float.add Float.one fraction).

Definition is_special (self : IEEE754SinglePrecision)
  : result (option string) :=
  exponent_raw <- get_exponent_raw self ;;
  mantissa_int <- Py.int (mantissa_bits self) 2 ;;
  if exponent_raw =? 255 then
    if mantissa_int =? 0 then Ok (Some "Infinity") else Ok (Some "NaN")
  else if exponent_raw =? 0 then
    if mantissa_int =? 0 then Ok (Some "Zero") else Ok (Some "Denormalized")
  else Ok None.

(** What [display] prints, without the layout: either the special value
    and its detail line, after which [display] returns, or the analysis of
    a normal number with the value it calculates. *)
Inductive report : Type :=
| SpecialValue (special : string) (detail : option string)
| Analysis (sign : Z) (sign_str : string) (exp_raw exp_unbiased : Z)
           (power : num) (mantissa_val : spec_float)
           (sign_multiplier : Z) (calculated : num) (hex_rep : string).

(** Truth value of [special] in [if special:]. *)
Definition truthy (special : option string) : bool :=
  match special with
  | Some s => negb (String.eqb s "")
  | None => false
  end.

Definition display (self : IEEE754SinglePrecision) : result report :=
  special <- is_special self ;;
  if truthy special then
    let tag := match special with Some s => s | None => "" end in
    if String.eqb tag "Infinity" then
      sign <- get_sign self ;;
      Ok (SpecialValue tag
            (Some ((if sign =? 1 then "Negative" else "Positive")
                     ++ " Infinity")))
    else if String.eqb tag "Zero" then
      sign <- get_sign self ;;
      Ok (SpecialValue tag (Some ((if sign =? 1 then "-" else "+") ++ "0.0")))
    else Ok (SpecialValue tag None)
  else
    sign <- get_sign self ;;
    let sign_str := if sign =? 1 then "Negative (-)" else "Positive (+)" in
    exp_raw <- get_exponent_raw self ;;
    exp_unbiased <- get_exponent_unbiased self ;;
    let power := pow2 exp_unbiased in
    mantissa_val <- get_mantissa_value self ;;
    let sign_multiplier := if sign =? 1 then -1 else 1 in
    signed <- num_mul (Int sign_multiplier) (pow2 exp_unbiased) ;;
    calculated <- num_mul signed (Flt mantissa_val) ;;
    as_int <- Py.int (binary_representation self) 2 ;;
    Ok (Analysis sign sign_str exp_raw exp_unbiased power mantissa_val
                 sign_multiplier calculated (Py.hex as_int)).

Definition float_to_ieee754 (value : spec_float)
  : result IEEE754SinglePrecision :=
  __init__ value.

Definition binary_to_float (binary_str : Py.str) : result spec_float :=
  if negb (List.length binary_str =? 32)%nat then Raise ValueError
  else
    as_int <- Py.int binary_str 2 ;;
    packed <- Struct.pack_I as_int ;;
    Struct.unpack_f packed.

Definition hex_to_float (hex_str : Py.str) : result spec_float :=
  let hex_str :=
    if Py.startswith hex_str "0x" || Py.startswith hex_str "0X"
    then Py.slice_from hex_str 2 else hex_str in
  as_int <- Py.int hex_str 16 ;;
  packed <- Struct.pack_I as_int ;;
  Struct.unpack_f packed.

(** * Vocabulary of the statements *)

(** A bit as the character ['1'] or ['0']. *)
Definition bit_char (b : bool) : ascii := if b then "1"%char else "0"%char.

(** A list of bits as a string of binary digits. *)
Fixpoint bits_str (l : list bool) : string :=
  match l with
  | [] => ""
  | b :: l' => String (bit_char b) (bits_str l')
  end.

(** Value of a list of bits, most significant first, after [acc]. *)
Fixpoint bits_val (acc : Z) (l : list bool) : Z :=
  match l with
  | [] => acc
  | b :: l' => bits_val (acc * 2 + Z.b2z b) l'
  end.

(** The bits of [bin_digits]. *)
Fixpoint bits_of_pos (p : positive) (acc : list bool) : list bool :=
  match p with
  | xH => true :: acc
  | xO q => bits_of_pos q (false :: acc)
  | xI q => bits_of_pos q (true :: acc)
  end.

(** The 32 bits of a pattern, most significant first. *)
Definition bits32 (n : Z) : list bool :=
  match n with
  | Zpos p =>
      let d := bits_of_pos p [] in repeat false (32 - List.length d) ++ d
  | _ => repeat false 32
  end.

(** [m * 2^e] and [m' * 2^e'] are the same number. *)
Definition same_value (m : positive) (e : Z) (m' : positive) (e' : Z) : Prop :=
  Zpos m * 2 ^ (e - Z.min e e') = Zpos m' * 2 ^ (e' - Z.min e e').

(** The 32-bit pattern that the constructor encodes for [v]. *)
Definition bit_pattern (v : spec_float) : Z :=
  Struct.bits_of_single (Struct.to_single v).

(** The object of +infinity. *)
Definition infinity_object : IEEE754SinglePrecision :=
  {| value := S754_infinity false;
     binary_representation := "01111111100000000000000000000000";
     sign_bit := "0";
     exponent_bits := "11111111";
     mantissa_bits := "00000000000000000000000" |}.

(** The object of 1.0. *)
Definition one_object : IEEE754SinglePrecision :=
  {| value := Float.one;
     binary_representation := "00111111100000000000000000000000";
     sign_bit := "0";
     exponent_bits := "01111111";
     mantissa_bits := "00000000000000000000000" |}.

(** The three fields of [o] are the sign, exponent and mantissa of the
    pattern [p], in this order, 1, 8 and 23 characters wide. *)
Definition partitions (o : IEEE754SinglePrecision) (p : Z) : Prop :=
  exists sign exponent mantissa,
    get_sign o = Ok sign /\
    get_exponent_raw o = Ok exponent /\
    Py.int (get_mantissa o) 2 = Ok mantissa /\
    0 <= sign <= 1 /\ 0 <= exponent <= 255 /\ 0 <= mantissa < 2 ^ 23 /\
    binary_representation o = sign_bit o ++ exponent_bits o ++ mantissa_bits o /\
    String.length (sign_bit o) = 1%nat /\
    String.length (exponent_bits o) = 8%nat /\
    String.length (mantissa_bits o) = 23%nat /\
    sign * 2 ^ 31 + exponent * 2 ^ 23 + mantissa = p.

(** The five tags of the specification. *)
Definition five_tags : list string :=
  ["Normal"; "Zero"; "Denormalized"; "Infinity"; "NaN"].

(** The tags that [is_special] returns. *)
Definition special_tags : list string :=
  ["Zero"; "Denormalized"; "Infinity"; "NaN"].

(** A finite float whose value is a binary32 number: zero, or [m * 2^e]
    with a canonical binary32 representation [m' * 2^e']. *)
Definition single_representable (v : spec_float) : Prop :=
  match v with
  | S754_zero _ => True
  | S754_finite _ m e =>
      exists m' e',
        bounded Struct.prec Struct.emax m' e' = true /\ same_value m e m' e'
  | _ => False
  end.

(** The characters that [PyLong_FromString] can read in a literal of the
    given base. *)
Definition ascii_literal_char (base : Z) (c : ascii) : bool :=
  Py.Py_ISSPACE c || Ascii.eqb c "+" || Ascii.eqb c "-"
  || Py.is_underscore c || (Py.digit_value c <? base)
  || Py.prefix_letter base c.

(** The characters that a text accepted by [int] can hold: those, the
    other spaces of Unicode, and the decimal digits of any script whose
    value is below the base. *)
Definition literal_char (base : Z) (ch : N) : bool :=
  if (ch <? 127)%N then ascii_literal_char base (Py.chr ch)
  else Py.Py_UNICODE_ISSPACE ch
       || match Py.Py_UNICODE_TODECIMAL ch with
          | Some decimal => Z.of_N decimal <? base
          | None => false
          end.


(** The characters ['0'] and ['1']. *)
Definition binary_digit (c : ascii) : Prop := c = "0"%char \/ c = "1"%char.

(** The text that [hex_to_float] gives to [int]: without the prefix. *)
Definition without_prefix (hex_str : Py.str) : Py.str :=
  if Py.startswith hex_str "0x" || Py.startswith hex_str "0X"
  then Py.slice_from hex_str 2 else hex_str.

(** [m * 2^e] in units of [2^-1074], the smallest binary64 number. *)
Definition scaled (m e : Z) : Z := m * 2 ^ (e + 1074).

(** The float of [k * 2^-i]. *)
Definition dyadic (k i : Z) : spec_float :=
  binary_normalize Float.prec Float.emax k (- i) false.

(** The object of 3.14159, of pattern 0x40490fd0. *)
Definition pi_object : IEEE754SinglePrecision :=
  {| value := S754_finite false 7074231776675438 (-51);
     binary_representation := "01000000010010010000111111010000";
     sign_bit := "0";
     exponent_bits := "10000000";
     mantissa_bits := "10010010000111111010000" |}.

(** The rational value of a finite float (0 for the others). *)
Definition SF2Q (x : spec_float) : Q :=
  match x with
  | S754_finite s m e => (inject_Z (cond_Zopp s (Zpos m)) * 2 ^ e)%Q
  | _ => 0%Q
  end.

(** The sum of [bit * 2^(-i)] over the bits, the first at index [i]. *)
Fixpoint fraction_sum (i : positive) (bits : list bool) : Q :=
  match bits with
  | [] => 0%Q
  | bit :: rest =>
      ((if bit then 1 # 2 ^ i else 0) + fraction_sum (Pos.succ i) rest)%Q
  end.

(** The value that [display] calculates, when it calculates one. *)
Definition calculated_value (r : report) : option num :=
  match r with
  | SpecialValue _ _ => None
  | Analysis _ _ _ _ _ _ _ calculated _ => Some calculated
  end.

(** The value of a denormalized pattern after the specification:
    [(-1)^sign * 2^(-126) * 0.fraction], which is
    [(-1)^sign * mantissa * 2^(-149)]. *)
Definition denormal_value (sign mantissa : Z) : spec_float :=
  binary_normalize Float.prec Float.emax
    (if sign =? 1 then - mantissa else mantissa) (-149) false.

(** The smallest denormalized number, 2^-149, of pattern 1. *)
Definition min_denormal : spec_float :=
  S754_finite false 4503599627370496 (-201).

(** Its object. *)
Definition min_denormal_object : IEEE754SinglePrecision :=
  {| value := min_denormal;
     binary_representation := "00000000000000000000000000000001";
     sign_bit := "0";
     exponent_bits := "00000000";
     mantissa_bits := "00000000000000000000001" |}.

(** What the constructor and the accessors give for a float. *)
Definition encodes (v : spec_float) (binary : string)
           (sign exponent mantissa : Z) (special : option string) : Prop :=
  exists o,
    __init__ v = Ok o /\
    binary_representation o = binary /\
    get_sign o = Ok sign /\
    get_exponent_raw o = Ok exponent /\
    Py.int (get_mantissa o) 2 = Ok mantissa /\
    is_special o = Ok special.

(** A pattern that is not a NaN: its exponent field is not 255, or its
    mantissa field is 0. *)
Definition not_nan_pattern (p : Z) : Prop :=
  (p / 2 ^ 23) mod 256 <> 255 \/ p mod 2 ^ 23 = 0.

(** The tag of a binary32 number. *)
Definition single_class (y : spec_float) : option string :=
  match y with
  | S754_zero _ => Some "Zero"
  | S754_infinity _ => Some "Infinity"
  | S754_nan => Some "NaN"
  | S754_finite _ m _ =>
      if Zpos m <? 2 ^ 23 then Some "Denormalized" else None
  end.

(** The sign of a float that is not a NaN. *)
Definition float_sign (v : spec_float) : bool :=
  match v with
  | S754_zero s | S754_infinity s | S754_finite s _ _ => s
  | S754_nan => false
  end.

(** [y] is not a NaN and has the sign [s]. *)
Definition has_sign (s : bool) (y : spec_float) : Prop :=
  match y with
  | S754_zero s' | S754_infinity s' | S754_finite s' _ _ => s' = s
  | S754_nan => False
  end.

(** The hexadecimal digit [d], as a capital or a small letter above 9. *)
Definition hex_char (upper : bool) (d : Z) : ascii :=
  ascii_of_N (Z.to_N (if d <? 10 then 48 + d
                      else if upper then 55 + d else 87 + d)).

(** A list of digits, each with its case, as a text. *)
Fixpoint hex_text (ds : list (bool * Z)) : string :=
  match ds with
  | [] => ""
  | (upper, d) :: ds' => String (hex_char upper d) (hex_text ds')
  end.

(** Its value, most significant digit first, after [acc]. *)
Fixpoint hex_val (acc : Z) (ds : list (bool * Z)) : Z :=
  match ds with
  | [] => acc
  | (_, d) :: ds' => hex_val (acc * 16 + d) ds'
  end.

(** A digit of base 16, whatever its case. *)
Definition hex_digit_ok (ud : bool * Z) : Prop := 0 <= snd ud < 16.

(** A finite float of magnitude [2^128 - 2^103] or more: half way between
    the largest binary32 number and [2^128], or beyond. *)
Definition too_large (v : spec_float) : Prop :=
  match v with
  | S754_finite _ m e => scaled (2 ^ 25 - 1) 103 <= scaled (Zpos m) e
  | _ => False
  end.

(** * Verification *)

(** ** Strings as texts *)

Lemma chr_code (c : ascii) : Py.chr (N_of_ascii c) = c.
Proof. apply ascii_N_embedding. Qed.

Lemma code_points_length (s : string) :
  List.length (Py.code_points s) = String.length s.
Proof.
  unfold Py.code_points. rewrite length_map.
  induction s; cbn; congruence.
Qed.

Lemma code_points_chars (s : string) :
  map Py.chr (Py.code_points s) = list_ascii_of_string s.
Proof.
  unfold Py.code_points. rewrite map_map.
  induction (list_ascii_of_string s) as [|c l IH]; [reflexivity|].
  cbn [map]. now rewrite chr_code, IH.
Qed.

(** [int] on an ASCII string reads its characters as they are. *)
Lemma int_ascii (s : string) (base : Z) :
  forallb Py.is_ascii (Py.code_points s) = true ->
  Py.int s base = Py.PyLong_FromString (list_ascii_of_string s) base.
Proof.
  intro H. unfold Py.int, Py.transform_decimal_and_space.
  now rewrite H, code_points_chars.
Qed.

(** ** Strings of binary digits *)

Lemma bit_char_facts (b : bool) :
  Py.Py_ISSPACE (bit_char b) = false /\
  Py.is_ascii (N_of_ascii (bit_char b)) = true /\
  Py.is_underscore (bit_char b) = false /\
  Py.digit_value (bit_char b) = Z.b2z b /\
  Ascii.eqb (bit_char b) "+" = false /\
  Ascii.eqb (bit_char b) "-" = false /\
  Ascii.eqb (bit_char b) "1" = b /\
  (forall base, Py.prefix_letter base (bit_char b) = false).
Proof.
  destruct b; repeat split; try reflexivity;
    intro base; unfold Py.prefix_letter; cbn;
    now rewrite !andb_false_r.
Qed.

Lemma bits_str_length (l : list bool) :
  String.length (bits_str l) = List.length l.
Proof. induction l; simpl; congruence. Qed.

Lemma bits_str_ascii (l : list bool) :
  forallb Py.is_ascii (Py.code_points (bits_str l)) = true.
Proof.
  induction l as [|b l IH]; [reflexivity|].
  change (Py.code_points (bits_str (b :: l)))
    with (N_of_ascii (bit_char b) :: Py.code_points (bits_str l)).
  cbn [forallb]. rewrite IH. now destruct b.
Qed.

Lemma bits_val_acc (l : list bool) (acc : Z) :
  bits_val acc l = acc * 2 ^ Z.of_nat (List.length l) + bits_val 0 l.
Proof.
  revert acc. induction l as [|b l IH]; intro acc.
  - simpl. lia.
  - cbn [bits_val List.length]. rewrite IH, (IH (0 * 2 + Z.b2z b)).
    rewrite Nat2Z.inj_succ, Z.pow_succ_r by lia. ring.
Qed.

Lemma bits_val_app (a b : list bool) (acc : Z) :
  bits_val acc (a ++ b) = bits_val (bits_val acc a) b.
Proof. revert acc. induction a; intro acc; simpl; auto. Qed.

Lemma bits_val_bounds (l : list bool) :
  0 <= bits_val 0 l < 2 ^ Z.of_nat (List.length l).
Proof.
  induction l as [|b l IH] using rev_ind.
  - simpl. lia.
  - rewrite bits_val_app, length_app, Nat2Z.inj_add, Z.pow_add_r by lia.
    cbn [bits_val List.length]. change (2 ^ Z.of_nat 1) with 2.
    destruct b; cbn [Z.b2z]; lia.
Qed.

Lemma bits_val_zeros (k : nat) (l : list bool) (acc : Z) :
  bits_val acc (repeat false k ++ l) =
  bits_val (acc * 2 ^ Z.of_nat k) l.
Proof.
  revert acc. induction k as [|k IH]; intro acc.
  - cbn. f_equal. lia.
  - cbn [repeat app bits_val Z.b2z]. rewrite IH. f_equal.
    rewrite Nat2Z.inj_succ, Z.pow_succ_r by lia. ring.
Qed.

Lemma bits_of_pos_spec (p : positive) (acc : list bool) :
  Py.bin_digits p (bits_str acc) = bits_str (bits_of_pos p acc) /\
  List.length (bits_of_pos p acc) = (Pos.size_nat p + List.length acc)%nat /\
  bits_val 0 (bits_of_pos p acc) =
  Zpos p * 2 ^ Z.of_nat (List.length acc) + bits_val 0 acc.
Proof.
  revert acc. induction p as [q IH|q IH|]; intro acc.
  - destruct (IH (true :: acc)) as (E1 & E2 & E3).
    cbn [Py.bin_digits bits_of_pos Pos.size_nat].
    change (String "1" (bits_str acc)) with (bits_str (true :: acc)).
    rewrite E1, E2, E3. repeat split; [simpl; lia|].
    cbn [bits_val List.length]. rewrite (bits_val_acc acc (0 * 2 + Z.b2z true)).
    rewrite Nat2Z.inj_succ, Z.pow_succ_r by lia. cbn [Z.b2z]. lia.
  - destruct (IH (false :: acc)) as (E1 & E2 & E3).
    cbn [Py.bin_digits bits_of_pos Pos.size_nat].
    change (String "0" (bits_str acc)) with (bits_str (false :: acc)).
    rewrite E1, E2, E3. repeat split; [simpl; lia|].
    cbn [bits_val List.length]. rewrite (bits_val_acc acc (0 * 2 + Z.b2z false)).
    rewrite Nat2Z.inj_succ, Z.pow_succ_r by lia. cbn [Z.b2z]. lia.
  - cbn [Py.bin_digits bits_of_pos Pos.size_nat bits_val List.length].
    repeat split.
    rewrite (bits_val_acc acc (0 * 2 + Z.b2z true)). cbn [Z.b2z]. lia.
Qed.

Lemma zeros_bits (k : nat) (l : list bool) :
  Py.zeros k (bits_str l) = bits_str (repeat false k ++ l).
Proof. induction k; simpl; congruence. Qed.

Lemma size_nat_bound (p : positive) (k : nat) :
  Zpos p < 2 ^ Z.of_nat k -> (Pos.size_nat p <= k)%nat.
Proof.
  revert k. induction p as [q IH|q IH|]; intros k H; cbn [Pos.size_nat].
  - destruct k as [|k]; [simpl in H; lia|].
    rewrite Nat2Z.inj_succ, Z.pow_succ_r in H by lia.
    apply le_n_S, IH. lia.
  - destruct k as [|k]; [simpl in H; lia|].
    rewrite Nat2Z.inj_succ, Z.pow_succ_r in H by lia.
    apply le_n_S, IH. lia.
  - destruct k as [|k]; [simpl in H; lia|]. lia.
Qed.

(** [format(n, '032b')] of a 32-bit pattern: its 32 bits. *)
Lemma format_032b_bits (n : Z) :
  0 <= n < 2 ^ 32 ->
  Py.format_032b n = bits_str (bits32 n) /\
  List.length (bits32 n) = 32%nat /\
  bits_val 0 (bits32 n) = n.
Proof.
  intros [H0 H1]. destruct n as [|p|p]; [now repeat split| |lia].
  unfold Py.format_032b, bits32.
  destruct (bits_of_pos_spec p []) as (E1 & E2 & E3).
  change (bits_str []) with "" in E1.
  assert (Hs : (Pos.size_nat p <= 32)%nat) by now apply size_nat_bound.
  cbn [List.length] in E2, E3. rewrite E1, bits_str_length, zeros_bits.
  repeat split.
  - rewrite length_app, repeat_length. lia.
  - rewrite bits_val_zeros, bits_val_acc, E3. cbn [bits_val]. lia.
Qed.

(** Slices of a string of bits. *)
Lemma substring_bits (l : list bool) (a n : nat) :
  substring a n (bits_str l) = bits_str (firstn n (skipn a l)).
Proof.
  revert a n. induction l as [|b l IH]; intros a n.
  - destruct a, n; reflexivity.
  - destruct a as [|a].
    + destruct n as [|n]; [reflexivity|].
      cbn [bits_str substring skipn firstn]. now rewrite IH.
    + cbn [bits_str substring skipn]. apply IH.
Qed.

Lemma scan_digits_bits (l : list bool) (prev_us : bool) (acc cnt : Z) :
  Py.scan_digits 2 prev_us acc cnt (list_ascii_of_string (bits_str l)) =
  Some (bits_val acc l, cnt + Z.of_nat (List.length l),
        match l with [] => prev_us | _ => false end, []).
Proof.
  revert prev_us acc cnt. induction l as [|b l IH]; intros prev_us acc cnt.
  - simpl. now rewrite Z.add_0_r.
  - cbn [bits_str list_ascii_of_string Py.scan_digits].
    destruct (bit_char_facts b) as (_ & _ & -> & -> & _).
    assert (Hb : (Z.b2z b <? 2) = true) by (destruct b; reflexivity).
    rewrite Hb, IH. cbn [bits_val List.length]. rewrite Nat2Z.inj_succ.
    do 3 f_equal; [|now destruct l]. f_equal. lia.
Qed.

(** [int(text, 2)] on a non-empty string of binary digits. *)
Lemma int_bits_str (l : list bool) :
  l <> [] -> Py.int (bits_str l) 2 = Ok (bits_val 0 l).
Proof.
  intro Hl. rewrite int_ascii by apply bits_str_ascii.
  unfold Py.PyLong_FromString.
  destruct l as [|b l]; [congruence|].
  cbn [bits_str list_ascii_of_string Py.skip_space].
  destruct (bit_char_facts b) as (Hsp & _ & Hus & _ & Hp & Hm & _ & _).
  rewrite Hsp. cbn [Py.read_sign]. rewrite Hp, Hm.
  assert (Hpre : Py.skip_prefix 2
                   (bit_char b :: list_ascii_of_string (bits_str l)) =
                 bit_char b :: list_ascii_of_string (bits_str l)).
  { destruct l as [|b' l]; [reflexivity|].
    cbn [bits_str list_ascii_of_string Py.skip_prefix].
    destruct (bit_char_facts b') as (_ & _ & _ & _ & _ & _ & _ & Hpl).
    now rewrite Hpl, andb_false_r. }
  rewrite Hpre. cbn [Py.starts_with_underscore]. rewrite Hus.
  change (bit_char b :: list_ascii_of_string (bits_str l))
    with (list_ascii_of_string (bits_str (b :: l))).
  rewrite scan_digits_bits.
  change (negb (Py.is_power_of_two 2)) with false. cbn [andb].
  cbn [bits_str list_ascii_of_string List.length Nat.eqb Py.skip_space].
  f_equal. lia.
Qed.

(** [int(text)] on one binary digit. *)
Lemma int_one_bit (b : bool) : Py.int (bits_str [b]) 10 = Ok (Z.b2z b).
Proof. now destruct b. Qed.

(** ** Facts on [SpecFloat]'s rounding *)

Lemma digits2_pos_size (p : positive) : digits2_pos p = Pos.size p.
Proof. induction p; simpl; congruence. Qed.

Lemma digits2_log2 (p : positive) :
  Zpos (digits2_pos p) = Z.log2 (Zpos p) + 1.
Proof.
  rewrite digits2_pos_size.
  destruct p; cbn [Pos.size Z.log2]; rewrite ?Pos2Z.inj_succ; lia.
Qed.

Lemma digits2_bounds (p : positive) :
  2 ^ (Zpos (digits2_pos p) - 1) <= Zpos p < 2 ^ Zpos (digits2_pos p).
Proof.
  rewrite digits2_log2.
  replace (Z.log2 (Zpos p) + 1 - 1) with (Z.log2 (Zpos p)) by lia.
  replace (Z.log2 (Zpos p) + 1) with (Z.succ (Z.log2 (Zpos p))) by lia.
  apply Z.log2_spec. lia.
Qed.

(** The number of digits is fixed by the two bounds. *)
Lemma digits2_unique (p : positive) (d : Z) :
  2 ^ (d - 1) <= Zpos p < 2 ^ d -> Zpos (digits2_pos p) = d.
Proof.
  intros [H1 H2]. rewrite digits2_log2.
  assert (0 < d).
  { destruct (Z.lt_trichotomy d 0) as [Hd|[Hd|Hd]]; [|subst d; simpl in H2; lia|lia].
    rewrite Z.pow_neg_r in H2 by lia. lia. }
  assert (Z.log2 (Zpos p) = d - 1); [|lia].
  apply Z.log2_unique; [lia|]. split; [lia|].
  now replace (Z.succ (d - 1)) with d by lia.
Qed.

Lemma iter_pos_iter {A : Type} (f : A -> A) (p : positive) (x : A) :
  iter_pos f p x = Pos.iter f x p.
Proof.
  revert x. induction p as [q IH|q IH|]; intro x; simpl;
    rewrite ?IH, ?Pos.iter_swap; reflexivity.
Qed.

Lemma iter_xO (m d : positive) :
  Zpos (Pos.iter xO m d) = Zpos m * 2 ^ Zpos d.
Proof.
  induction d as [|d IH] using Pos.peano_ind.
  - simpl. lia.
  - rewrite Pos.iter_succ, Pos2Z.inj_xO, IH, Pos2Z.inj_succ.
    rewrite Z.pow_succ_r by lia. ring.
Qed.

(** [shl_align] lowers the exponent to [e'] when [e' < e]. *)
Lemma shl_align_spec (m : positive) (e e' : Z) :
  snd (shl_align m e e') = Z.min e e' /\
  Zpos (fst (shl_align m e e')) = Zpos m * 2 ^ (e - Z.min e e').
Proof.
  unfold shl_align. destruct (e' - e) as [|d|d] eqn:E; cbn [fst snd].
  - rewrite Z.min_l by lia. rewrite Z.sub_diag. simpl. lia.
  - rewrite Z.min_l by lia. rewrite Z.sub_diag. simpl. lia.
  - rewrite Z.min_r by lia. rewrite iter_xO. split; [reflexivity|].
    do 2 f_equal. lia.
Qed.

(** Shifting out [p] zero bits is exact. *)
Lemma shr_exact (m p : positive) :
  Pos.iter shr_1 (Build_shr_record (Zpos (Pos.iter xO m p)) false false) p =
  Build_shr_record (Zpos m) false false.
Proof.
  induction p as [|p IH] using Pos.peano_ind.
  - reflexivity.
  - rewrite Pos.iter_succ_r, Pos.iter_succ. cbn [shr_1 orb]. exact IH.
Qed.

Lemma shr_1_m (x : shr_record) :
  0 <= shr_m x -> shr_m (shr_1 x) = shr_m x / 2.
Proof.
  destruct x as [m r s]. cbn [shr_m shr_1]. intro H.
  destruct m as [|[q|q|]|q]; cbn [shr_m]; try reflexivity; try lia.
  - rewrite Pos2Z.inj_xI. apply (Z.div_unique _ _ _ 1); lia.
  - rewrite Pos2Z.inj_xO. apply (Z.div_unique _ _ _ 0); lia.
Qed.

Lemma shr_iter_m (x : shr_record) (p : positive) :
  0 <= shr_m x -> shr_m (Pos.iter shr_1 x p) = shr_m x / 2 ^ Zpos p.
Proof.
  intro H. induction p as [|p IH] using Pos.peano_ind.
  - simpl. now apply shr_1_m.
  - rewrite Pos.iter_succ, shr_1_m, IH.
    + rewrite Z.div_div by lia. f_equal.
      rewrite Pos2Z.inj_succ, Z.pow_succ_r by lia. ring.
    + rewrite IH. apply Z.div_pos; lia.
Qed.

Lemma same_value_digits (m m' : positive) (e e' : Z) :
  same_value m e m' e' ->
  Zpos (digits2_pos m) + e = Zpos (digits2_pos m') + e'.
Proof.
  unfold same_value. intro H. apply (f_equal Z.log2) in H.
  rewrite !Z.log2_mul_pow2 in H by lia.
  rewrite !digits2_log2. lia.
Qed.

Section Rounding.

Variables prec emax : Z.

(** A number that has a canonical, bounded representation [(m', e')] is
    rounded to it: the conversion is exact. *)
Lemma binary_round_exact (s : bool) (m m' : positive) (e e' : Z) :
  bounded prec emax m' e' = true ->
  same_value m e m' e' ->
  binary_round prec emax s m e = S754_finite s m' e'.
Proof.
  intros Hb Hv. pose proof (same_value_digits _ _ _ _ Hv) as Hd.
  unfold bounded, canonical_mantissa in Hb.
  apply andb_prop in Hb. destruct Hb as [Hc Hle].
  apply Z.eqb_eq in Hc.
  unfold binary_round. rewrite Hd, Hc.
  destruct (shl_align_spec m e e') as [Es Ef].
  destruct (shl_align m e e') as [mz ez]. cbn [fst snd] in Es, Ef. subst ez.
  assert (Hmz : Zpos mz = Zpos m' * 2 ^ (e' - Z.min e e')).
  { rewrite Ef. exact Hv. }
  assert (Hdz : Zpos (digits2_pos mz) + Z.min e e' =
                Zpos (digits2_pos m') + e').
  { apply same_value_digits. unfold same_value.
    rewrite (Z.min_l (Z.min e e') e') by lia.
    rewrite Z.sub_diag. simpl (2 ^ 0). lia. }
  unfold binary_round_aux, shr_fexp. cbn [Zdigits2 shr_record_of_loc].
  rewrite Hdz, Hc.
  assert (Hshr : shr (Build_shr_record (Zpos mz) false false)
                     (Z.min e e') (e' - Z.min e e') =
                 (Build_shr_record (Zpos m') false false, e')).
  { unfold shr. destruct (e' - Z.min e e') as [|p|p] eqn:E.
    - simpl (2 ^ 0) in Hmz. f_equal; [f_equal; lia|lia].
    - rewrite iter_pos_iter. f_equal; [|lia].
      assert (mz = Pos.iter xO m' p) as ->.
      { apply Pos2Z.inj. now rewrite iter_xO. }
      apply shr_exact.
    - lia. }
  rewrite Hshr. cbn [shr_m loc_of_shr_record round_nearest_even Zdigits2].
  rewrite Hc, Z.sub_diag. cbn [shr shr_m]. now rewrite Hle.
Qed.

End Rounding.

Lemma Zdigits2_log2 (m : Z) : 0 < m -> Zdigits2 m = Z.log2 m + 1.
Proof. destruct m; try lia. intros _. apply digits2_log2. Qed.

Lemma shr_record_of_loc_m (m : Z) (l : location) :
  shr_m (shr_record_of_loc m l) = m.
Proof. now destruct l as [|[]]. Qed.

Lemma round_nearest_even_bounds (m : Z) (l : location) :
  m <= round_nearest_even m l <= m + 1.
Proof.
  unfold round_nearest_even. destruct l as [|[]]; try lia.
  destruct (Z.even m); lia.
Qed.

Section Validity.

Variables prec emax : Z.
Hypothesis prec_pos : 0 < prec.

Let fexp := fexp prec emax.

(** The result of one [shr_fexp] on a number with too many digits: the
    exponent is the canonical one and the digits that remain fit it. *)
Lemma shr_fexp_post (m e : Z) (l : location) :
  0 < m -> e <= fexp (Zdigits2 m + e) ->
  let r := shr_fexp prec emax m e l in
  snd r = fexp (Zdigits2 m + e) /\
  0 <= shr_m (fst r) /\
  (0 < shr_m (fst r) -> Zdigits2 (shr_m (fst r)) + snd r = Zdigits2 m + e) /\
  (shr_m (fst r) = 0 -> Zdigits2 m + e <= snd r).
Proof.
  intros Hm He. unfold shr_fexp, shr. fold fexp.
  destruct (fexp (Zdigits2 m + e) - e) as [|p|p] eqn:E; cbn [fst snd];
    [| |lia].
  - rewrite shr_record_of_loc_m. repeat split; lia.
  - rewrite iter_pos_iter, shr_iter_m, shr_record_of_loc_m
      by (rewrite shr_record_of_loc_m; lia).
    assert (Hq : 0 <= m / 2 ^ Zpos p) by (apply Z.div_pos; lia).
    repeat split; [lia|exact Hq| |].
    + intro Hpos. rewrite !Zdigits2_log2 by lia.
      rewrite <- Z.shiftr_div_pow2 by lia.
      rewrite Z.log2_shiftr by lia.
      assert (2 ^ Zpos p <= m).
      { destruct (Z.le_gt_cases (2 ^ Zpos p) m) as [L|L]; [exact L|].
        rewrite Z.div_small in Hpos by lia. lia. }
      assert (Zpos p <= Z.log2 m) by (apply Z.log2_le_pow2; lia).
      lia.
    + intro Hz. rewrite Zdigits2_log2 by lia.
      assert (m < 2 ^ Zpos p).
      { destruct (Z.le_gt_cases (2 ^ Zpos p) m) as [L|L]; [|lia].
        assert (1 <= m / 2 ^ Zpos p); [|lia].
        apply Z.div_le_lower_bound; lia. }
      assert (Z.log2 m < Zpos p) by (apply Z.log2_lt_pow2; lia).
      lia.
Qed.

Lemma shr_fexp_zero (e : Z) (l : location) :
  shr_m (fst (shr_fexp prec emax 0 e l)) = 0.
Proof.
  unfold shr_fexp, shr.
  destruct (SpecFloat.fexp prec emax (Zdigits2 0 + e) - e); cbn [fst];
    rewrite ?iter_pos_iter, ?shr_iter_m, ?shr_record_of_loc_m;
    rewrite ?shr_record_of_loc_m; try reflexivity; try lia.
Qed.

(** [binary_round_aux] returns a float of the format. *)
Lemma binary_round_aux_valid (s : bool) (m : positive) (e : Z) (l : location) :
  e <= fexp (Zpos (digits2_pos m) + e) ->
  valid_binary prec emax (binary_round_aux prec emax s (Zpos m) e l) = true.
Proof.
  intro He. unfold binary_round_aux.
  pose proof (shr_fexp_post (Zpos m) e l eq_refl He) as H1.
  destruct (shr_fexp prec emax (Zpos m) e l) as [mrs' e'].
  cbn [fst snd Zdigits2] in H1. destruct H1 as (E1 & P1 & D1 & Z1).
  pose proof (round_nearest_even_bounds (shr_m mrs') (loc_of_shr_record mrs'))
    as Hr.
  set (m2 := round_nearest_even (shr_m mrs') (loc_of_shr_record mrs')) in *.
  destruct (Z.eq_dec m2 0) as [Hz|Hnz].
  - rewrite Hz. pose proof (shr_fexp_zero e' loc_Exact) as H0.
    destruct (shr_fexp prec emax 0 e' loc_Exact) as [mrs'' e''].
    cbn [fst] in H0. now rewrite H0.
  - assert (Hm2 : 0 < m2) by lia.
    assert (He2 : e' <= fexp (Zdigits2 m2 + e')).
    { destruct (Z.eq_dec (shr_m mrs') 0) as [Hs|Hs].
      - specialize (Z1 Hs). subst e'. unfold fexp, SpecFloat.fexp in *. lia.
      - assert (Hle : Zdigits2 (shr_m mrs') <= Zdigits2 m2).
        { rewrite !Zdigits2_log2 by lia.
          apply Z.add_le_mono_r, Z.log2_le_mono. lia. }
        specialize (D1 ltac:(lia)). subst e'.
        unfold fexp, SpecFloat.fexp in *. lia. }
    pose proof (shr_fexp_post m2 e' loc_Exact Hm2 He2) as H2.
    destruct (shr_fexp prec emax m2 e' loc_Exact) as [mrs'' e''].
    cbn [fst snd] in H2. destruct H2 as (E2 & P2 & D2 & _).
    destruct (shr_m mrs'') as [|m3|m3] eqn:E3; [reflexivity| |reflexivity].
    destruct (e'' <=? emax - prec) eqn:Le; [|reflexivity].
    cbn [valid_binary]. unfold bounded, canonical_mantissa.
    rewrite Le, andb_true_r. apply Z.eqb_eq.
    specialize (D2 ltac:(lia)). cbn [Zdigits2] in D2. fold fexp.
    rewrite D2. lia.
Qed.

(** So does [binary_round]. *)
Lemma binary_round_valid (s : bool) (m : positive) (e : Z) :
  valid_binary prec emax (binary_round prec emax s m e) = true.
Proof.
  unfold binary_round.
  destruct (shl_align_spec m e (SpecFloat.fexp prec emax
                                  (Zpos (digits2_pos m) + e))) as [Es Ef].
  destruct (shl_align m e _) as [mz ez]. cbn [fst snd] in Es, Ef.
  apply binary_round_aux_valid.
  assert (Hd : Zpos (digits2_pos mz) + ez = Zpos (digits2_pos m) + e).
  { apply same_value_digits. unfold same_value. subst ez.
    set (f := SpecFloat.fexp prec emax (Zpos (digits2_pos m) + e)) in *.
    rewrite (Z.min_l (Z.min e f) e) by lia.
    rewrite Z.sub_diag. simpl (2 ^ 0). lia. }
  rewrite Hd, Es. apply Z.le_min_r.
Qed.

End Validity.

(** ** binary32 and its encoding *)

Lemma same_value_sym (m m' : positive) (e e' : Z) :
  same_value m e m' e' -> same_value m' e' m e.
Proof. unfold same_value. rewrite (Z.min_comm e' e). auto. Qed.

Lemma same_value_refl (m : positive) (e : Z) : same_value m e m e.
Proof. reflexivity. Qed.

(** The two shapes of a binary32 number: subnormal or normal. *)
Lemma bounded_single_cases (m : positive) (e : Z) :
  bounded Struct.prec Struct.emax m e = true ->
  (Zpos m < 2 ^ 23 /\ e = -149) \/
  (2 ^ 23 <= Zpos m < 2 ^ 24 /\ -149 <= e <= 104).
Proof.
  unfold bounded, canonical_mantissa, fexp, emin, Struct.prec, Struct.emax.
  intro H. apply andb_prop in H. destruct H as [Hc Hle].
  apply Z.eqb_eq in Hc. apply Z.leb_le in Hle.
  pose proof (digits2_bounds m) as [Hlo Hhi].
  set (d := Zpos (digits2_pos m)) in *.
  assert (Hd : 0 < d) by (unfold d; lia).
  destruct (Z.le_gt_cases d 23) as [L|L].
  - left. split; [|lia].
    apply Z.lt_le_trans with (2 ^ d); [exact Hhi|].
    apply Z.pow_le_mono_r; lia.
  - right. assert (d = 24) by lia.
    replace (d - 1) with 23 in Hlo by lia.
    replace d with 24 in Hhi by lia. lia.
Qed.

Lemma bits_of_single_range (y : spec_float) :
  valid_binary Struct.prec Struct.emax y = true ->
  0 <= Struct.bits_of_single y < 2 ^ 32.
Proof.
  destruct y as [s|s| |s m e]; cbn [valid_binary Struct.bits_of_single];
    intro H.
  - destruct s; cbn; lia.
  - destruct s; cbn; lia.
  - cbn; lia.
  - apply bounded_single_cases in H.
    change (2 ^ 23) with 8388608 in *. change (2 ^ 24) with 16777216 in *.
    change (2 ^ 31) with 2147483648. change (2 ^ 32) with 4294967296.
    destruct (Zpos m <? 8388608) eqn:E;
      [apply Z.ltb_lt in E|apply Z.ltb_ge in E];
      destruct s; cbn [Struct.sign_field]; lia.
Qed.

Lemma single_of_bits_of_single (y : spec_float) :
  valid_binary Struct.prec Struct.emax y = true ->
  Struct.single_of_bits (Struct.bits_of_single y) = y.
Proof.
  destruct y as [s|s| |s m e]; cbn [valid_binary]; intro H;
    try (destruct s; reflexivity); [reflexivity|].
  apply bounded_single_cases in H.
  unfold Struct.bits_of_single, Struct.single_of_bits.
  change (2 ^ 23) with 8388608 in *. change (2 ^ 24) with 16777216 in *.
  change (2 ^ 31) with 2147483648.
  destruct (Zpos m <? 8388608) eqn:E;
    [apply Z.ltb_lt in E|apply Z.ltb_ge in E].
  - destruct H as [[_ ->]|H]; [|lia].
    set (n := Struct.sign_field s * 2147483648 + Zpos m).
    assert (Hs : (2147483648 <=? n) = s).
    { unfold n. destruct s; cbn [Struct.sign_field];
        [apply Z.leb_le|apply Z.leb_gt]; lia. }
    assert (He : (n / 8388608) mod 256 = 0).
    { unfold n. destruct s; cbn [Struct.sign_field];
        Z.div_mod_to_equations; lia. }
    assert (Hm : n mod 8388608 = Zpos m).
    { unfold n. destruct s; cbn [Struct.sign_field];
        Z.div_mod_to_equations; lia. }
    rewrite Hs, He, Hm. reflexivity.
  - destruct H as [H|[Hm He]]; [lia|].
    set (n := Struct.sign_field s * 2147483648 + (e + 150) * 8388608 +
              (Zpos m - 8388608)).
    assert (Hs : (2147483648 <=? n) = s).
    { unfold n. destruct s; cbn [Struct.sign_field];
        [apply Z.leb_le|apply Z.leb_gt]; lia. }
    assert (Hef : (n / 8388608) mod 256 = e + 150).
    { unfold n. destruct s; cbn [Struct.sign_field];
        Z.div_mod_to_equations; lia. }
    assert (Hmf : n mod 8388608 = Zpos m - 8388608).
    { unfold n. destruct s; cbn [Struct.sign_field];
        Z.div_mod_to_equations; lia. }
    rewrite Hs, Hef, Hmf.
    destruct (e + 150 =? 255) eqn:E1; [apply Z.eqb_eq in E1; lia|].
    destruct (e + 150 =? 0) eqn:E2; [apply Z.eqb_eq in E2; lia|].
    replace (Zpos m - 8388608 + 8388608) with (Zpos m) by lia.
    f_equal. lia.
Qed.

Lemma uint32_of_bytes_of_uint32 (n : Z) :
  0 <= n < 2 ^ 32 ->
  Struct.uint32_of_bytes (Struct.bytes_of_uint32 n) = Ok n.
Proof.
  intro H. unfold Struct.uint32_of_bytes, Struct.bytes_of_uint32.
  change (2 ^ 32) with 4294967296 in H.
  change (2 ^ 24) with 16777216. change (2 ^ 16) with 65536.
  change (2 ^ 8) with 256. f_equal. Z.div_mod_to_equations. lia.
Qed.

(** [to_single] always returns a binary32 number. *)
Lemma to_single_valid (x : spec_float) :
  valid_binary Struct.prec Struct.emax (Struct.to_single x) = true.
Proof.
  destruct x as [s|s| |s m e]; try reflexivity.
  apply binary_round_valid. reflexivity.
Qed.

(** The 32-bit pattern of a float: [struct.unpack('!I',
    struct.pack('!f', x))[0]]. *)
Lemma pack_f_unpack_I (x : spec_float) (packed : list Z) :
  Struct.pack_f x = Ok packed ->
  Struct.unpack_I packed = Ok (Struct.bits_of_single (Struct.to_single x)) /\
  0 <= Struct.bits_of_single (Struct.to_single x) < 2 ^ 32.
Proof.
  unfold Struct.pack_f, Struct.unpack_I.
  pose proof (bits_of_single_range _ (to_single_valid x)) as Hr.
  destruct (_ && _); [discriminate|]. intro H. injection H as <-.
  split; [now apply uint32_of_bytes_of_uint32|exact Hr].
Qed.

(** ** Objects of the class *)

Lemma Ok_inj {A : Type} (a b : A) : Ok a = Ok b -> a = b.
Proof. congruence. Qed.

Lemma split32 (l : list bool) :
  List.length l = 32%nat ->
  exists a b c,
    l = (a ++ b ++ c)%list /\ List.length a = 1%nat /\ List.length b = 8%nat /\
    List.length c = 23%nat /\ firstn 1 l = a /\
    firstn 8 (skipn 1 l) = b /\ firstn 23 (skipn 9 l) = c.
Proof.
  intro H. do 32 (destruct l as [|? l]; [discriminate H|]).
  destruct l; [|discriminate H].
  eexists [_], [_; _; _; _; _; _; _; _], _. cbn. repeat split; reflexivity.
Qed.

Lemma init_fields_bits (v : spec_float) (l : list bool) :
  List.length l = 32%nat ->
  init_fields v (bits_str l) =
  Ok {| value := v;
        binary_representation := bits_str l;
        sign_bit := bits_str (firstn 1 l);
        exponent_bits := bits_str (firstn 8 (skipn 1 l));
        mantissa_bits := bits_str (firstn 23 (skipn 9 l)) |}.
Proof.
  intro H. unfold init_fields, Py.slice.
  rewrite !substring_bits.
  destruct l as [|b l]; [discriminate H|]. reflexivity.
Qed.

(** What the constructor's string holds. *)
Lemma get_binary_representation_spec (v : spec_float) (s : string) :
  _get_binary_representation v = Ok s ->
  s = Py.format_032b (bit_pattern v) /\ 0 <= bit_pattern v < 2 ^ 32.
Proof.
  unfold _get_binary_representation, bind.
  destruct (Struct.pack_f v) as [packed|] eqn:E; [|discriminate].
  destruct (pack_f_unpack_I _ _ E) as [-> Hr]. intro H. injection H as <-.
  now split.
Qed.

(** Every object that the constructor builds is built by [init_fields]
    from the string of a 32-bit pattern, the pattern of its float.  The
    statements on objects below are stated for every 32-bit pattern, and
    so for every object of the constructor. *)
Lemma init_pattern (v : spec_float) (o : IEEE754SinglePrecision) :
  __init__ v = Ok o ->
  0 <= bit_pattern v < 2 ^ 32 /\
  init_fields v (Py.format_032b (bit_pattern v)) = Ok o.
Proof.
  unfold __init__, bind.
  destruct (_get_binary_representation v) as [s|] eqn:E; [|discriminate].
  apply get_binary_representation_spec in E. destruct E as [-> Hr]. auto.
Qed.

(** The numeric fields of the object built from the pattern [p]. *)
Lemma pattern_fields (v : spec_float) (p : Z) (o : IEEE754SinglePrecision) :
  0 <= p < 2 ^ 32 ->
  init_fields v (Py.format_032b p) = Ok o ->
  exists sb eb mb,
    List.length sb = 1%nat /\ List.length eb = 8%nat /\
    List.length mb = 23%nat /\
    binary_representation o = bits_str (sb ++ eb ++ mb)%list /\
    sign_bit o = bits_str sb /\ exponent_bits o = bits_str eb /\
    mantissa_bits o = bits_str mb /\
    bits_val 0 sb = p / 2 ^ 31 /\
    bits_val 0 eb = (p / 2 ^ 23) mod 256 /\
    bits_val 0 mb = p mod 2 ^ 23.
Proof.
  intros Hp Ho. destruct (format_032b_bits p Hp) as (Ef & El & Ev).
  rewrite Ef, (init_fields_bits _ _ El) in Ho. apply Ok_inj in Ho. subst o.
  destruct (split32 _ El) as (a & b & c & E & La & Lb & Lc & Ea & Eb & Ec).
  rewrite Ea, Eb, Ec.
  exists a, b, c. cbn [binary_representation sign_bit exponent_bits
                       mantissa_bits].
  rewrite <- E. repeat split; try assumption.
  all: rewrite E, !bits_val_app in Ev.
  all: rewrite (bits_val_acc c), (bits_val_acc b), Lb, Lc in Ev.
  all: pose proof (bits_val_bounds a) as Ba; rewrite La in Ba.
  all: pose proof (bits_val_bounds b) as Bb; rewrite Lb in Bb.
  all: pose proof (bits_val_bounds c) as Bc; rewrite Lc in Bc.
  all: change (2 ^ Z.of_nat 1) with 2 in *.
  all: change (2 ^ Z.of_nat 8) with 256 in *.
  all: change (2 ^ Z.of_nat 23) with 8388608 in *.
  all: change (2 ^ 31) with 2147483648; change (2 ^ 23) with 8388608.
  all: Z.div_mod_to_equations; lia.
Qed.

Lemma bits_ne (l : list bool) (n : nat) :
  List.length l = S n -> l <> [].
Proof. destruct l; [discriminate|discriminate]. Qed.

Lemma one_bit (l : list bool) :
  List.length l = 1%nat -> Py.int (bits_str l) 10 = Ok (bits_val 0 l).
Proof.
  destruct l as [|b [|? ?]]; try discriminate. intros _.
  rewrite int_one_bit. cbn. reflexivity.
Qed.

(** The accessors on that object. *)
Lemma pattern_accessors (v : spec_float) (p : Z) (o : IEEE754SinglePrecision) :
  0 <= p < 2 ^ 32 ->
  init_fields v (Py.format_032b p) = Ok o ->
  get_sign o = Ok (p / 2 ^ 31) /\
  get_exponent_raw o = Ok ((p / 2 ^ 23) mod 256) /\
  Py.int (get_mantissa o) 2 = Ok (p mod 2 ^ 23).
Proof.
  intros Hp Ho.
  destruct (pattern_fields v p o Hp Ho)
    as (sb & eb & mb & Ls & Le & Lm & _ & Es & Ee & Em & <- & <- & <-).
  unfold get_sign, get_exponent_raw, get_mantissa. rewrite Es, Ee, Em.
  rewrite (one_bit _ Ls), (int_bits_str eb), (int_bits_str mb);
    eauto using bits_ne.
Qed.

(** ** The fields partition the pattern *)

Lemma bits_str_app (a b : list bool) :
  bits_str (a ++ b) = bits_str a ++ bits_str b.
Proof. induction a; simpl; congruence. Qed.

Lemma pattern_partitions (v : spec_float) (p : Z) (o : IEEE754SinglePrecision) :
  0 <= p < 2 ^ 32 ->
  init_fields v (Py.format_032b p) = Ok o ->
  partitions o p.
Proof.
  intros Hp Ho. destruct (pattern_accessors v p o Hp Ho) as (Es & Ee & Em).
  destruct (pattern_fields v p o Hp Ho)
    as (sb & eb & mb & Ls & Le & Lm & Eb & Esb & Eeb & Emb & _).
  exists (p / 2 ^ 31), ((p / 2 ^ 23) mod 256), (p mod 2 ^ 23).
  rewrite Eb, Esb, Eeb, Emb, !bits_str_app, !bits_str_length.
  change (2 ^ 32) with 4294967296 in Hp.
  change (2 ^ 31) with 2147483648 in *. change (2 ^ 23) with 8388608 in *.
  repeat split; try assumption; Z.div_mod_to_equations; lia.
Qed.

(** The constructor fails only as [struct.pack] does, on a finite float
    that rounds to an infinity. *)
Lemma init_raises (v : spec_float) (e : exn) :
  __init__ v = Raise e ->
  e = OverflowError /\
  Float.is_infinity (Struct.to_single v) = true /\
  Float.is_infinity v = false.
Proof.
  unfold __init__, _get_binary_representation, Struct.pack_f, Struct.unpack_I.
  pose proof (bits_of_single_range _ (to_single_valid v)) as Hp.
  destruct (Float.is_infinity (Struct.to_single v)) eqn:E1;
    destruct (Float.is_infinity v) eqn:E2; cbn [andb negb bind];
    try (intro H; injection H as <-; auto).
  all: rewrite uint32_of_bytes_of_uint32 by exact Hp; cbn [bind].
  all: destruct (format_032b_bits _ Hp) as (-> & El & _).
  all: rewrite (init_fields_bits _ _ El); discriminate.
Qed.

(** C2. For every float that the constructor accepts, and for every
    32-bit pattern, the sign, the raw exponent and the mantissa read as an
    unsigned integer satisfy [sign * 2^31 + exponent * 2^23 + mantissa = p];
    the three fields are the first character, the next 8 and the last 23
    of the binary string.  The constructor refuses a float only with the
    [OverflowError] of [struct.pack]. *)
Theorem field_partition :
  (forall v o, __init__ v = Ok o -> partitions o (bit_pattern v)) /\
  (forall v p o,
      0 <= p < 2 ^ 32 ->
      init_fields v (Py.format_032b p) = Ok o ->
      partitions o p) /\
  (forall v e, __init__ v = Raise e -> e = OverflowError).
Proof.
  split; [|split].
  - intros v o H. destruct (init_pattern v o H) as [Hr Hi].
    exact (pattern_partitions v _ o Hr Hi).
  - exact pattern_partitions.
  - intros v e H. now destruct (init_raises v e H).
Qed.

(** 1.0, of pattern 0x3F800000: sign 0, exponent 127, mantissa 0. *)
Lemma field_partition_witness : partitions one_object 0x3F800000.
Proof.
  apply (proj1 (proj2 field_partition) Float.one 0x3F800000).
  - vm_compute. split; congruence.
  - reflexivity.
Defined.

(** ** Classification *)

Lemma is_special_pattern (v : spec_float) (p : Z) (o : IEEE754SinglePrecision) :
  0 <= p < 2 ^ 32 ->
  init_fields v (Py.format_032b p) = Ok o ->
  is_special o =
  let exponent := (p / 2 ^ 23) mod 256 in
  let mantissa := p mod 2 ^ 23 in
  if exponent =? 255 then
    if mantissa =? 0 then Ok (Some "Infinity") else Ok (Some "NaN")
  else if exponent =? 0 then
    if mantissa =? 0 then Ok (Some "Zero") else Ok (Some "Denormalized")
  else Ok None.
Proof.
  intros Hp Ho. destruct (pattern_accessors v p o Hp Ho) as (_ & Ee & Em).
  unfold is_special, get_mantissa in *. now rewrite Ee, Em.
Qed.

(** C3, as amended.  For every pattern, [is_special] returns (it never
    raises) a result that depends on the raw exponent and the mantissa
    only: "Infinity" for exponent 255 and mantissa 0, "NaN" for exponent
    255 and another mantissa, "Zero" for exponent 0 and mantissa 0,
    "Denormalized" for exponent 0 and another mantissa, and [None], not a
    tag, for every other pair. *)
Theorem classification_rule (v : spec_float) (p : Z)
        (o : IEEE754SinglePrecision) :
  0 <= p < 2 ^ 32 ->
  init_fields v (Py.format_032b p) = Ok o ->
  exists exponent mantissa,
    get_exponent_raw o = Ok exponent /\
    Py.int (get_mantissa o) 2 = Ok mantissa /\
    0 <= exponent <= 255 /\ 0 <= mantissa < 2 ^ 23 /\
    (exponent = 255 -> mantissa = 0 -> is_special o = Ok (Some "Infinity")) /\
    (exponent = 255 -> mantissa <> 0 -> is_special o = Ok (Some "NaN")) /\
    (exponent = 0 -> mantissa = 0 -> is_special o = Ok (Some "Zero")) /\
    (exponent = 0 -> mantissa <> 0 ->
     is_special o = Ok (Some "Denormalized")) /\
    (exponent <> 255 -> exponent <> 0 -> is_special o = Ok None).
Proof.
  intros Hp Ho. destruct (pattern_accessors v p o Hp Ho) as (_ & Ee & Em).
  rewrite (is_special_pattern v p o Hp Ho). cbv zeta.
  exists ((p / 2 ^ 23) mod 256), (p mod 2 ^ 23).
  split; [exact Ee|]. split; [exact Em|].
  split; [pose proof (Z.mod_pos_bound (p / 2 ^ 23) 256); lia|].
  split; [apply Z.mod_pos_bound; lia|].
  repeat split; intros H1 H2.
  - now rewrite H1, H2.
  - rewrite H1. apply Z.eqb_neq in H2. now rewrite H2.
  - now rewrite H1, H2.
  - rewrite H1. apply Z.eqb_neq in H2. now rewrite H2.
  - apply Z.eqb_neq in H1, H2. now rewrite H1, H2.
Qed.

(** +infinity, of pattern 0x7f800000. *)
Lemma classification_rule_witness :
  exists exponent mantissa,
    get_exponent_raw infinity_object = Ok exponent /\
    Py.int (get_mantissa infinity_object) 2 = Ok mantissa /\
    0 <= exponent <= 255 /\ 0 <= mantissa < 2 ^ 23 /\
    (exponent = 255 -> mantissa = 0 ->
     is_special infinity_object = Ok (Some "Infinity")) /\
    (exponent = 255 -> mantissa <> 0 ->
     is_special infinity_object = Ok (Some "NaN")) /\
    (exponent = 0 -> mantissa = 0 ->
     is_special infinity_object = Ok (Some "Zero")) /\
    (exponent = 0 -> mantissa <> 0 ->
     is_special infinity_object = Ok (Some "Denormalized")) /\
    (exponent <> 255 -> exponent <> 0 ->
     is_special infinity_object = Ok None).
Proof.
  apply (classification_rule (S754_infinity false) 0x7f800000).
  - vm_compute. split; congruence.
  - reflexivity.
Defined.

(** The claim fails on 1.0: its raw exponent is 127, and [is_special]
    returns [None], none of the five tags. *)
Lemma normal_has_no_tag :
  __init__ Float.one = Ok one_object /\
  get_exponent_raw one_object = Ok 127 /\
  Py.int (get_mantissa one_object) 2 = Ok 0 /\
  is_special one_object = Ok None /\
  (forall tag, In tag five_tags -> is_special one_object <> Ok (Some tag)).
Proof.
  split; [vm_compute; reflexivity|]. split; [vm_compute; reflexivity|].
  split; [vm_compute; reflexivity|]. split; [vm_compute; reflexivity|].
  intros tag _. vm_compute. congruence.
Qed.

(** C10. For every pattern whose raw exponent is between 1 and 254,
    [is_special] returns [None]; for every other pattern it returns one of
    the four tags. *)
Theorem normal_is_none (v : spec_float) (p : Z) (o : IEEE754SinglePrecision)
        (exponent : Z) :
  0 <= p < 2 ^ 32 ->
  init_fields v (Py.format_032b p) = Ok o ->
  get_exponent_raw o = Ok exponent ->
  (1 <= exponent <= 254 -> is_special o = Ok None) /\
  (~ 1 <= exponent <= 254 ->
   exists tag, In tag special_tags /\ is_special o = Ok (Some tag)).
Proof.
  intros Hp Ho He. destruct (pattern_accessors v p o Hp Ho) as (_ & Ee & _).
  rewrite Ee in He. apply Ok_inj in He. subst exponent.
  rewrite (is_special_pattern v p o Hp Ho). cbv zeta.
  assert (Hb : 0 <= (p / 2 ^ 23) mod 256 < 256)
    by (apply Z.mod_pos_bound; lia).
  destruct ((p / 2 ^ 23) mod 256 =? 255) eqn:E1;
    [apply Z.eqb_eq in E1|apply Z.eqb_neq in E1];
    (destruct ((p / 2 ^ 23) mod 256 =? 0) eqn:E2;
     [apply Z.eqb_eq in E2|apply Z.eqb_neq in E2]);
    (split; [intro H; try lia; reflexivity|intro H; try lia]);
    destruct (p mod 2 ^ 23 =? 0); eexists; (split; [|reflexivity]);
    cbn; tauto.
Qed.

(** 1.0, of raw exponent 127. *)
Lemma normal_is_none_witness :
  (1 <= 127 <= 254 -> is_special one_object = Ok None) /\
  (~ 1 <= 127 <= 254 ->
   exists tag, In tag special_tags /\ is_special one_object = Ok (Some tag)).
Proof.
  apply (normal_is_none Float.one 0x3F800000).
  - vm_compute. split; congruence.
  - reflexivity.
  - vm_compute. reflexivity.
Defined.

(** ** Round trip through the binary string *)

(** [binary_to_float] on a string of 32 binary digits. *)
Lemma binary_to_float_bits (l : list bool) :
  List.length l = 32%nat ->
  0 <= bits_val 0 l < 2 ^ 32 /\
  Py.int (bits_str l) 2 = Ok (bits_val 0 l) /\
  binary_to_float (bits_str l) =
  Ok (Struct.to_double (Struct.single_of_bits (bits_val 0 l))).
Proof.
  intro Hl. pose proof (bits_val_bounds l) as Hb. rewrite Hl in Hb.
  change (Z.of_nat 32) with 32 in Hb.
  assert (Hi : Py.int (bits_str l) 2 = Ok (bits_val 0 l))
    by (apply int_bits_str; eauto using bits_ne).
  repeat split; try tauto.
  unfold binary_to_float.
  rewrite code_points_length, bits_str_length, Hl, Hi.
  cbn [Nat.eqb negb bind]. unfold Struct.pack_I.
  change (2 ^ 32) with 4294967296 in Hb.
  destruct (0 <=? bits_val 0 l) eqn:E1; [|apply Z.leb_gt in E1; lia].
  destruct (bits_val 0 l <=? 4294967295) eqn:E2; [|apply Z.leb_gt in E2; lia].
  cbn [andb bind]. unfold Struct.unpack_f.
  now rewrite uint32_of_bytes_of_uint32.
Qed.

Lemma to_single_representable (v : spec_float) :
  valid_binary Float.prec Float.emax v = true ->
  single_representable v ->
  Float.is_infinity (Struct.to_single v) = false /\
  Struct.to_double (Struct.to_single v) = v.
Proof.
  destruct v as [s|s| |s m e]; cbn [single_representable valid_binary];
    intros Hv Hr; try contradiction; [now split|].
  destruct Hr as (m' & e' & Hb & Hs).
  cbn [Struct.to_single]. rewrite (binary_round_exact _ _ s m m' e e' Hb Hs).
  split; [reflexivity|]. cbn [Struct.to_double].
  apply binary_round_exact; [exact Hv|now apply same_value_sym].
Qed.

(** C1. For every finite float [v] that binary32 represents, the
    constructor builds the 32-character binary string of [v], and
    [binary_to_float] of that string is [v] itself, sign of zero
    included. *)
Theorem binary_round_trip (v : spec_float) :
  valid_binary Float.prec Float.emax v = true ->
  single_representable v ->
  exists o,
    __init__ v = Ok o /\
    String.length (binary_representation o) = 32%nat /\
    binary_to_float (binary_representation o) = Ok v.
Proof.
  intros Hv Hr. destruct (to_single_representable v Hv Hr) as [Hinf Hd].
  pose proof (bits_of_single_range _ (to_single_valid v)) as Hp.
  fold (bit_pattern v) in Hp.
  destruct (format_032b_bits _ Hp) as (Ef & El & Ev).
  assert (Hs : _get_binary_representation v =
               Ok (bits_str (bits32 (bit_pattern v)))).
  { unfold _get_binary_representation, Struct.pack_f, Struct.unpack_I.
    rewrite Hinf. cbn [andb bind].
    fold (bit_pattern v). rewrite uint32_of_bytes_of_uint32 by exact Hp.
    cbn [bind]. now rewrite Ef. }
  unfold __init__. rewrite Hs. cbn [bind].
  rewrite (init_fields_bits _ _ El). eexists. split; [reflexivity|].
  cbn [binary_representation]. rewrite bits_str_length. split; [exact El|].
  destruct (binary_to_float_bits _ El) as (_ & _ & ->).
  rewrite Ev. unfold bit_pattern.
  rewrite single_of_bits_of_single by apply to_single_valid.
  now rewrite Hd.
Qed.

(** The float 0.15625 = 5 * 2^-5, which binary32 represents. *)
Lemma binary_round_trip_witness :
  exists o,
    __init__ (S754_finite false 5629499534213120 (-55)) = Ok o /\
    String.length (binary_representation o) = 32%nat /\
    binary_to_float (binary_representation o) =
    Ok (S754_finite false 5629499534213120 (-55)).
Proof.
  apply binary_round_trip.
  - reflexivity.
  - exists 10485760%positive, (-26). split; reflexivity.
Defined.

(** ** What [int(text, base)] accepts *)

Lemma skip_space_chars (P : ascii -> Prop) (l : list ascii) :
  (forall c, Py.Py_ISSPACE c = true -> P c) ->
  Forall P (Py.skip_space l) -> Forall P l.
Proof.
  intros HP. induction l as [|c l IH]; cbn [Py.skip_space]; [auto|].
  destruct (Py.Py_ISSPACE c) eqn:E; [|auto].
  intro H. constructor; auto.
Qed.

Lemma skip_space_nil (l : list ascii) :
  Py.skip_space l = [] -> Forall (fun c => Py.Py_ISSPACE c = true) l.
Proof.
  induction l as [|c l IH]; cbn [Py.skip_space]; [constructor|].
  destruct (Py.Py_ISSPACE c) eqn:E; [|discriminate].
  intro H. constructor; auto.
Qed.

Lemma scan_digits_chars (base : Z) (l : list ascii) :
  forall prev_us acc cnt z d pu rest,
    Py.scan_digits base prev_us acc cnt l = Some (z, d, pu, rest) ->
    Forall (fun c => ascii_literal_char base c = true) rest ->
    Forall (fun c => ascii_literal_char base c = true) l.
Proof.
  induction l as [|c l IH]; intros prev_us acc cnt z d pu rest;
    cbn [Py.scan_digits].
  - intros [= <- <- <- <-]. auto.
  - destruct (Py.is_underscore c) eqn:Eu.
    + destruct prev_us; [discriminate|]. intros H Hr. constructor.
      * unfold ascii_literal_char. rewrite Eu.
        now rewrite !orb_true_r.
      * eapply IH; eauto.
    + destruct (Py.digit_value c <? base) eqn:Ed.
      * intros H Hr. constructor.
        -- unfold ascii_literal_char. rewrite Ed. now rewrite !orb_true_r.
        -- eapply IH; eauto.
      * intros [= <- <- <- <-]. auto.
Qed.

Lemma PyLong_FromString_chars (l : list ascii) (base n : Z) :
  0 < base ->
  Py.PyLong_FromString l base = Ok n ->
  Forall (fun c => ascii_literal_char base c = true) l.
Proof.
  intros Hbase. unfold Py.PyLong_FromString.
  set (P := fun c => ascii_literal_char base c = true).
  assert (Hsp : forall c, Py.Py_ISSPACE c = true -> P c).
  { intros c H. unfold P, ascii_literal_char. now rewrite H. }
  intro H. apply (skip_space_chars P); [exact Hsp|].
  destruct (Py.read_sign (Py.skip_space l)) as [sign l2] eqn:Es.
  assert (H2 : Forall P l2 -> Forall P (Py.skip_space l)).
  { unfold Py.read_sign in Es. destruct (Py.skip_space l) as [|c l1].
    - now injection Es as <- <-.
    - destruct (Ascii.eqb c "+") eqn:E1.
      + injection Es as <- <-. intro. constructor; [|assumption].
        unfold P, ascii_literal_char. rewrite E1. now rewrite !orb_true_r.
      + destruct (Ascii.eqb c "-") eqn:E2.
        * injection Es as <- <-. intro. constructor; [|assumption].
          unfold P, ascii_literal_char. rewrite E2. now rewrite !orb_true_r.
        * now injection Es as <- <-. }
  apply H2. clear H2 Es.
  assert (H3 : Forall P (Py.skip_prefix base l2) -> Forall P l2).
  { unfold Py.skip_prefix. destruct l2 as [|c0 [|c1 l3]]; auto.
    destruct (Ascii.eqb c0 "0") eqn:E0; cbn [andb]; auto.
    destruct (Py.prefix_letter base c1) eqn:E1; auto.
    apply Ascii.eqb_eq in E0. subst c0.
    assert (P "0"%char).
    { unfold P, ascii_literal_char. change (Py.digit_value "0") with 0.
      assert (E : (0 <? base) = true) by (apply Z.ltb_lt; lia).
      rewrite E. now rewrite !orb_true_r. }
    assert (P c1).
    { unfold P, ascii_literal_char. rewrite E1. now rewrite !orb_true_r. }
    destruct l3 as [|c2 l4]; [auto|].
    destruct (Py.is_underscore c2) eqn:E2; [|auto].
    intro. repeat constructor; auto.
    unfold P, ascii_literal_char. rewrite E2. now rewrite !orb_true_r. }
  apply H3. clear H3.
  destruct (Py.starts_with_underscore _); [discriminate|].
  destruct (Py.scan_digits base false 0 0 _)
    as [[[[z d] pu] rest]|] eqn:Escan; [|discriminate].
  destruct pu; [discriminate|].
  destruct (_ && _); [discriminate|].
  destruct (_ =? _)%nat; [discriminate|].
  destruct (Py.skip_space rest) eqn:Er; [|discriminate].
  eapply scan_digits_chars; [exact Escan|].
  apply skip_space_nil in Er. eapply Forall_impl; [|exact Er]. exact Hsp.
Qed.

Lemma decimal_in_lt (runs : list (N * N)) (ch d : N) :
  Py.decimal_in runs ch = Some d -> (d < 10)%N.
Proof.
  induction runs as [|[first last] runs IH]; cbn [Py.decimal_in];
    [discriminate|].
  destruct (_ && _); [|exact IH].
  intros [= <-]. now apply N.mod_lt.
Qed.

(** No base reads a question mark or the character 127. *)
Lemma not_literal (base : Z) (c : ascii) :
  base <= 36 -> c = "?"%char \/ c = Py.chr 127 ->
  ascii_literal_char base c = false.
Proof.
  intros Hb [-> | ->]; unfold ascii_literal_char; cbn;
    unfold Py.prefix_letter; cbn; rewrite !andb_false_r, ?orb_false_r; cbn;
    apply Z.ltb_ge; lia.
Qed.

(** An ASCII digit is read only below the base. *)
Lemma digit_literal (base : Z) (d : N) :
  (d < 10)%N ->
  ascii_literal_char base (Py.chr (48 + d)) = true ->
  (Z.of_N d <? base) = true.
Proof.
  intros Hd.
  assert (H : (d = 0 \/ d = 1 \/ d = 2 \/ d = 3 \/ d = 4 \/ d = 5 \/ d = 6 \/
               d = 7 \/ d = 8 \/ d = 9)%N) by lia.
  unfold ascii_literal_char, Py.prefix_letter.
  repeat (destruct H as [H|H];
          [subst d; cbn; rewrite !andb_false_r, !orb_false_r; auto|]).
  subst d; cbn; rewrite !andb_false_r, !orb_false_r; auto.
Qed.

(** The characters of a text, from those of its ASCII form. *)
Lemma to_ascii_chars_literal (base : Z) (u : Py.str) :
  base <= 36 ->
  Forall (fun c => ascii_literal_char base c = true) (Py.to_ascii_chars u) ->
  Forall (fun ch => literal_char base ch = true) u.
Proof.
  intro Hb. induction u as [|ch u IH]; [constructor|].
  cbn [Py.to_ascii_chars].
  assert (Hc : forall l,
             literal_char base ch = true ->
             Forall (fun c => ascii_literal_char base c = true) l ->
             l = Py.to_ascii_chars u ->
             Forall (fun ch => literal_char base ch = true) (ch :: u)).
  { intros l Hh Hl ->. constructor; auto. }
  unfold literal_char in Hc.
  destruct (ch <? 127)%N eqn:E1.
  - intro H. inversion H; subst. eapply Hc; eauto.
  - destruct (Py.Py_UNICODE_ISSPACE ch) eqn:E2.
    + intro H. inversion H; subst. eapply Hc; eauto.
    + unfold Py.Py_UNICODE_TODECIMAL in *.
      destruct (Py.decimal_in Py.decimal_digits ch) as [d|] eqn:E3.
      * intro H. inversion H as [|? ? Hd Hu]; subst.
        eapply Hc; eauto. cbn [orb]. apply digit_literal; [|exact Hd].
        eapply decimal_in_lt; eassumption.
      * intro H. inversion H as [|? ? Hq _]; subst.
        rewrite not_literal in Hq by auto. discriminate.
Qed.

(** A text that [int] accepts holds literal characters only. *)
Lemma int_chars (text : Py.str) (base n : Z) :
  0 < base <= 36 ->
  Py.int text base = Ok n ->
  Forall (fun ch => literal_char base ch = true) text.
Proof.
  intros Hb. unfold Py.int, Py.transform_decimal_and_space.
  destruct (forallb Py.is_ascii text) eqn:Ea; intro H.
  - apply PyLong_FromString_chars in H; [|lia].
    rewrite Forall_map in H. rewrite forallb_forall in Ea.
    rewrite Forall_forall in H. apply Forall_forall. intros ch Hin.
    specialize (H ch Hin). specialize (Ea ch Hin).
    unfold Py.is_ascii in Ea. apply N.ltb_lt in Ea. unfold literal_char.
    destruct (ch <? 127)%N eqn:E1; [exact H|].
    apply N.ltb_ge in E1. assert (ch = 127%N) by lia. subst ch.
    rewrite not_literal in H by (auto; lia). discriminate.
  - apply PyLong_FromString_chars in H; [|lia].
    apply (to_ascii_chars_literal base); [lia|exact H].
Qed.

Lemma int_raises (text : Py.str) (base : Z) (e : exn) :
  Py.int text base = Raise e -> e = ValueError.
Proof.
  unfold Py.int, Py.PyLong_FromString.
  destruct (Py.read_sign _) as [sign l2].
  destruct (Py.starts_with_underscore _); [congruence|].
  destruct (Py.scan_digits _ _ _ _ _) as [[[[z d] pu] rest]|]; [|congruence].
  destruct pu; [congruence|].
  destruct (_ && _); [congruence|].
  destruct (_ =? _)%nat; [congruence|].
  destruct (Py.skip_space rest); congruence.
Qed.

(** A text with another character is rejected. *)
Lemma int_rejects (text : Py.str) (base : Z) (ch : N) :
  0 < base <= 36 ->
  In ch text -> literal_char base ch = false ->
  Py.int text base = Raise ValueError.
Proof.
  intros Hb Hin Hc. destruct (Py.int text base) as [n|e] eqn:E.
  - apply int_chars in E; [|exact Hb].
    rewrite Forall_forall in E. specialize (E ch Hin). congruence.
  - now rewrite (int_raises _ _ _ E).
Qed.

(** [int] reads the decimal digits and the spaces of every script: the
    full-width digit one U+FF11 after 31 zeros, the Arabic-Indic digit
    one U+0661, and a one between a no-break space and an em space. *)
Example int_reads_unicode :
  Py.int (repeat 48%N 31 ++ [0xFF11%N])%list 2 = Ok 1 /\
  Py.int [0x661%N] 16 = Ok 1 /\
  Py.int [0xA0; 49; 0x2003]%N 10 = Ok 1 /\
  Py.int [49; 0xFF21]%N 16 = Raise ValueError.
Proof. repeat split; vm_compute; reflexivity. Qed.

(** ** Errors of [binary_to_float] and [hex_to_float] *)

Lemma binary_string_bits (s : string) :
  Forall binary_digit (list_ascii_of_string s) ->
  exists l, s = bits_str l /\ List.length l = String.length s.
Proof.
  induction s as [|c s IH]; cbn [list_ascii_of_string]; intro H.
  - now exists [].
  - inversion H as [|? ? Hc Hs]; subst. destruct (IH Hs) as (l & -> & El).
    destruct Hc as [-> | ->].
    + exists (false :: l). cbn. now rewrite El, bits_str_length.
    + exists (true :: l). cbn. now rewrite El, bits_str_length.
Qed.


Lemma pack_I_unpack_f (n : Z) :
  Struct.pack_I n =
  (if (0 <=? n) && (n <=? 4294967295)
   then Ok (Struct.bytes_of_uint32 n) else Raise StructError) /\
  (0 <= n < 2 ^ 32 ->
   (packed <- Struct.pack_I n ;; Struct.unpack_f packed) =
   Ok (Struct.to_double (Struct.single_of_bits n))) /\
  (~ 0 <= n < 2 ^ 32 ->
   (packed <- Struct.pack_I n ;; Struct.unpack_f packed) = Raise StructError).
Proof.
  change (2 ^ 32) with 4294967296. unfold Struct.pack_I.
  split; [reflexivity|].
  destruct (0 <=? n) eqn:E1; [apply Z.leb_le in E1|apply Z.leb_gt in E1];
    (destruct (n <=? 4294967295) eqn:E2;
     [apply Z.leb_le in E2|apply Z.leb_gt in E2]);
    cbn [andb bind]; split; intro H; try lia; try reflexivity.
  unfold Struct.unpack_f.
  rewrite uint32_of_bytes_of_uint32 by (change (2 ^ 32) with 4294967296; lia).
  reflexivity.
Qed.

(** Every success of [binary_to_float]. *)
Lemma binary_to_float_ok (s : Py.str) (f : spec_float) :
  binary_to_float s = Ok f ->
  List.length s = 32%nat /\
  exists n, Py.int s 2 = Ok n /\ 0 <= n < 2 ^ 32 /\
            f = Struct.to_double (Struct.single_of_bits n).
Proof.
  unfold binary_to_float.
  destruct (List.length s =? 32)%nat eqn:El; cbn [negb]; [|discriminate].
  apply Nat.eqb_eq in El. destruct (Py.int s 2) as [n|e]; [|discriminate].
  cbn [bind]. intro H. split; [exact El|]. exists n. split; [reflexivity|].
  destruct (pack_I_unpack_f n) as (_ & Hin & Hout).
  destruct (Z_lt_dec n 0) as [L|L]; [rewrite Hout in H by lia; discriminate|].
  destruct (Z_lt_dec n (2 ^ 32)) as [U|U];
    [|rewrite Hout in H by lia; discriminate].
  rewrite Hin in H by lia. split; [lia|congruence].
Qed.




(** C7, as amended.  After the optional prefix is removed, [hex_to_float]
    raises [ValueError] for every text with a character that
    [int(text, 16)] reads nowhere: any character other than white space,
    a sign, an underscore, [x], [X], the letters [a] to [f] and [A] to
    [F], and the decimal digits.  It raises [struct.error] for every
    text that [int(text, 16)] reads as a number outside 0 .. 2^32 - 1,
    as for [0xFFFFFFFFF].  Whenever it succeeds, it returns the float of
    the number read, which is within 32 bits: no number is truncated or
    wrapped. *)
Theorem hex_to_float_errors (s : Py.str) :
  ((exists ch, In ch (without_prefix s) /\ literal_char 16 ch = false) ->
   hex_to_float s = Raise ValueError) /\
  (forall n, Py.int (without_prefix s) 16 = Ok n ->
             ~ 0 <= n < 2 ^ 32 ->
             hex_to_float s = Raise StructError) /\
  (forall f, hex_to_float s = Ok f ->
     exists n, Py.int (without_prefix s) 16 = Ok n /\ 0 <= n < 2 ^ 32 /\
               f = Struct.to_double (Struct.single_of_bits n)) /\
  hex_to_float "0xFFFFFFFFF" = Raise StructError.
Proof.
  unfold hex_to_float. fold (without_prefix s).
  split; [|split; [|split]].
  - intros (ch & Hin & Hc).
    now rewrite (int_rejects _ 16 ch) by (auto; lia).
  - intros n Hn Hr. rewrite Hn. cbn [bind].
    now destruct (pack_I_unpack_f n) as (_ & _ & ->).
  - intros f. destruct (Py.int (without_prefix s) 16) as [n|e];
      [|discriminate].
    cbn [bind]. intro H. exists n. split; [reflexivity|].
    destruct (pack_I_unpack_f n) as (_ & Hin & Hout).
    destruct (Z_lt_dec n 0) as [L|L]; [rewrite Hout in H by lia; discriminate|].
    destruct (Z_lt_dec n (2 ^ 32)) as [U|U];
      [|rewrite Hout in H by lia; discriminate].
    rewrite Hin in H by lia. split; [lia|congruence].
  - reflexivity.
Qed.

(** A text with the letter g, and one with the full-width letter A,
    U+FF21. *)
Lemma hex_to_float_errors_witness :
  hex_to_float "0x4g" = Raise ValueError /\
  hex_to_float [52%N; 0xFF21%N] = Raise ValueError.
Proof.
  split.
  - apply (proj1 (hex_to_float_errors "0x4g")).
    exists (N_of_ascii "g"). split; [vm_compute; tauto|reflexivity].
  - apply (proj1 (hex_to_float_errors [52%N; 0xFF21%N])).
    exists 0xFF21%N. split; [vm_compute; tauto|reflexivity].
Defined.

(** The claim fails on a signed text: [+] is not a hexadecimal digit, and
    [hex_to_float] returns the float of the pattern 1. *)
Lemma hex_to_float_accepts_sign :
  In (N_of_ascii "+") (without_prefix "+1") /\
  (Py.digit_value "+" <? 16) = false /\
  hex_to_float "+1" = Ok (S754_finite false 4503599627370496 (-201)).
Proof.
  split; [cbn; tauto|]. split; [reflexivity|]. vm_compute. reflexivity.
Qed.

(** ** Exact sums of binary64 numbers *)

Lemma same_value_scaled (m m' : positive) (e e' : Z) :
  -1074 <= e -> -1074 <= e' ->
  (same_value m e m' e' <-> scaled (Zpos m) e = scaled (Zpos m') e').
Proof.
  intros He He'. unfold same_value, scaled.
  remember (Z.min e e') as mn eqn:Emn.
  assert (Hmn : mn <= e /\ mn <= e' /\ -1074 <= mn) by lia. clear Emn.
  replace (e + 1074) with ((e - mn) + (mn + 1074)) by lia.
  replace (e' + 1074) with ((e' - mn) + (mn + 1074)) by lia.
  rewrite (Z.pow_add_r 2 (e - mn)), (Z.pow_add_r 2 (e' - mn)) by lia.
  assert (0 < 2 ^ (mn + 1074)) by (apply Z.pow_pos_nonneg; lia).
  rewrite !Z.mul_assoc. split; intro H1.
  - now rewrite H1.
  - apply Z.mul_cancel_r in H1; [exact H1|lia].
Qed.

Section Small.

Variables prec emax : Z.
Hypothesis emax_large : 2 <= emax.

(** A number with at most [prec] digits and an exponent in range is a
    float of the format: rounding it only brings it to canonical form. *)
Lemma binary_round_small (s : bool) (n : positive) (e : Z) :
  Zpos (digits2_pos n) <= prec ->
  emin prec emax <= e ->
  Zpos (digits2_pos n) + e <= emax ->
  exists m' e',
    binary_round prec emax s n e = S754_finite s m' e' /\
    bounded prec emax m' e' = true /\ same_value n e m' e'.
Proof.
  intros Hd He Hmax.
  set (f := fexp prec emax (Zpos (digits2_pos n) + e)).
  assert (Hf : f <= e) by (unfold f, fexp, emin in *; lia).
  destruct (shl_align_spec n e f) as [Es Ef].
  destruct (shl_align n e f) as [m' e'] eqn:E. cbn [fst snd] in Es, Ef.
  rewrite Z.min_r in Es, Ef by lia. subst e'.
  assert (Hv : same_value n e m' f).
  { unfold same_value. rewrite Z.min_r by lia. rewrite Z.sub_diag.
    simpl (2 ^ 0). lia. }
  assert (Hb : bounded prec emax m' f = true).
  { unfold bounded, canonical_mantissa.
    rewrite <- (same_value_digits _ _ _ _ Hv). fold f.
    rewrite Z.eqb_refl. apply Z.leb_le. unfold f, fexp, emin in *. lia. }
  exists m', f. split; [|split]; [|exact Hb|exact Hv].
  now apply binary_round_exact.
Qed.

End Small.

(** The sum of two positive floats is exact when it is a float. *)
Lemma add_exact (mx my mz : positive) (ex ey ez : Z) :
  -1074 <= ex -> -1074 <= ey -> -1074 <= ez ->
  bounded Float.prec Float.emax mz ez = true ->
  scaled (Zpos mx) ex + scaled (Zpos my) ey = scaled (Zpos mz) ez ->
  Float.add (S754_finite false mx ex) (S754_finite false my ey) =
  S754_finite false mz ez.
Proof.
  intros Hx Hy Hz Hb Hs. unfold Float.add, SFadd.
  remember (Z.min ex ey) as e0 eqn:E0.
  assert (H0 : e0 <= ex /\ e0 <= ey /\ -1074 <= e0) by lia. clear E0.
  destruct (shl_align_spec mx ex e0) as [_ Ex].
  destruct (shl_align_spec my ey e0) as [_ Ey].
  rewrite (Z.min_r ex e0) in Ex by lia.
  rewrite (Z.min_r ey e0) in Ey by lia.
  set (a := fst (shl_align mx ex e0)) in *.
  set (b := fst (shl_align my ey e0)) in *.
  cbn [cond_Zopp Z.add binary_normalize].
  apply binary_round_exact; [exact Hb|].
  apply same_value_scaled; [lia|lia|].
  rewrite <- Hs. unfold scaled. rewrite Pos2Z.inj_add, Ex, Ey.
  replace (ex + 1074) with ((ex - e0) + (e0 + 1074)) by lia.
  replace (ey + 1074) with ((ey - e0) + (e0 + 1074)) by lia.
  rewrite (Z.pow_add_r 2 (ex - e0)), (Z.pow_add_r 2 (ey - e0)) by lia. ring.
Qed.

Lemma digits_small (k : positive) :
  Zpos k < 2 ^ 53 -> Zpos (digits2_pos k) <= 53.
Proof.
  intro H. pose proof (digits2_bounds k) as [Hlo _].
  destruct (Z.le_gt_cases (Zpos (digits2_pos k)) 53) as [L|L]; [exact L|].
  assert (2 ^ 53 <= 2 ^ (Zpos (digits2_pos k) - 1))
    by (apply Z.pow_le_mono_r; lia).
  lia.
Qed.

Lemma dyadic_canonical (k : positive) (i : Z) :
  Zpos k < 2 ^ 53 -> 0 <= i <= 1074 ->
  exists m e,
    dyadic (Zpos k) i = S754_finite false m e /\
    bounded Float.prec Float.emax m e = true /\
    -1074 <= e /\ scaled (Zpos m) e = scaled (Zpos k) (- i).
Proof.
  intros Hk Hi. pose proof (digits_small k Hk) as Hd.
  destruct (binary_round_small Float.prec Float.emax
              ltac:(unfold Float.emax; lia) false k (- i))
    as (m & e & E & Hb & Hv).
  - exact Hd.
  - unfold emin, Float.prec, Float.emax. lia.
  - unfold Float.emax. lia.
  - exists m, e. split; [exact E|]. split; [exact Hb|].
    assert (He : -1074 <= e).
    { unfold bounded, canonical_mantissa, fexp, emin, Float.prec,
        Float.emax in Hb.
      apply andb_prop in Hb. destruct Hb as [Hc _].
      apply Z.eqb_eq in Hc. lia. }
    split; [exact He|]. symmetry. apply same_value_scaled; [lia|lia|exact Hv].
Qed.

(** Adding a finer dyadic number to a coarser one. *)
Lemma dyadic_add (a b i j : Z) :
  0 <= a -> 0 <= b -> 0 <= i <= j -> j <= 1074 ->
  a * 2 ^ (j - i) + b < 2 ^ 53 ->
  Float.add (dyadic a i) (dyadic b j) = dyadic (a * 2 ^ (j - i) + b) j.
Proof.
  intros Ha Hb Hi Hj Hsum.
  assert (Hp : 0 < 2 ^ (j - i)) by (apply Z.pow_pos_nonneg; lia).
  assert (Hsc : forall x, scaled x (- i) = scaled (x * 2 ^ (j - i)) (- j)).
  { intro x. unfold scaled.
    replace (- i + 1074) with ((j - i) + (- j + 1074)) by lia.
    rewrite Z.pow_add_r by lia. ring. }
  destruct a as [|a|a]; [| |lia]; (destruct b as [|b|b]; [| |lia]).
  - reflexivity.
  - cbn [Z.mul Z.add]. unfold dyadic at 1. cbn [binary_normalize].
    destruct (dyadic_canonical b j) as (m & e & -> & _); [lia|lia|].
    reflexivity.
  - rewrite Z.add_0_r.
    destruct (dyadic_canonical a i) as (m & e & -> & Hbd & He & Hv);
      [nia|lia|].
    unfold dyadic at 1. cbn [binary_normalize Float.add SFadd].
    destruct (Zpos a * 2 ^ (j - i)) as [|t|t] eqn:Et; [lia| |lia].
    destruct (dyadic_canonical t j) as (m' & e' & -> & Hbd' & He' & Hv');
      [lia|lia|].
    assert (Hs : same_value m e m' e').
    { apply same_value_scaled; [lia|lia|].
      rewrite Hv, Hv', Hsc. now rewrite Et. }
    pose proof (binary_round_exact _ _ false m m' e e' Hbd' Hs) as R1.
    pose proof (binary_round_exact _ _ false m m e e Hbd
                  (same_value_refl m e)) as R2.
    congruence.
  - destruct (dyadic_canonical a i) as (m & e & -> & Hbd & He & Hv);
      [nia|lia|].
    destruct (dyadic_canonical b j) as (m2 & e2 & -> & Hbd2 & He2 & Hv2);
      [lia|lia|].
    destruct (Zpos a * 2 ^ (j - i) + Zpos b) as [|t|t] eqn:Et; [lia| |lia].
    destruct (dyadic_canonical t j) as (m' & e' & -> & Hbd' & He' & Hv');
      [lia|lia|].
    apply add_exact; try assumption.
    rewrite Hv, Hv2, Hv', Hsc. unfold scaled. lia.
Qed.

(** ** The mantissa value *)

Lemma dyadic_scale (k i j : Z) :
  0 <= k -> 0 <= i <= j -> j <= 1074 -> k * 2 ^ (j - i) < 2 ^ 53 ->
  dyadic k i = dyadic (k * 2 ^ (j - i)) j.
Proof.
  intros Hk Hi Hj Hlt.
  rewrite <- (Z.add_0_r (k * 2 ^ (j - i))).
  rewrite <- (dyadic_add k 0 i j) by lia.
  change (dyadic 0 j) with (S754_zero false).
  destruct k as [|k|k]; [reflexivity| |lia].
  assert (Hp : 0 < 2 ^ (j - i)) by (apply Z.pow_pos_nonneg; lia).
  destruct (dyadic_canonical k i) as (m & e & -> & _); [nia|lia|].
  reflexivity.
Qed.

Lemma pow2_negative (i : Z) :
  0 <= i -> as_float (pow2 (- (i + 1))) = Ok (dyadic 1 (i + 1)).
Proof.
  intro Hi. unfold pow2.
  destruct (0 <=? - (i + 1)) eqn:E; [apply Z.leb_le in E; lia|].
  reflexivity.
Qed.

(** The loop adds the bits it reads, exactly. *)
Lemma mantissa_loop_exact (bits : list bool) :
  forall i k,
    0 <= i -> i + Z.of_nat (List.length bits) <= 52 -> 0 <= k < 2 ^ i ->
    mantissa_loop i (list_ascii_of_string (bits_str bits)) (dyadic k i) =
    Ok (dyadic (bits_val k bits) (i + Z.of_nat (List.length bits))).
Proof.
  induction bits as [|b bits IH]; intros i k Hi Hlen Hk.
  - cbn. now rewrite Z.add_0_r.
  - cbn [bits_str list_ascii_of_string mantissa_loop bits_val List.length].
    cbn [List.length] in Hlen. rewrite Nat2Z.inj_succ in Hlen |- *.
    destruct (bit_char_facts b) as (_ & _ & _ & _ & _ & _ & -> & _).
    assert (Hp : 2 ^ (i + 1) = 2 * 2 ^ i)
      by (replace (i + 1) with (Z.succ i) by lia; apply Z.pow_succ_r; lia).
    assert (H53 : 2 ^ (i + 1) <= 2 ^ 53) by (apply Z.pow_le_mono_r; lia).
    replace (i + Z.succ (Z.of_nat (List.length bits)))
      with ((i + 1) + Z.of_nat (List.length bits)) by lia.
    destruct b; cbn [Z.b2z].
    + rewrite pow2_negative by lia. cbn [bind].
      rewrite (dyadic_add k 1 i (i + 1)) by
        (try lia; replace (i + 1 - i) with 1 by lia; simpl (2 ^ 1); lia).
      replace (i + 1 - i) with 1 by lia. simpl (2 ^ 1).
      apply IH; lia.
    + rewrite (dyadic_scale k i (i + 1)) by
        (try lia; replace (i + 1 - i) with 1 by lia; simpl (2 ^ 1); lia).
      replace (i + 1 - i) with 1 by lia. simpl (2 ^ 1).
      rewrite Z.add_0_r. apply IH; lia.
Qed.

(** The float of [1 + m / 2^23]. *)
Lemma dyadic_significand (m : Z) :
  0 <= m < 2 ^ 23 ->
  dyadic (2 ^ 23 + m) 23 =
  S754_finite false (Z.to_pos ((2 ^ 23 + m) * 2 ^ 29)) (-52).
Proof.
  intro Hm. change (2 ^ 23) with 8388608 in *. change (2 ^ 29) with 536870912.
  destruct (8388608 + m) as [|k|k] eqn:Ek; [lia| |lia].
  unfold dyadic. cbn [binary_normalize].
  apply binary_round_exact.
  - unfold bounded, canonical_mantissa.
    rewrite (digits2_unique _ 53); [reflexivity|].
    rewrite Z2Pos.id by lia.
    change (2 ^ (53 - 1)) with 4503599627370496.
    change (2 ^ 53) with 9007199254740992. lia.
  - unfold same_value. rewrite Z2Pos.id by lia. cbn [Z.opp].
    change (Z.min (-23) (-52)) with (-52).
    change (2 ^ (-23 - -52)) with 536870912.
    change (2 ^ (-52 - -52)) with 1. lia.
Qed.

Lemma get_mantissa_value_bits (o : IEEE754SinglePrecision) (mb : list bool) :
  mantissa_bits o = bits_str mb -> List.length mb = 23%nat ->
  get_mantissa_value o =
  Ok (S754_finite false (Z.to_pos ((2 ^ 23 + bits_val 0 mb) * 2 ^ 29)) (-52)).
Proof.
  intros Em Lm. unfold get_mantissa_value. rewrite Em.
  change Float.zero with (dyadic 0 0).
  rewrite mantissa_loop_exact by (rewrite ?Lm; cbn; lia).
  cbn [bind]. rewrite Lm. change (0 + Z.of_nat 23) with 23.
  change Float.one with (dyadic 1 0).
  pose proof (bits_val_bounds mb) as Hb. rewrite Lm in Hb.
  change (Z.of_nat 23) with 23 in Hb.
  rewrite (dyadic_add 1 (bits_val 0 mb) 0 23);
    [|lia|lia|lia|lia|].
  - change (1 * 2 ^ (23 - 0)) with (2 ^ 23).
    now rewrite dyadic_significand.
  - change (1 * 2 ^ (23 - 0)) with 8388608.
    change (2 ^ 23) with 8388608 in Hb.
    change (2 ^ 53) with 9007199254740992. lia.
Qed.

Lemma fraction_sum_val (bits : list bool) :
  forall i,
    (fraction_sum i bits *
     inject_Z (2 ^ (Zpos i + Z.of_nat (List.length bits) - 1)) ==
     inject_Z (bits_val 0 bits))%Q.
Proof.
  induction bits as [|b bits IH]; intro i.
  - cbn [fraction_sum bits_val]. ring.
  - cbn [fraction_sum List.length bits_val].
    rewrite (bits_val_acc bits (0 * 2 + Z.b2z b)).
    rewrite Nat2Z.inj_succ, Qmult_plus_distr_l, inject_Z_plus.
    specialize (IH (Pos.succ i)). rewrite Pos2Z.inj_succ in IH.
    replace (Z.succ (Zpos i) + Z.of_nat (List.length bits) - 1)
      with (Zpos i + Z.succ (Z.of_nat (List.length bits)) - 1) in IH by lia.
    apply Qplus_comp; [|exact IH].
    replace (Zpos i + Z.succ (Z.of_nat (List.length bits)) - 1)
      with (Z.of_nat (List.length bits) + Zpos i) by lia.
    rewrite Z.pow_add_r by lia. rewrite inject_Z_mult.
    destruct b; cbn [Z.b2z].
    + unfold Qeq. cbn [Qnum Qden Qmult inject_Z].
      rewrite !Pos.mul_1_r, Pos2Z.inj_pow. lia.
    + change (0 * 2 + 0) with 0. rewrite Z.mul_0_l. ring.
Qed.

(** C4. For every pattern, of whatever class, [get_mantissa_value]
    returns the float whose value is 1 plus the sum of [bit_i * 2^(-i)]
    over the 23 mantissa bits, the most significant first: the float
    with significand [2^23 + mantissa] and exponent [-23]. *)
Theorem mantissa_value_formula (v : spec_float) (p : Z)
        (o : IEEE754SinglePrecision) :
  0 <= p < 2 ^ 32 ->
  init_fields v (Py.format_032b p) = Ok o ->
  exists bits x,
    get_mantissa o = bits_str bits /\ List.length bits = 23%nat /\
    get_mantissa_value o = Ok x /\
    x = S754_finite false (Z.to_pos ((2 ^ 23 + p mod 2 ^ 23) * 2 ^ 29)) (-52) /\
    (SF2Q x == 1 + fraction_sum 1 bits)%Q.
Proof.
  intros Hp Ho.
  destruct (pattern_fields v p o Hp Ho)
    as (sb & eb & mb & _ & _ & Lm & _ & _ & _ & Em & _ & _ & Ev).
  exists mb. eexists. split; [exact Em|]. split; [exact Lm|].
  split; [apply (get_mantissa_value_bits o mb Em Lm)|].
  rewrite Ev. split; [reflexivity|].
  pose proof (fraction_sum_val mb 1) as Hf. rewrite Lm, Ev in Hf.
  change (2 ^ (1 + Z.of_nat 23 - 1)) with 8388608 in Hf.
  assert (Hm : 0 <= p mod 2 ^ 23 < 2 ^ 23) by (apply Z.mod_pos_bound; lia).
  change (2 ^ 23) with 8388608 in *. change (2 ^ 29) with 536870912.
  set (m := p mod 8388608) in *.
  apply (Qmult_inj_r _ _ (inject_Z 8388608)); [discriminate|].
  rewrite Qmult_plus_distr_l, Hf.
  unfold SF2Q. cbn [cond_Zopp]. rewrite Z2Pos.id by lia.
  change (2 ^ (-52))%Q with (1 # 4503599627370496)%Q.
  unfold Qeq. cbn [Qnum Qden Qmult Qplus inject_Z]. lia.
Qed.

(** 3.14159, of mantissa bits 10010010000111111010000. *)
Lemma mantissa_value_formula_witness :
  exists bits x,
    get_mantissa pi_object = bits_str bits /\ List.length bits = 23%nat /\
    get_mantissa_value pi_object = Ok x /\
    x = S754_finite false
          (Z.to_pos ((2 ^ 23 + 0x40490fd0 mod 2 ^ 23) * 2 ^ 29)) (-52) /\
    (SF2Q x == 1 + fraction_sum 1 bits)%Q.
Proof.
  apply (mantissa_value_formula (S754_finite false 7074231776675438 (-51))
                                0x40490fd0).
  - vm_compute. split; congruence.
  - reflexivity.
Defined.

(** ** Denormalized patterns *)

(** C5, as amended.  For every pattern classified Denormalized (raw
    exponent 0, mantissa not 0), [display] reports the special value
    "Denormalized" and returns before it calculates any value, and
    [get_mantissa_value] still returns 1 plus the fraction, with the
    implicit leading 1. *)
Theorem denormalized_not_reconstructed (v : spec_float) (p : Z)
        (o : IEEE754SinglePrecision) :
  0 <= p < 2 ^ 32 ->
  init_fields v (Py.format_032b p) = Ok o ->
  get_exponent_raw o = Ok 0 ->
  Py.int (get_mantissa o) 2 <> Ok 0 ->
  is_special o = Ok (Some "Denormalized") /\
  display o = Ok (SpecialValue "Denormalized" None) /\
  (r <- display o ;; Ok (calculated_value r)) = Ok None /\
  get_mantissa_value o =
  Ok (S754_finite false (Z.to_pos ((2 ^ 23 + p mod 2 ^ 23) * 2 ^ 29)) (-52)).
Proof.
  intros Hp Ho He Hm.
  destruct (pattern_accessors v p o Hp Ho) as (_ & Ee & Em).
  assert (Hs : is_special o = Ok (Some "Denormalized")).
  { rewrite (is_special_pattern v p o Hp Ho). cbv zeta.
    rewrite Ee in He. apply Ok_inj in He. rewrite He. cbn [Z.eqb].
    destruct (p mod 2 ^ 23 =? 0) eqn:E; [|reflexivity].
    apply Z.eqb_eq in E. rewrite Em, E in Hm. congruence. }
  assert (Hd : display o = Ok (SpecialValue "Denormalized" None)).
  { unfold display. rewrite Hs. reflexivity. }
  split; [exact Hs|]. split; [exact Hd|]. rewrite Hd.
  split; [reflexivity|].
  destruct (pattern_fields v p o Hp Ho)
    as (sb & eb & mb & _ & _ & Lm & _ & _ & _ & Emb & _ & _ & Ev).
  rewrite <- Ev. now apply get_mantissa_value_bits.
Qed.

Lemma denormalized_not_reconstructed_witness :
  is_special min_denormal_object = Ok (Some "Denormalized") /\
  display min_denormal_object = Ok (SpecialValue "Denormalized" None) /\
  (r <- display min_denormal_object ;; Ok (calculated_value r)) = Ok None /\
  get_mantissa_value min_denormal_object =
  Ok (S754_finite false (Z.to_pos ((2 ^ 23 + 1 mod 2 ^ 23) * 2 ^ 29)) (-52)).
Proof.
  apply (denormalized_not_reconstructed min_denormal 1).
  - vm_compute. split; congruence.
  - reflexivity.
  - reflexivity.
  - vm_compute. congruence.
Defined.

(** The claim fails on the smallest denormalized number: the constructor
    accepts it, the pattern is classified Denormalized, and [display]
    calculates no value for it, where the claim has [1 * 2^(-149)]. *)
Lemma denormalized_counterexample :
  __init__ min_denormal = Ok min_denormal_object /\
  is_special min_denormal_object = Ok (Some "Denormalized") /\
  (r <- display min_denormal_object ;; Ok (calculated_value r)) = Ok None /\
  (r <- display min_denormal_object ;; Ok (calculated_value r)) <>
  Ok (Some (Flt (denormal_value 0 1))).
Proof.
  split; [vm_compute; reflexivity|]. split; [vm_compute; reflexivity|].
  split; [vm_compute; reflexivity|]. vm_compute. congruence.
Qed.

(** ** Known values *)

(** The conversion to binary32 on the examples of
    [show_common_examples]: 3.14159, -273.15 and 123.456 give the
    patterns 0x40490fd0, 0xc3889333 and 0x42f6e979. *)
Example pattern_3_14159 :
  bit_pattern (S754_finite false 7074231776675438 (-51)) = 0x40490fd0.
Proof. reflexivity. Qed.

Example pattern_minus_273_15 :
  bit_pattern (S754_finite true 4805305618032230 (-44)) = 0xc3889333.
Proof. reflexivity. Qed.

Example pattern_123_456 :
  bit_pattern (S754_finite false 8687443681197687 (-46)) = 0x42f6e979.
Proof. reflexivity. Qed.

(** A tie is rounded to the even neighbour: 2^-150 gives 0, and 1.5 *
    2^-149 gives the pattern 2. *)
Example pattern_ties :
  bit_pattern (S754_finite false 4503599627370496 (-202)) = 0 /\
  bit_pattern (S754_finite false 6755399441055744 (-201)) = 2.
Proof. split; reflexivity. Qed.

(** [struct.pack] refuses 1e39 and the first double that rounds to
    2^128. *)
Example pack_overflow :
  Struct.pack_f (S754_finite false 6617444900424221 77) =
  Raise OverflowError /\
  Struct.pack_f (S754_finite false 9007198986305536 75) =
  Raise OverflowError /\
  bit_pattern (S754_finite false 9007198986305535 75) = 0x7f7fffff.
Proof. repeat split; reflexivity. Qed.

Example hex_and_binary_agree :
  hex_to_float "0x40490FDB" =
  binary_to_float "01000000010010010000111111011011" /\
  hex_to_float "0x40490FDB" = Ok (S754_finite false 7074237948887040 (-51)).
Proof. split; vm_compute; reflexivity. Qed.

Example malformed_inputs :
  binary_to_float "101" = Raise ValueError /\
  binary_to_float "10200000000000000000000000000000" = Raise ValueError /\
  hex_to_float "0x4g" = Raise ValueError.
Proof. repeat split; vm_compute; reflexivity. Qed.

(** C8. The special floats: 0.0 has sign 0, exponent 0, mantissa 0 and
    is classified Zero; -0.0 is the same with sign 1; +infinity has sign
    0, exponent 255, mantissa 0 and is classified Infinity; NaN has
    exponent 255, a mantissa that is not 0, and is classified NaN. *)
Theorem special_values :
  encodes (S754_zero false) "00000000000000000000000000000000"
          0 0 0 (Some "Zero") /\
  encodes (S754_zero true) "10000000000000000000000000000000"
          1 0 0 (Some "Zero") /\
  encodes (S754_infinity false) "01111111100000000000000000000000"
          0 255 0 (Some "Infinity") /\
  (exists sign mantissa,
      mantissa <> 0 /\
      encodes S754_nan "01111111110000000000000000000000"
              sign 255 mantissa (Some "NaN")).
Proof.
  split; [|split; [|split]].
  - eexists. repeat split; vm_compute; reflexivity.
  - eexists. repeat split; vm_compute; reflexivity.
  - eexists. repeat split; vm_compute; reflexivity.
  - exists 0, 4194304. split; [discriminate|].
    eexists. repeat split; vm_compute; reflexivity.
Qed.

(** C9. The float 1.0: its binary string, which is the number
    0x3F800000 ([hex] prints it in lower case), raw exponent 127,
    unbiased exponent 127 - 127 = 0, mantissa value 1.0, and 1.0 again
    as the value that [display] calculates and that [binary_to_float]
    reads back. *)
Theorem one_example :
  exists o,
    __init__ Float.one = Ok o /\
    binary_representation o = "00111111100000000000000000000000" /\
    Py.int (binary_representation o) 2 = Ok 0x3F800000 /\
    Py.hex 0x3F800000 = "0x3f800000" /\
    get_exponent_raw o = Ok 127 /\
    get_exponent_unbiased o = Ok (127 - 127) /\
    get_exponent_unbiased o = Ok 0 /\
    get_mantissa_value o = Ok Float.one /\
    display o =
    Ok (Analysis 0 "Positive (+)" 127 0 (Int 1) Float.one 1
                 (Flt Float.one) "0x3f800000") /\
    binary_to_float (binary_representation o) = Ok Float.one.
Proof. eexists. repeat split; vm_compute; reflexivity. Qed.

(** * Further properties of the code *)

(** ** Decoding a pattern and encoding it again *)

Lemma single_of_bits_valid (p : Z) :
  0 <= p < 2 ^ 32 ->
  valid_binary Struct.prec Struct.emax (Struct.single_of_bits p) = true.
Proof.
  intro Hp. unfold Struct.single_of_bits.
  assert (He : 0 <= (p / 2 ^ 23) mod 256 < 256)
    by (apply Z.mod_pos_bound; lia).
  assert (Hm : 0 <= p mod 2 ^ 23 < 2 ^ 23) by (apply Z.mod_pos_bound; lia).
  set (e := (p / 2 ^ 23) mod 256) in *. set (m := p mod 2 ^ 23) in *.
  destruct (e =? 255) eqn:E1; [destruct (m =? 0); reflexivity|].
  apply Z.eqb_neq in E1.
  destruct (e =? 0) eqn:E2.
  - destruct m as [|q|q] eqn:Em; [reflexivity| |reflexivity].
    cbn [valid_binary]. unfold bounded, canonical_mantissa, fexp, emin,
      Struct.prec, Struct.emax.
    pose proof (digits2_bounds q) as [Hlo _].
    assert (Zpos (digits2_pos q) <= 23).
    { destruct (Z.le_gt_cases (Zpos (digits2_pos q)) 23) as [L|L]; [exact L|].
      assert (2 ^ 23 <= 2 ^ (Zpos (digits2_pos q) - 1))
        by (apply Z.pow_le_mono_r; lia).
      lia. }
    apply andb_true_intro. split; [apply Z.eqb_eq|apply Z.leb_le]; lia.
  - apply Z.eqb_neq in E2.
    destruct (m + 2 ^ 23) as [|q|q] eqn:Em; [reflexivity| |reflexivity].
    cbn [valid_binary]. unfold bounded, canonical_mantissa, fexp, emin,
      Struct.prec, Struct.emax.
    rewrite (digits2_unique q 24)
      by (change (2 ^ (24 - 1)) with (2 ^ 23);
          change (2 ^ 24) with (2 * 2 ^ 23); lia).
    apply andb_true_intro. split; [apply Z.eqb_eq|apply Z.leb_le]; lia.
Qed.

Lemma bits_of_single_of_bits (p : Z) :
  0 <= p < 2 ^ 32 -> not_nan_pattern p ->
  Struct.bits_of_single (Struct.single_of_bits p) = p.
Proof.
  intros Hp Hn. unfold not_nan_pattern in Hn.
  unfold Struct.single_of_bits.
  assert (He : 0 <= (p / 2 ^ 23) mod 256 < 256)
    by (apply Z.mod_pos_bound; lia).
  assert (Hm : 0 <= p mod 2 ^ 23 < 2 ^ 23) by (apply Z.mod_pos_bound; lia).
  assert (Hs : Struct.sign_field (2 ^ 31 <=? p) = p / 2 ^ 31).
  { change (2 ^ 32) with 4294967296 in Hp. change (2 ^ 31) with 2147483648.
    destruct (2147483648 <=? p) eqn:E;
      [apply Z.leb_le in E|apply Z.leb_gt in E]; cbn [Struct.sign_field];
      Z.div_mod_to_equations; lia. }
  assert (Hsplit : p = p / 2 ^ 31 * 2 ^ 31 +
                       (p / 2 ^ 23) mod 256 * 2 ^ 23 + p mod 2 ^ 23).
  { change (2 ^ 31) with 2147483648. change (2 ^ 23) with 8388608.
    Z.div_mod_to_equations. lia. }
  set (e := (p / 2 ^ 23) mod 256) in *. set (m := p mod 2 ^ 23) in *.
  destruct (e =? 255) eqn:E1.
  - apply Z.eqb_eq in E1. destruct Hn as [Hn|Hn]; [lia|].
    rewrite Hn. cbn [Z.eqb Struct.bits_of_single]. rewrite Hs. lia.
  - apply Z.eqb_neq in E1. destruct (e =? 0) eqn:E2.
    + apply Z.eqb_eq in E2.
      destruct m as [|q|q] eqn:Em; cbn [Struct.bits_of_single]; [| |lia].
      * rewrite Hs. lia.
      * destruct (Zpos q <? 2 ^ 23) eqn:E3; [|apply Z.ltb_ge in E3; lia].
        rewrite Hs. lia.
    + apply Z.eqb_neq in E2.
      destruct (m + 2 ^ 23) as [|q|q] eqn:Em; [lia| |lia].
      cbn [Struct.bits_of_single].
      destruct (Zpos q <? 2 ^ 23) eqn:E3; [apply Z.ltb_lt in E3; lia|].
      rewrite Hs. lia.
Qed.

(** A binary32 number widened to binary64 and narrowed again. *)
Lemma to_single_to_double (y : spec_float) :
  valid_binary Struct.prec Struct.emax y = true ->
  Struct.to_single (Struct.to_double y) = y /\
  Float.is_infinity (Struct.to_double y) = Float.is_infinity y.
Proof.
  destruct y as [s|s| |s m e]; cbn [valid_binary]; intro Hv;
    try (split; reflexivity).
  destruct (bounded_single_cases m e Hv) as [[Hm He]|[Hm He]].
  - (* subnormal *)
    destruct (binary_round_small Float.prec Float.emax
                ltac:(unfold Float.emax; lia) s m e)
      as (m' & e' & E & Hb & Hs).
    + pose proof (digits2_bounds m) as [Hlo _].
      destruct (Z.le_gt_cases (Zpos (digits2_pos m)) 53) as [L|L];
        [exact L|].
      assert (2 ^ 23 <= 2 ^ (Zpos (digits2_pos m) - 1))
        by (apply Z.pow_le_mono_r; lia).
      lia.
    + unfold emin, Float.prec, Float.emax. lia.
    + pose proof (digits2_bounds m) as [Hlo _].
      destruct (Z.le_gt_cases (Zpos (digits2_pos m)) 53) as [L|L];
        [unfold Float.emax; lia|].
      assert (2 ^ 23 <= 2 ^ (Zpos (digits2_pos m) - 1))
        by (apply Z.pow_le_mono_r; lia).
      lia.
    + cbn [Struct.to_double]. rewrite E. cbn [Struct.to_single Float.is_infinity].
      split; [|reflexivity].
      apply binary_round_exact; [exact Hv|now apply same_value_sym].
  - destruct (binary_round_small Float.prec Float.emax
                ltac:(unfold Float.emax; lia) s m e)
      as (m' & e' & E & Hb & Hs).
    + rewrite (digits2_unique m 24)
        by (change (2 ^ (24 - 1)) with (2 ^ 23); lia).
      unfold Float.prec. lia.
    + unfold emin, Float.prec, Float.emax. lia.
    + rewrite (digits2_unique m 24)
        by (change (2 ^ (24 - 1)) with (2 ^ 23); lia).
      unfold Float.emax. lia.
    + cbn [Struct.to_double]. rewrite E. cbn [Struct.to_single Float.is_infinity].
      split; [|reflexivity].
      apply binary_round_exact; [exact Hv|now apply same_value_sym].
Qed.

(** The object that the constructor builds for a decoded pattern. *)
Lemma init_of_decoded (p : Z) :
  0 <= p < 2 ^ 32 ->
  let v := Struct.to_double (Struct.single_of_bits p) in
  let q := Struct.bits_of_single (Struct.single_of_bits p) in
  0 <= q < 2 ^ 32 /\
  __init__ v = init_fields v (Py.format_032b q) /\
  exists o, __init__ v = Ok o.
Proof.
  intros Hp v q. pose proof (single_of_bits_valid p Hp) as Hv.
  destruct (to_single_to_double _ Hv) as [Hts Hinf].
  pose proof (bits_of_single_range _ Hv) as Hq. fold q in Hq.
  assert (Hi : __init__ v = init_fields v (Py.format_032b q)).
  { unfold __init__, _get_binary_representation, Struct.pack_f,
      Struct.unpack_I. fold v in Hts, Hinf. rewrite Hts, Hinf.
    destruct (Float.is_infinity (Struct.single_of_bits p));
      cbn [andb negb bind]; fold q;
      rewrite uint32_of_bytes_of_uint32 by exact Hq; reflexivity. }
  split; [exact Hq|]. split; [exact Hi|]. rewrite Hi.
  destruct (format_032b_bits q Hq) as (-> & El & _).
  rewrite (init_fields_bits _ _ El). eauto.
Qed.

Lemma bits_val_inj (a : list bool) :
  forall b, List.length a = List.length b ->
            bits_val 0 a = bits_val 0 b -> a = b.
Proof.
  induction a as [|x a IH]; intros [|y b] Hl Hv; try discriminate Hl;
    [reflexivity|].
  cbn [List.length] in Hl. injection Hl as Hl.
  cbn [bits_val] in Hv.
  rewrite (bits_val_acc a), (bits_val_acc b), <- Hl in Hv.
  pose proof (bits_val_bounds a) as Ba.
  pose proof (bits_val_bounds b) as Bb. rewrite <- Hl in Bb.
  assert (Z.b2z x = Z.b2z y /\ bits_val 0 a = bits_val 0 b) as [Hx Ht]
    by (destruct x, y; cbn [Z.b2z] in *; lia).
  f_equal; [now destruct x, y|now apply IH].
Qed.

Lemma bits_str_digits (l : list bool) :
  Forall binary_digit (list_ascii_of_string (bits_str l)).
Proof.
  induction l as [|b l IH]; cbn [bits_str list_ascii_of_string];
    constructor; [|exact IH].
  destruct b; [right|left]; reflexivity.
Qed.

Lemma init_fields_binary (v : spec_float) (b : string)
      (o : IEEE754SinglePrecision) :
  init_fields v b = Ok o -> binary_representation o = b /\ value o = v.
Proof.
  unfold init_fields, bind. destruct (Py.index b 0); [|discriminate].
  intro H. apply Ok_inj in H. subst o. split; reflexivity.
Qed.

(** The string of a pattern gives the pattern back. *)
Lemma format_032b_inj (p q : Z) :
  0 <= p < 2 ^ 32 -> 0 <= q < 2 ^ 32 ->
  Py.format_032b p = Py.format_032b q -> p = q.
Proof.
  intros Hp Hq H.
  destruct (format_032b_bits p Hp) as (Ep & Lp & Vp).
  destruct (format_032b_bits q Hq) as (Eq & Lq & Vq).
  rewrite Ep, Eq in H.
  assert (Hi : Py.int (bits_str (bits32 p)) 2 = Py.int (bits_str (bits32 q)) 2)
    by now rewrite H.
  rewrite !int_bits_str in Hi by eauto using bits_ne.
  apply Ok_inj in Hi. congruence.
Qed.

(** X1. A text of 32 binary digits whose pattern is not a NaN is decoded
    by [binary_to_float] to a float that [float_to_ieee754] encodes as
    the same text.  (The patterns of NaNs are left out: the floats of
    the model have one NaN.) *)
Theorem decode_then_encode (s : string) (n : Z) :
  String.length s = 32%nat ->
  Forall binary_digit (list_ascii_of_string s) ->
  Py.int s 2 = Ok n ->
  not_nan_pattern n ->
  exists v o,
    binary_to_float s = Ok v /\ float_to_ieee754 v = Ok o /\
    binary_representation o = s.
Proof.
  intros Hl Hd Hn Hnn. destruct (binary_string_bits s Hd) as (l & -> & El).
  rewrite Hl in El. destruct (binary_to_float_bits l El) as (Hr & Hi & Hf).
  rewrite Hi in Hn. apply Ok_inj in Hn. subst n.
  destruct (init_of_decoded _ Hr) as (Hq & Ei & o & Eo).
  cbv zeta in Ei, Eo, Hq.
  exists (Struct.to_double (Struct.single_of_bits (bits_val 0 l))), o.
  split; [exact Hf|]. split; [exact Eo|].
  rewrite Ei, (bits_of_single_of_bits _ Hr Hnn) in Eo.
  destruct (init_fields_binary _ _ _ Eo) as [-> _].
  destruct (format_032b_bits _ Hr) as (-> & L32 & V32).
  f_equal. apply bits_val_inj; congruence.
Qed.

(** The pattern 0x40490FDB, and the negative infinity 0xFF800000. *)
Lemma decode_then_encode_witness :
  (exists v o,
     binary_to_float "01000000010010010000111111011011" = Ok v /\
     float_to_ieee754 v = Ok o /\
     binary_representation o = "01000000010010010000111111011011") /\
  (exists v o,
     binary_to_float "11111111100000000000000000000000" = Ok v /\
     float_to_ieee754 v = Ok o /\
     binary_representation o = "11111111100000000000000000000000").
Proof.
  split.
  - apply (decode_then_encode "01000000010010010000111111011011" 0x40490FDB).
    + reflexivity.
    + cbn [list_ascii_of_string].
      repeat (apply Forall_cons;
              [(left; reflexivity) || (right; reflexivity)|]).
      apply Forall_nil.
    + vm_compute. reflexivity.
    + left. vm_compute. discriminate.
  - apply (decode_then_encode "11111111100000000000000000000000" 0xFF800000).
    + reflexivity.
    + cbn [list_ascii_of_string].
      repeat (apply Forall_cons;
              [(left; reflexivity) || (right; reflexivity)|]).
      apply Forall_nil.
    + vm_compute. reflexivity.
    + right. reflexivity.
Defined.

(** X2. The binary string of every object that the constructor builds
    has exactly 32 characters, each of them [0] or [1], and the object
    keeps the float it was built from. *)
Theorem binary_representation_shape (v : spec_float)
        (o : IEEE754SinglePrecision) :
  __init__ v = Ok o ->
  String.length (binary_representation o) = 32%nat /\
  Forall binary_digit (list_ascii_of_string (binary_representation o)) /\
  value o = v.
Proof.
  intro H. destruct (init_pattern v o H) as [Hr Hi].
  destruct (init_fields_binary _ _ _ Hi) as [-> Hv].
  destruct (format_032b_bits _ Hr) as (-> & El & _).
  rewrite bits_str_length. split; [exact El|].
  split; [apply bits_str_digits|exact Hv].
Qed.

Lemma binary_representation_shape_witness :
  String.length (binary_representation pi_object) = 32%nat /\
  Forall binary_digit
         (list_ascii_of_string (binary_representation pi_object)) /\
  value pi_object = S754_finite false 7074231776675438 (-51).
Proof.
  apply binary_representation_shape. vm_compute. reflexivity.
Defined.

(** X3. Two floats get the same binary string exactly when they round to
    the same binary32 number; two floats that binary32 represents get the
    same string only when they are equal. *)
Theorem same_string_same_single (v1 v2 : spec_float)
        (o1 o2 : IEEE754SinglePrecision) :
  __init__ v1 = Ok o1 -> __init__ v2 = Ok o2 ->
  (binary_representation o1 = binary_representation o2 <->
   Struct.to_single v1 = Struct.to_single v2) /\
  (valid_binary Float.prec Float.emax v1 = true ->
   valid_binary Float.prec Float.emax v2 = true ->
   single_representable v1 -> single_representable v2 ->
   binary_representation o1 = binary_representation o2 -> v1 = v2).
Proof.
  intros H1 H2.
  destruct (init_pattern v1 o1 H1) as [R1 I1].
  destruct (init_pattern v2 o2 H2) as [R2 I2].
  destruct (init_fields_binary _ _ _ I1) as [-> _].
  destruct (init_fields_binary _ _ _ I2) as [-> _].
  assert (Hiff : Py.format_032b (bit_pattern v1) =
                 Py.format_032b (bit_pattern v2) <->
                 Struct.to_single v1 = Struct.to_single v2).
  { split; intro H.
    - apply format_032b_inj in H; [|exact R1|exact R2].
      unfold bit_pattern in H.
      rewrite <- (single_of_bits_of_single _ (to_single_valid v1)).
      rewrite <- (single_of_bits_of_single _ (to_single_valid v2)).
      now rewrite H.
    - unfold bit_pattern. now rewrite H. }
  split; [exact Hiff|].
  intros V1 V2 S1 S2 H. apply Hiff in H.
  destruct (to_single_representable v1 V1 S1) as [_ <-].
  destruct (to_single_representable v2 V2 S2) as [_ <-].
  now rewrite H.
Qed.

Lemma same_string_same_single_witness :
  (binary_representation one_object =
   binary_representation min_denormal_object <->
   Struct.to_single Float.one = Struct.to_single min_denormal) /\
  (valid_binary Float.prec Float.emax Float.one = true ->
   valid_binary Float.prec Float.emax min_denormal = true ->
   single_representable Float.one -> single_representable min_denormal ->
   binary_representation one_object =
   binary_representation min_denormal_object ->
   Float.one = min_denormal).
Proof.
  apply same_string_same_single; vm_compute; reflexivity.
Defined.

(** ** The value that [display] calculates *)

Section RoundingAux.

Variables prec emax : Z.

(** [binary_round_aux] on a number that is a float of the format, given
    with a lower exponent: the shift is exact. *)
Lemma binary_round_aux_exact (s : bool) (m m' : positive) (e e' : Z) :
  bounded prec emax m' e' = true ->
  e <= e' -> Zpos m = Zpos m' * 2 ^ (e' - e) ->
  binary_round_aux prec emax s (Zpos m) e loc_Exact = S754_finite s m' e'.
Proof.
  intros Hb Hle Hm.
  assert (Hv : same_value m e m' e').
  { unfold same_value. rewrite Z.min_l by lia. rewrite Z.sub_diag.
    simpl (2 ^ 0). lia. }
  pose proof (same_value_digits _ _ _ _ Hv) as Hd.
  unfold bounded, canonical_mantissa in Hb.
  apply andb_prop in Hb. destruct Hb as [Hc Hl]. apply Z.eqb_eq in Hc.
  unfold binary_round_aux, shr_fexp. cbn [Zdigits2 shr_record_of_loc].
  rewrite Hd, Hc.
  assert (Hshr : shr (Build_shr_record (Zpos m) false false) e (e' - e) =
                 (Build_shr_record (Zpos m') false false, e')).
  { unfold shr. destruct (e' - e) as [|p|p] eqn:E.
    - simpl (2 ^ 0) in Hm. f_equal; [f_equal; lia|lia].
    - rewrite iter_pos_iter. f_equal; [|lia].
      assert (m = Pos.iter xO m' p) as ->
          by (apply Pos2Z.inj; now rewrite iter_xO).
      apply shr_exact.
    - lia. }
  rewrite Hshr. cbn [shr_m loc_of_shr_record round_nearest_even Zdigits2].
  rewrite Hc, Z.sub_diag. cbn [shr shr_m]. now rewrite Hl.
Qed.

End RoundingAux.

(** A float with 53 digits and an exponent in range. *)
Lemma bounded_53 (m : positive) (e : Z) :
  2 ^ 52 <= Zpos m < 2 ^ 53 -> -1074 <= e <= 971 ->
  bounded Float.prec Float.emax m e = true.
Proof.
  intros Hm He. unfold bounded, canonical_mantissa, fexp, emin,
    Float.prec, Float.emax.
  rewrite (digits2_unique m 53) by (change (2 ^ (53 - 1)) with (2 ^ 52); lia).
  apply andb_true_intro. split; [apply Z.eqb_eq|apply Z.leb_le]; lia.
Qed.

(** The float of a power of two. *)
Lemma binary_round_pow2 (s : bool) (q : positive) (j e : Z) :
  0 <= j -> Zpos q = 2 ^ j -> -1022 <= e + j <= 1023 ->
  binary_round Float.prec Float.emax s q e =
  S754_finite s 4503599627370496 (e + j - 52).
Proof.
  intros Hj Hq He. apply binary_round_exact.
  - apply bounded_53; [|lia].
    change (Zpos 4503599627370496) with (2 ^ 52).
    change (2 ^ 53) with (2 * 2 ^ 52). lia.
  - unfold same_value. rewrite Hq.
    change (Zpos 4503599627370496) with (2 ^ 52).
    rewrite <- !Z.pow_add_r by lia. f_equal. lia.
Qed.

(** Multiplying by a power of two is exact while the result is normal. *)
Lemma mul_pow2 (s : bool) (a b : Z) (m : positive) :
  2 ^ 52 <= Zpos m < 2 ^ 53 -> -1074 <= a + b <= 971 ->
  Float.mul (S754_finite s 4503599627370496 (a - 52)) (S754_finite false m b) =
  S754_finite s m (a + b).
Proof.
  intros Hm Hab. unfold Float.mul, SFmul. rewrite xorb_false_r.
  apply binary_round_aux_exact.
  - now apply bounded_53.
  - lia.
  - rewrite Pos2Z.inj_mul.
    replace (a + b - (a - 52 + b)) with 52 by lia.
    change (Zpos 4503599627370496) with (2 ^ 52). ring.
Qed.

(** The product [sign_multiplier * 2 ** exp_unbiased] as a float. *)
Lemma signed_power (s : bool) (k : Z) (signed : num) :
  -1022 <= k <= 1023 ->
  num_mul (Int (if s then -1 else 1)) (pow2 k) = Ok signed ->
  as_float signed = Ok (S754_finite s 4503599627370496 (k - 52)).
Proof.
  intros Hk. unfold pow2. destruct (0 <=? k) eqn:E.
  - apply Z.leb_le in E. cbn [num_mul]. intro H. apply Ok_inj in H.
    subst signed. cbn [as_float]. unfold Float.of_int.
    assert (Hp : 0 < 2 ^ k) by (apply Z.pow_pos_nonneg; lia).
    destruct (2 ^ k) as [|q|q] eqn:Eq; [lia| |lia].
    destruct s.
    + change (-1 * Zpos q) with (Zneg q). cbn [binary_normalize].
      rewrite (binary_round_pow2 true q k 0) by (auto; lia). reflexivity.
    + change (1 * Zpos q) with (Zpos q). cbn [binary_normalize].
      rewrite (binary_round_pow2 false q k 0) by (auto; lia). reflexivity.
  - apply Z.leb_gt in E. cbn [num_mul as_float bind binary_normalize].
    rewrite (binary_round_pow2 false 1 0 k) by (try reflexivity; lia).
    unfold Float.of_int.
    destruct s.
    + cbn [binary_normalize].
      rewrite (binary_round_pow2 true 1 0 0) by (try reflexivity; lia).
      cbn [Float.is_infinity bind].
      change (0 + 0 - 52) with (0 - 52).
      rewrite (mul_pow2 true 0 (k + 0 - 52) 4503599627370496)
        by (change (2 ^ 52) with 4503599627370496;
            change (2 ^ 53) with 9007199254740992; lia).
      intro H. apply Ok_inj in H. subst signed. cbn [as_float].
      do 2 f_equal. lia.
    + cbn [binary_normalize].
      rewrite (binary_round_pow2 false 1 0 0) by (try reflexivity; lia).
      cbn [Float.is_infinity bind].
      change (0 + 0 - 52) with (0 - 52).
      rewrite (mul_pow2 false 0 (k + 0 - 52) 4503599627370496)
        by (change (2 ^ 52) with 4503599627370496;
            change (2 ^ 53) with 9007199254740992; lia).
      intro H. apply Ok_inj in H. subst signed. cbn [as_float].
      do 2 f_equal. lia.
Qed.

Lemma signed_power_ok (s : bool) (k : Z) :
  -1022 <= k <= 1023 ->
  exists signed,
    num_mul (Int (if s then -1 else 1)) (pow2 k) = Ok signed /\
    as_float signed = Ok (S754_finite s 4503599627370496 (k - 52)).
Proof.
  intro Hk.
  assert (He : exists signed,
             num_mul (Int (if s then -1 else 1)) (pow2 k) = Ok signed).
  { unfold pow2. destruct (0 <=? k); [cbn; eauto|].
    destruct s; cbn; eauto. }
  destruct He as (signed & He). exists signed. split; [exact He|].
  now apply signed_power in He.
Qed.

Lemma num_mul_float (a : num) (y : spec_float) :
  num_mul a (Flt y) = (x <- as_float a ;; Ok (Flt (Float.mul x y))).
Proof. destruct a; cbn; [|reflexivity]. now destruct (Float.of_int n). Qed.

(** The float of a normal pattern. *)
Lemma to_double_normal (p : Z) :
  0 <= p < 2 ^ 32 -> 1 <= (p / 2 ^ 23) mod 256 <= 254 ->
  Struct.to_double (Struct.single_of_bits p) =
  S754_finite (p / 2 ^ 31 =? 1)
              (Z.to_pos ((2 ^ 23 + p mod 2 ^ 23) * 2 ^ 29))
              ((p / 2 ^ 23) mod 256 - 127 + -52).
Proof.
  intros Hp He. unfold Struct.single_of_bits.
  assert (Hm : 0 <= p mod 2 ^ 23 < 2 ^ 23) by (apply Z.mod_pos_bound; lia).
  assert (Hs : (2 ^ 31 <=? p) = (p / 2 ^ 31 =? 1)).
  { change (2 ^ 32) with 4294967296 in Hp. change (2 ^ 31) with 2147483648.
    destruct (2147483648 <=? p) eqn:E1;
      [apply Z.leb_le in E1|apply Z.leb_gt in E1]; symmetry;
      [apply Z.eqb_eq|apply Z.eqb_neq]; Z.div_mod_to_equations; lia. }
  set (e := (p / 2 ^ 23) mod 256) in *. set (m := p mod 2 ^ 23) in *.
  destruct (e =? 255) eqn:E1; [apply Z.eqb_eq in E1; lia|].
  destruct (e =? 0) eqn:E2; [apply Z.eqb_eq in E2; lia|].
  destruct (m + 2 ^ 23) as [|q|q] eqn:Eq; [lia| |lia].
  cbn [Struct.to_double]. rewrite Hs.
  change (2 ^ 23) with 8388608 in *. change (2 ^ 29) with 536870912.
  apply binary_round_exact.
  - apply bounded_53; [|lia]. rewrite Z2Pos.id by lia.
    change (2 ^ 52) with 4503599627370496.
    change (2 ^ 53) with 9007199254740992. lia.
  - unfold same_value. rewrite Z2Pos.id by lia.
    rewrite Z.min_r by lia.
    replace (e - 150 - (e - 127 + -52)) with 29 by lia.
    rewrite Z.sub_diag. change (2 ^ 29) with 536870912. simpl (2 ^ 0). lia.
Qed.

(** What [display] returns for a normal pattern. *)
Lemma display_normal_pattern (v : spec_float) (p : Z)
      (o : IEEE754SinglePrecision) :
  0 <= p < 2 ^ 32 ->
  init_fields v (Py.format_032b p) = Ok o ->
  1 <= (p / 2 ^ 23) mod 256 <= 254 ->
  display o =
  Ok (Analysis (p / 2 ^ 31)
               (if p / 2 ^ 31 =? 1 then "Negative (-)" else "Positive (+)")
               ((p / 2 ^ 23) mod 256) ((p / 2 ^ 23) mod 256 - 127)
               (pow2 ((p / 2 ^ 23) mod 256 - 127))
               (S754_finite false
                  (Z.to_pos ((2 ^ 23 + p mod 2 ^ 23) * 2 ^ 29)) (-52))
               (if p / 2 ^ 31 =? 1 then -1 else 1)
               (Flt (Struct.to_double (Struct.single_of_bits p)))
               (Py.hex p)).
Proof.
  intros Hp Ho He.
  destruct (pattern_accessors v p o Hp Ho) as (Es & Ee & Em).
  destruct (pattern_fields v p o Hp Ho)
    as (sb & eb & mb & _ & _ & Lm & _ & _ & _ & Emb & _ & _ & Ev).
  pose proof (get_mantissa_value_bits o mb Emb Lm) as Emv. rewrite Ev in Emv.
  assert (Hsp : is_special o = Ok None).
  { rewrite (is_special_pattern v p o Hp Ho). cbv zeta.
    destruct (_ =? 255) eqn:E1; [apply Z.eqb_eq in E1; lia|].
    destruct (_ =? 0) eqn:E2; [apply Z.eqb_eq in E2; lia|]. reflexivity. }
  assert (Hint : Py.int (binary_representation o) 2 = Ok p).
  { destruct (init_fields_binary _ _ _ Ho) as [-> _].
    destruct (format_032b_bits p Hp) as (-> & El & Eb).
    rewrite int_bits_str by eauto using bits_ne. now rewrite Eb. }
  unfold display. rewrite Hsp. cbn [truthy bind].
  unfold get_exponent_unbiased. rewrite Es, Ee, Emv, Hint. cbn [bind].
  destruct (signed_power_ok (p / 2 ^ 31 =? 1) ((p / 2 ^ 23) mod 256 - 127))
    as (signed & -> & Hf); [lia|].
  cbn [bind]. rewrite num_mul_float, Hf. cbn [bind].
  assert (Hm : 0 <= p mod 2 ^ 23 < 2 ^ 23) by (apply Z.mod_pos_bound; lia).
  rewrite mul_pow2.
  - now rewrite to_double_normal.
  - rewrite Z2Pos.id by lia. change (2 ^ 23) with 8388608 in *.
    change (2 ^ 29) with 536870912. change (2 ^ 52) with 4503599627370496.
    change (2 ^ 53) with 9007199254740992. lia.
  - lia.
Qed.

(** X4. For every normal pattern (raw exponent from 1 to 254), [display]
    reports the sign, the raw and the unbiased exponent, the mantissa
    value and the hexadecimal pattern, and the value it calculates as
    [sign_multiplier * 2 ** exp_unbiased * mantissa_val] is exactly the
    float that [binary_to_float] decodes from the binary string. *)
Theorem display_calculates_decoded (v : spec_float) (p : Z)
        (o : IEEE754SinglePrecision) :
  0 <= p < 2 ^ 32 ->
  init_fields v (Py.format_032b p) = Ok o ->
  1 <= (p / 2 ^ 23) mod 256 <= 254 ->
  exists x mantissa_val,
    binary_to_float (binary_representation o) = Ok x /\
    get_mantissa_value o = Ok mantissa_val /\
    display o =
    Ok (Analysis (p / 2 ^ 31)
                 (if p / 2 ^ 31 =? 1 then "Negative (-)" else "Positive (+)")
                 ((p / 2 ^ 23) mod 256) ((p / 2 ^ 23) mod 256 - 127)
                 (pow2 ((p / 2 ^ 23) mod 256 - 127))
                 mantissa_val
                 (if p / 2 ^ 31 =? 1 then -1 else 1)
                 (Flt x) (Py.hex p)).
Proof.
  intros Hp Ho He.
  destruct (pattern_fields v p o Hp Ho)
    as (sb & eb & mb & _ & _ & Lm & _ & _ & _ & Emb & _ & _ & Ev).
  pose proof (get_mantissa_value_bits o mb Emb Lm) as Emv. rewrite Ev in Emv.
  exists (Struct.to_double (Struct.single_of_bits p)). eexists.
  split; [|split; [exact Emv|now apply (display_normal_pattern v)]].
  destruct (init_fields_binary _ _ _ Ho) as [-> _].
  destruct (format_032b_bits p Hp) as (-> & El & Eb).
  destruct (binary_to_float_bits _ El) as (_ & _ & ->). now rewrite Eb.
Qed.

(** 3.14159, of pattern 0x40490fd0 and raw exponent 128. *)
Lemma display_calculates_decoded_witness :
  exists x mantissa_val,
    binary_to_float (binary_representation pi_object) = Ok x /\
    get_mantissa_value pi_object = Ok mantissa_val /\
    display pi_object =
    Ok (Analysis (0x40490fd0 / 2 ^ 31)
                 (if 0x40490fd0 / 2 ^ 31 =? 1
                  then "Negative (-)" else "Positive (+)")
                 ((0x40490fd0 / 2 ^ 23) mod 256)
                 ((0x40490fd0 / 2 ^ 23) mod 256 - 127)
                 (pow2 ((0x40490fd0 / 2 ^ 23) mod 256 - 127))
                 mantissa_val
                 (if 0x40490fd0 / 2 ^ 31 =? 1 then -1 else 1)
                 (Flt x) (Py.hex 0x40490fd0)).
Proof.
  apply (display_calculates_decoded
           (S754_finite false 7074231776675438 (-51)) 0x40490fd0).
  - vm_compute. split; congruence.
  - reflexivity.
  - vm_compute. split; congruence.
Defined.

(** X5. For every float [v] that binary32 represents as a normal number,
    the value that [display] calculates for the object of [v] is [v]
    itself. *)
Theorem display_calculates_float (v : spec_float)
        (o : IEEE754SinglePrecision) :
  valid_binary Float.prec Float.emax v = true ->
  single_representable v ->
  float_to_ieee754 v = Ok o ->
  is_special o = Ok None ->
  exists r, display o = Ok r /\ calculated_value r = Some (Flt v).
Proof.
  intros Hv Hr Ho Hn. unfold float_to_ieee754 in Ho.
  destruct (init_pattern v o Ho) as [Hp Hi].
  assert (He : 1 <= (bit_pattern v / 2 ^ 23) mod 256 <= 254).
  { rewrite (is_special_pattern v _ o Hp Hi) in Hn. cbv zeta in Hn.
    assert (Hb : 0 <= (bit_pattern v / 2 ^ 23) mod 256 < 256)
      by (apply Z.mod_pos_bound; lia).
    destruct (_ =? 255) eqn:E1;
      [destruct (_ =? 0) in Hn; discriminate|apply Z.eqb_neq in E1].
    destruct (_ =? 0) eqn:E2;
      [destruct (_ =? 0) in Hn; discriminate|apply Z.eqb_neq in E2].
    lia. }
  rewrite (display_normal_pattern v _ o Hp Hi He). eexists.
  split; [reflexivity|]. cbn [calculated_value]. do 2 f_equal.
  unfold bit_pattern.
  rewrite single_of_bits_of_single by apply to_single_valid.
  now destruct (to_single_representable v Hv Hr).
Qed.

(** 0.15625 = 5 * 2^-5. *)
Lemma display_calculates_float_witness :
  exists r,
    display {| value := S754_finite false 5629499534213120 (-55);
               binary_representation := "00111110001000000000000000000000";
               sign_bit := "0";
               exponent_bits := "01111100";
               mantissa_bits := "01000000000000000000000" |} = Ok r /\
    calculated_value r =
    Some (Flt (S754_finite false 5629499534213120 (-55))).
Proof.
  apply display_calculates_float.
  - reflexivity.
  - exists 10485760%positive, (-26). split; reflexivity.
  - vm_compute. reflexivity.
  - vm_compute. reflexivity.
Defined.

(** ** Special values in [display] *)

(** X6. For a pattern with mantissa 0, [display] reports an infinity with
    the line "Positive Infinity" or "Negative Infinity" and a zero with
    "+0.0" or "-0.0", after the sign bit; for a NaN it reports the tag
    alone, whatever the sign bit is. *)
Theorem display_special_values (v : spec_float) (p : Z)
        (o : IEEE754SinglePrecision) :
  0 <= p < 2 ^ 32 ->
  init_fields v (Py.format_032b p) = Ok o ->
  ((p / 2 ^ 23) mod 256 = 255 -> p mod 2 ^ 23 = 0 ->
   display o =
   Ok (SpecialValue "Infinity"
         (Some (if p / 2 ^ 31 =? 1
                then "Negative Infinity" else "Positive Infinity")))) /\
  ((p / 2 ^ 23) mod 256 = 0 -> p mod 2 ^ 23 = 0 ->
   display o =
   Ok (SpecialValue "Zero"
         (Some (if p / 2 ^ 31 =? 1 then "-0.0" else "+0.0")))) /\
  ((p / 2 ^ 23) mod 256 = 255 -> p mod 2 ^ 23 <> 0 ->
   display o = Ok (SpecialValue "NaN" None)).
Proof.
  intros Hp Ho. destruct (pattern_accessors v p o Hp Ho) as (Es & _ & _).
  pose proof (is_special_pattern v p o Hp Ho) as Hs. cbv zeta in Hs.
  unfold display. rewrite Hs, Es. repeat split; intros H1 H2; rewrite H1.
  - rewrite H2. generalize (p / 2 ^ 31). intros [|[q|q|]|q]; reflexivity.
  - rewrite H2. generalize (p / 2 ^ 31). intros [|[q|q|]|q]; reflexivity.
  - apply Z.eqb_neq in H2. rewrite H2. reflexivity.
Qed.

Lemma display_special_values_witness :
  ((0x7f800000 / 2 ^ 23) mod 256 = 255 -> 0x7f800000 mod 2 ^ 23 = 0 ->
   display infinity_object =
   Ok (SpecialValue "Infinity"
         (Some (if 0x7f800000 / 2 ^ 31 =? 1
                then "Negative Infinity" else "Positive Infinity")))) /\
  ((0x7f800000 / 2 ^ 23) mod 256 = 0 -> 0x7f800000 mod 2 ^ 23 = 0 ->
   display infinity_object =
   Ok (SpecialValue "Zero"
         (Some (if 0x7f800000 / 2 ^ 31 =? 1 then "-0.0" else "+0.0")))) /\
  ((0x7f800000 / 2 ^ 23) mod 256 = 255 -> 0x7f800000 mod 2 ^ 23 <> 0 ->
   display infinity_object = Ok (SpecialValue "NaN" None)).
Proof.
  apply (display_special_values (S754_infinity false) 0x7f800000).
  - vm_compute. split; congruence.
  - reflexivity.
Defined.

(** [display] returns for every pattern. *)
Lemma display_returns (v : spec_float) (p : Z) (o : IEEE754SinglePrecision) :
  0 <= p < 2 ^ 32 ->
  init_fields v (Py.format_032b p) = Ok o ->
  exists r, display o = Ok r.
Proof.
  intros Hp Ho.
  assert (Hb : 0 <= (p / 2 ^ 23) mod 256 < 256)
    by (apply Z.mod_pos_bound; lia).
  destruct (Z.eq_dec ((p / 2 ^ 23) mod 256) 255) as [E1|E1];
    [|destruct (Z.eq_dec ((p / 2 ^ 23) mod 256) 0) as [E2|E2]].
  - destruct (pattern_accessors v p o Hp Ho) as (Es & _ & _).
    pose proof (is_special_pattern v p o Hp Ho) as Hs. cbv zeta in Hs.
    unfold display. rewrite Hs, Es, E1. cbn [Z.eqb].
    destruct (p mod 2 ^ 23 =? 0); cbn; eauto.
  - destruct (pattern_accessors v p o Hp Ho) as (Es & _ & _).
    pose proof (is_special_pattern v p o Hp Ho) as Hs. cbv zeta in Hs.
    unfold display. rewrite Hs, Es, E2. cbn [Z.eqb].
    destruct (p mod 2 ^ 23 =? 0); cbn; eauto.
  - rewrite (display_normal_pattern v p o Hp Ho) by lia. eauto.
Qed.

(** Every success of [hex_to_float]. *)
Lemma hex_to_float_ok (s : Py.str) (f : spec_float) :
  hex_to_float s = Ok f ->
  exists n, 0 <= n < 2 ^ 32 /\
            f = Struct.to_double (Struct.single_of_bits n).
Proof.
  unfold hex_to_float. fold (without_prefix s).
  destruct (Py.int (without_prefix s) 16) as [n|e]; [|discriminate].
  cbn [bind]. intro H. exists n.
  destruct (pack_I_unpack_f n) as (_ & Hin & Hout).
  destruct (Z_lt_dec n 0) as [L|L]; [rewrite Hout in H by lia; discriminate|].
  destruct (Z_lt_dec n (2 ^ 32)) as [U|U];
    [|rewrite Hout in H by lia; discriminate].
  rewrite Hin in H by lia. split; [lia|congruence].
Qed.

(** X7. Whatever float [binary_to_float] or [hex_to_float] returns,
    [float_to_ieee754] accepts it and [display] returns for the object:
    after a text is decoded, its analysis raises no exception. *)
Theorem decoded_float_is_analysed (text : Py.str) (v : spec_float) :
  binary_to_float text = Ok v \/ hex_to_float text = Ok v ->
  exists o r, float_to_ieee754 v = Ok o /\ display o = Ok r.
Proof.
  intro H.
  assert (Hn : exists n, 0 <= n < 2 ^ 32 /\
                         v = Struct.to_double (Struct.single_of_bits n)).
  { destruct H as [H|H].
    - destruct (binary_to_float_ok _ _ H) as (_ & n & _ & Hr & Hv). eauto.
    - now apply hex_to_float_ok in H. }
  destruct Hn as (n & Hr & ->).
  destruct (init_of_decoded n Hr) as (Hq & Ei & o & Eo). cbv zeta in *.
  exists o. rewrite Ei in Eo.
  destruct (display_returns _ _ _ Hq Eo) as (r & Er).
  exists r. unfold float_to_ieee754. rewrite Ei. auto.
Qed.

Lemma decoded_float_is_analysed_witness :
  exists o r,
    float_to_ieee754 (S754_finite false 7074237948887040 (-51)) = Ok o /\
    display o = Ok r.
Proof.
  apply (decoded_float_is_analysed "0x40490FDB").
  right. vm_compute. reflexivity.
Defined.

(** ** The class of the encoded float *)

Lemma class_of_pattern (p : Z) :
  0 <= p < 2 ^ 32 ->
  (let exponent := (p / 2 ^ 23) mod 256 in
   let mantissa := p mod 2 ^ 23 in
   if exponent =? 255 then
     if mantissa =? 0 then Ok (Some "Infinity") else Ok (Some "NaN")
   else if exponent =? 0 then
     if mantissa =? 0 then Ok (Some "Zero") else Ok (Some "Denormalized")
   else Ok None) = Ok (single_class (Struct.single_of_bits p)).
Proof.
  intro Hp. cbv zeta. unfold Struct.single_of_bits.
  assert (Hm : 0 <= p mod 2 ^ 23 < 2 ^ 23) by (apply Z.mod_pos_bound; lia).
  set (e := (p / 2 ^ 23) mod 256). set (m := p mod 2 ^ 23) in *.
  destruct (e =? 255); [destruct (m =? 0); reflexivity|].
  destruct (e =? 0).
  - destruct m as [|q|q] eqn:Em; [reflexivity| |lia].
    cbn [Z.eqb single_class].
    destruct (Zpos q <? 2 ^ 23) eqn:E; [reflexivity|].
    apply Z.ltb_ge in E. lia.
  - destruct (m + 2 ^ 23) as [|q|q] eqn:Em; [lia| |lia].
    cbn [single_class].
    destruct (Zpos q <? 2 ^ 23) eqn:E; [|reflexivity].
    apply Z.ltb_lt in E. lia.
Qed.

(** X8. For every float that the constructor accepts, [is_special]
    returns the class of the float rounded to binary32: "Zero" when it
    rounds to a zero (as the smallest doubles do), "Denormalized" when it
    rounds to a subnormal binary32 number, "Infinity" and "NaN" for an
    infinity and a NaN, and [None] when it rounds to a normal number. *)
Theorem is_special_class (v : spec_float) (o : IEEE754SinglePrecision) :
  float_to_ieee754 v = Ok o ->
  is_special o = Ok (single_class (Struct.to_single v)).
Proof.
  unfold float_to_ieee754. intro Ho.
  destruct (init_pattern v o Ho) as [Hp Hi].
  rewrite (is_special_pattern v _ o Hp Hi), (class_of_pattern _ Hp).
  unfold bit_pattern.
  now rewrite single_of_bits_of_single by apply to_single_valid.
Qed.

(** The smallest double, 2^-1074, is classified Zero. *)
Lemma is_special_class_witness :
  is_special {| value := S754_finite false 1 (-1074);
                binary_representation := "00000000000000000000000000000000";
                sign_bit := "0";
                exponent_bits := "00000000";
                mantissa_bits := "00000000000000000000000" |} =
  Ok (single_class (Struct.to_single (S754_finite false 1 (-1074)))).
Proof. apply is_special_class. vm_compute. reflexivity. Defined.

(** ** The sign *)

Section Sign.

Variables prec emax : Z.

(** Rounding keeps the sign and gives no NaN. *)
Lemma binary_round_aux_sign (s : bool) (m : positive) (e : Z) (l : location) :
  e <= fexp prec emax (Zpos (digits2_pos m) + e) ->
  has_sign s (binary_round_aux prec emax s (Zpos m) e l).
Proof.
  intro He. unfold binary_round_aux.
  pose proof (shr_fexp_post prec emax (Zpos m) e l eq_refl He) as H1.
  destruct (shr_fexp prec emax (Zpos m) e l) as [mrs' e'].
  cbn [fst snd Zdigits2] in H1. destruct H1 as (E1 & P1 & D1 & Z1).
  pose proof (round_nearest_even_bounds (shr_m mrs') (loc_of_shr_record mrs'))
    as Hr.
  set (m2 := round_nearest_even (shr_m mrs') (loc_of_shr_record mrs')) in *.
  destruct (Z.eq_dec m2 0) as [Hz|Hnz].
  - rewrite Hz. pose proof (shr_fexp_zero prec emax e' loc_Exact) as H0.
    destruct (shr_fexp prec emax 0 e' loc_Exact) as [mrs'' e''].
    cbn [fst] in H0. now rewrite H0.
  - assert (P2 : 0 <= shr_m (fst (shr_fexp prec emax m2 e' loc_Exact))).
    { unfold shr_fexp, shr.
      destruct (fexp prec emax (Zdigits2 m2 + e') - e') as [|q|q];
        cbn [fst]; rewrite ?iter_pos_iter, ?shr_iter_m;
        cbn [shr_record_of_loc shr_m]; try lia.
      apply Z.div_pos; lia. }
    destruct (shr_fexp prec emax m2 e' loc_Exact) as [mrs'' e''].
    cbn [fst] in P2.
    destruct (shr_m mrs'') as [|m3|m3]; [reflexivity| |lia].
    destruct (e'' <=? emax - prec); reflexivity.
Qed.

Lemma binary_round_sign (s : bool) (m : positive) (e : Z) :
  has_sign s (binary_round prec emax s m e).
Proof.
  unfold binary_round.
  destruct (shl_align_spec m e (fexp prec emax (Zpos (digits2_pos m) + e)))
    as [Es Ef].
  destruct (shl_align m e _) as [mz ez]. cbn [fst snd] in Es, Ef.
  apply binary_round_aux_sign.
  assert (Hd : Zpos (digits2_pos mz) + ez = Zpos (digits2_pos m) + e).
  { apply same_value_digits. unfold same_value. subst ez.
    set (f := fexp prec emax (Zpos (digits2_pos m) + e)) in *.
    rewrite (Z.min_l (Z.min e f) e) by lia.
    rewrite Z.sub_diag. simpl (2 ^ 0). lia. }
  rewrite Hd, Es. apply Z.le_min_r.
Qed.

(** Rounding the opposite number gives the opposite result. *)
Lemma binary_round_opp (s : bool) (m : positive) (e : Z) :
  binary_round prec emax (negb s) m e = SFopp (binary_round prec emax s m e).
Proof.
  unfold binary_round. destruct (shl_align m e _) as [mz ez].
  unfold binary_round_aux.
  destruct (shr_fexp prec emax (Zpos mz) ez loc_Exact) as [mrs' e'].
  destruct (shr_fexp prec emax _ e' loc_Exact) as [mrs'' e''].
  destruct (shr_m mrs''); try reflexivity.
  destruct (e'' <=? emax - prec); reflexivity.
Qed.

End Sign.

Lemma to_single_sign (v : spec_float) :
  v <> S754_nan ->
  has_sign (float_sign v) (Struct.to_single v) /\
  Struct.to_single (SFopp v) = SFopp (Struct.to_single v) /\
  Float.is_infinity (SFopp v) = Float.is_infinity v /\
  Float.is_infinity (Struct.to_single (SFopp v)) =
  Float.is_infinity (Struct.to_single v).
Proof.
  intro Hn. destruct v as [s|s| |s m e]; try congruence;
    try (repeat split; reflexivity).
  cbn [float_sign Struct.to_single SFopp Float.is_infinity].
  rewrite binary_round_opp.
  split; [apply binary_round_sign|]. repeat split.
  now destruct (binary_round Struct.prec Struct.emax s m e).
Qed.

(** The pattern of a signed binary32 number: the sign bit and 31 bits
    that the opposite number shares. *)
Lemma bits_of_single_sign (s : bool) (y : spec_float) :
  valid_binary Struct.prec Struct.emax y = true -> has_sign s y ->
  exists r,
    0 <= r < 2 ^ 31 /\
    Struct.bits_of_single y = Struct.sign_field s * 2 ^ 31 + r /\
    Struct.bits_of_single (SFopp y) = Struct.sign_field (negb s) * 2 ^ 31 + r.
Proof.
  destruct y as [s'|s'| |s' m e]; cbn [valid_binary has_sign SFopp];
    intros Hv Hs; try contradiction; subst s'.
  - exists 0. cbn [Struct.bits_of_single]. repeat split; lia.
  - exists (255 * 2 ^ 23). cbn [Struct.bits_of_single].
    repeat split; try reflexivity; lia.
  - apply bounded_single_cases in Hv. cbn [Struct.bits_of_single].
    change (2 ^ 23) with 8388608 in *. change (2 ^ 24) with 16777216 in *.
    change (2 ^ 31) with 2147483648.
    destruct (Zpos m <? 8388608) eqn:E;
      [apply Z.ltb_lt in E|apply Z.ltb_ge in E].
    + exists (Zpos m). repeat split; lia.
    + exists ((e + 150) * 8388608 + (Zpos m - 8388608)).
      repeat split; lia.
Qed.

(** The constructor, when [struct.pack] accepts the float. *)
Lemma init_when_packed (v : spec_float) :
  Float.is_infinity (Struct.to_single v) && negb (Float.is_infinity v)
  = false ->
  0 <= bit_pattern v < 2 ^ 32 /\
  exists o, __init__ v = Ok o /\
            init_fields v (Py.format_032b (bit_pattern v)) = Ok o.
Proof.
  intro Hc. pose proof (bits_of_single_range _ (to_single_valid v)) as Hp.
  fold (bit_pattern v) in Hp. split; [exact Hp|].
  unfold __init__, _get_binary_representation, Struct.pack_f, Struct.unpack_I.
  rewrite Hc. cbn [bind]. fold (bit_pattern v).
  rewrite uint32_of_bytes_of_uint32 by exact Hp. cbn [bind].
  destruct (format_032b_bits _ Hp) as (-> & El & _).
  rewrite (init_fields_bits _ _ El). eauto.
Qed.

Lemma init_packed (v : spec_float) (o : IEEE754SinglePrecision) :
  __init__ v = Ok o ->
  Float.is_infinity (Struct.to_single v) && negb (Float.is_infinity v)
  = false.
Proof.
  unfold __init__, _get_binary_representation, Struct.pack_f.
  destruct (_ && _); [discriminate|reflexivity].
Qed.

(** X9. For every float that is not a NaN and that the constructor
    accepts, [get_sign] is the sign of the float, also for zeros and
    infinities, and the constructor accepts the opposite float, whose
    object has the other sign and the same exponent and mantissa bits. *)
Theorem negation_flips_sign (v : spec_float) (o : IEEE754SinglePrecision) :
  float_to_ieee754 v = Ok o ->
  v <> S754_nan ->
  exists o',
    float_to_ieee754 (SFopp v) = Ok o' /\
    get_sign o = Ok (Struct.sign_field (float_sign v)) /\
    get_sign o' = Ok (1 - Struct.sign_field (float_sign v)) /\
    exponent_bits o' = exponent_bits o /\
    mantissa_bits o' = mantissa_bits o.
Proof.
  unfold float_to_ieee754. intros Ho Hn.
  destruct (to_single_sign v Hn) as (Hs & Eopp & I1 & I2).
  pose proof (init_packed v o Ho) as Hc.
  destruct (init_pattern v o Ho) as [Hp Hi].
  destruct (init_when_packed (SFopp v)) as (Hp' & o' & Ho' & Hi');
    [now rewrite I1, I2|].
  destruct (bits_of_single_sign _ _ (to_single_valid v) Hs)
    as (r & Hr & E1 & E2).
  rewrite <- Eopp in E2. fold (bit_pattern v) in E1.
  fold (bit_pattern (SFopp v)) in E2.
  destruct (pattern_accessors _ _ _ Hp Hi) as (Es & _ & _).
  destruct (pattern_accessors _ _ _ Hp' Hi') as (Es' & _ & _).
  destruct (pattern_fields _ _ _ Hp Hi)
    as (sb & eb & mb & _ & Le & Lm & _ & _ & Eeb & Emb & _ & Ve & Vm).
  destruct (pattern_fields _ _ _ Hp' Hi')
    as (sb' & eb' & mb' & _ & Le' & Lm' & _ & _ & Eeb' & Emb' & _ & Ve' & Vm').
  exists o'. split; [exact Ho'|].
  set (sf := Struct.sign_field (float_sign v)) in *.
  assert (Hsf : Struct.sign_field (negb (float_sign v)) = 1 - sf)
    by (unfold sf; destruct (float_sign v); reflexivity).
  assert (Hsb : 0 <= sf <= 1)
    by (unfold sf; destruct (float_sign v); cbn; lia).
  rewrite Hsf in E2.
  change (2 ^ 31) with 2147483648 in *. change (2 ^ 23) with 8388608 in *.
  rewrite Es, Es', Eeb, Eeb', Emb, Emb'.
  split; [f_equal; rewrite E1; Z.div_mod_to_equations; lia|].
  split; [f_equal; rewrite E2; Z.div_mod_to_equations; lia|].
  split; f_equal; apply bits_val_inj; try congruence.
  - rewrite Ve, Ve', E1, E2. Z.div_mod_to_equations. lia.
  - rewrite Vm, Vm', E1, E2. Z.div_mod_to_equations. lia.
Qed.

(** 1.0 and -1.0. *)
Lemma negation_flips_sign_witness :
  exists o',
    float_to_ieee754 (SFopp Float.one) = Ok o' /\
    get_sign one_object = Ok (Struct.sign_field (float_sign Float.one)) /\
    get_sign o' = Ok (1 - Struct.sign_field (float_sign Float.one)) /\
    exponent_bits o' = exponent_bits one_object /\
    mantissa_bits o' = mantissa_bits one_object.
Proof.
  apply negation_flips_sign.
  - vm_compute. reflexivity.
  - discriminate.
Defined.

(** ** Hexadecimal texts *)

Lemma hex_char_facts (u : bool) (d : Z) :
  0 <= d < 16 ->
  Py.Py_ISSPACE (hex_char u d) = false /\
  Py.is_ascii (N_of_ascii (hex_char u d)) = true /\
  Py.is_underscore (hex_char u d) = false /\
  Py.digit_value (hex_char u d) = d /\
  Ascii.eqb (hex_char u d) "+" = false /\
  Ascii.eqb (hex_char u d) "-" = false /\
  Py.prefix_letter 16 (hex_char u d) = false /\
  (N_of_ascii "x" =? N_of_ascii (hex_char u d))%N = false /\
  (N_of_ascii "X" =? N_of_ascii (hex_char u d))%N = false.
Proof.
  intro H.
  assert (Hd : d = 0 \/ d = 1 \/ d = 2 \/ d = 3 \/ d = 4 \/ d = 5 \/ d = 6 \/
               d = 7 \/ d = 8 \/ d = 9 \/ d = 10 \/ d = 11 \/ d = 12 \/
               d = 13 \/ d = 14 \/ d = 15) by lia.
  repeat (destruct Hd as [Hd|Hd]; [subst d; destruct u; vm_compute;
                                   repeat split; congruence|]).
  subst d; destruct u; vm_compute; repeat split; congruence.
Qed.

Lemma hex_text_ascii (ds : list (bool * Z)) :
  Forall hex_digit_ok ds ->
  forallb Py.is_ascii (Py.code_points (hex_text ds)) = true.
Proof.
  induction 1 as [|[u d] ds Hd _ IH]; [reflexivity|].
  change (Py.code_points (hex_text ((u, d) :: ds)))
    with (N_of_ascii (hex_char u d) :: Py.code_points (hex_text ds)).
  cbn [forallb].
  destruct (hex_char_facts u d Hd) as (_ & -> & _). exact IH.
Qed.

Lemma scan_digits_hex (ds : list (bool * Z)) :
  Forall hex_digit_ok ds ->
  forall prev_us acc cnt,
    Py.scan_digits 16 prev_us acc cnt (list_ascii_of_string (hex_text ds)) =
    Some (hex_val acc ds, cnt + Z.of_nat (List.length ds),
          match ds with [] => prev_us | _ => false end, []).
Proof.
  induction 1 as [|[u d] ds Hd Hds IH]; intros prev_us acc cnt.
  - cbn. now rewrite Z.add_0_r.
  - cbn [hex_text list_ascii_of_string Py.scan_digits].
    destruct (hex_char_facts u d Hd) as (_ & _ & -> & -> & _).
    unfold hex_digit_ok in Hd. cbn [snd] in Hd.
    assert (Hb : (d <? 16) = true) by (apply Z.ltb_lt; lia).
    rewrite Hb, IH. cbn [hex_val List.length]. rewrite Nat2Z.inj_succ.
    do 3 f_equal; [|now destruct ds]. f_equal. lia.
Qed.

(** [int(text, 16)] on a non-empty text of hexadecimal digits. *)
Lemma int_hex_text (ds : list (bool * Z)) :
  ds <> [] -> Forall hex_digit_ok ds ->
  Py.int (hex_text ds) 16 = Ok (hex_val 0 ds).
Proof.
  intros Hne Hds. rewrite int_ascii by now apply hex_text_ascii.
  unfold Py.PyLong_FromString.
  destruct ds as [|[u d] ds]; [congruence|].
  inversion Hds as [|? ? Hd Hds']; subst.
  cbn [hex_text list_ascii_of_string Py.skip_space].
  destruct (hex_char_facts u d Hd) as (Hsp & _ & Hus & _ & Hp & Hm & _).
  rewrite Hsp. cbn [Py.read_sign]. rewrite Hp, Hm.
  assert (Hpre : Py.skip_prefix 16
                   (hex_char u d :: list_ascii_of_string (hex_text ds)) =
                 hex_char u d :: list_ascii_of_string (hex_text ds)).
  { destruct ds as [|[u' d'] ds]; [reflexivity|].
    inversion Hds' as [|? ? Hd' _]; subst.
    cbn [hex_text list_ascii_of_string Py.skip_prefix].
    destruct (hex_char_facts u' d' Hd') as (_ & _ & _ & _ & _ & _ & Hpl & _).
    now rewrite Hpl, andb_false_r. }
  rewrite Hpre. cbn [Py.starts_with_underscore]. rewrite Hus.
  change (hex_char u d :: list_ascii_of_string (hex_text ds))
    with (list_ascii_of_string (hex_text ((u, d) :: ds))).
  rewrite (scan_digits_hex _ Hds).
  change (negb (Py.is_power_of_two 16)) with false. cbn [andb].
  cbn [hex_text list_ascii_of_string List.length Nat.eqb Py.skip_space].
  f_equal. lia.
Qed.

(** A text of digits does not start with the prefix. *)
Lemma hex_text_no_prefix (ds : list (bool * Z)) :
  Forall hex_digit_ok ds ->
  without_prefix (hex_text ds) = Py.code_points (hex_text ds).
Proof.
  intro Hds. unfold without_prefix.
  assert (H : forall c, c = "x"%char \/ c = "X"%char ->
                        Py.startswith (hex_text ds) (String "0" (String c ""))
                        = false).
  { intros c Hc. destruct ds as [|[u d] [|[u' d'] ds]]; [reflexivity| |].
    - cbn. apply andb_false_r.
    - inversion Hds as [|? ? _ Hds']; subst.
      inversion Hds' as [|? ? Hd' _]; subst.
      destruct (hex_char_facts u' d' Hd')
        as (_ & _ & _ & _ & _ & _ & _ & Nx & NX).
      change (Py.startswith (hex_text ((u, d) :: (u', d') :: ds))
                (String "0" (String c "")))
        with ((N_of_ascii "0" =? N_of_ascii (hex_char u d))%N
              && ((N_of_ascii c =? N_of_ascii (hex_char u' d'))%N && true)).
      destruct Hc as [-> | ->]; rewrite ?Nx, ?NX; apply andb_false_r. }
  rewrite (H "x"%char (or_introl eq_refl)), (H "X"%char (or_intror eq_refl)).
  reflexivity.
Qed.

Lemma without_prefix_hex_text (ds : list (bool * Z)) (pre : string) :
  Forall hex_digit_ok ds ->
  pre = "" \/ pre = "0x" \/ pre = "0X" ->
  without_prefix (pre ++ hex_text ds) = Py.code_points (hex_text ds).
Proof.
  intros Hds [-> | [-> | ->]].
  - apply hex_text_no_prefix, Hds.
  - reflexivity.
  - reflexivity.
Qed.

Lemma hex_val_nonneg (ds : list (bool * Z)) (acc : Z) :
  Forall hex_digit_ok ds -> 0 <= acc -> 0 <= hex_val acc ds.
Proof.
  revert acc. induction ds as [|[u d] l IH]; intros acc Hl Ha; [exact Ha|].
  inversion Hl as [|? ? Hd Hl']; subst. unfold hex_digit_ok in Hd.
  cbn [snd] in Hd. cbn [hex_val]. apply IH; [exact Hl'|lia].
Qed.

(** X10. [hex_to_float] on a non-empty text of hexadecimal digits, in
    either case, of any length and with leading zeros, bare or after the
    prefix [0x] or [0X]: it returns the float of the pattern that the
    digits denote when this is below 2^32, and raises [struct.error]
    otherwise. *)
Theorem hex_to_float_digits (ds : list (bool * Z)) (pre : string) :
  ds <> [] -> Forall hex_digit_ok ds ->
  pre = "" \/ pre = "0x" \/ pre = "0X" ->
  hex_to_float (pre ++ hex_text ds) =
  if hex_val 0 ds <? 2 ^ 32
  then Ok (Struct.to_double (Struct.single_of_bits (hex_val 0 ds)))
  else Raise StructError.
Proof.
  intros Hne Hds Hpre.
  unfold hex_to_float. fold (without_prefix (pre ++ hex_text ds)).
  rewrite (without_prefix_hex_text ds pre Hds Hpre), (int_hex_text ds Hne Hds).
  cbn [bind].
  pose proof (hex_val_nonneg ds 0 Hds (Z.le_refl 0)) as H0.
  destruct (pack_I_unpack_f (hex_val 0 ds)) as (_ & Hin & Hout).
  destruct (hex_val 0 ds <? 2 ^ 32) eqn:E;
    [apply Z.ltb_lt in E; apply Hin|apply Z.ltb_ge in E; apply Hout]; lia.
Qed.

(** The text 0X0040490fDb. *)
Lemma hex_to_float_digits_witness :
  hex_to_float ("0X" ++ "0040490fDb") =
  if 0x40490FDB <? 2 ^ 32
  then Ok (Struct.to_double (Struct.single_of_bits 0x40490FDB))
  else Raise StructError.
Proof.
  apply (hex_to_float_digits
           [(false, 0); (false, 0); (false, 4); (false, 0); (false, 4);
            (false, 9); (false, 0); (false, 15); (true, 13); (false, 11)]
           "0X").
  - discriminate.
  - repeat constructor; cbn; lia.
  - auto.
Defined.

Lemma hex_text_snoc (ds : list (bool * Z)) (u : bool) (d : Z) (acc : string) :
  hex_text (ds ++ [(u, d)])%list ++ acc =
  hex_text ds ++ String (hex_char u d) acc.
Proof.
  induction ds as [|[u' d'] ds IH]; [reflexivity|].
  cbn [List.app hex_text append]. now rewrite IH.
Qed.

Lemma hex_val_snoc (ds : list (bool * Z)) (u : bool) (d acc : Z) :
  hex_val acc (ds ++ [(u, d)])%list = hex_val acc ds * 16 + d.
Proof.
  revert acc. induction ds as [|[u' d'] ds IH]; intro acc; [reflexivity|].
  cbn [List.app hex_val]. apply IH.
Qed.

(** The digits that [hex] writes. *)
Lemma hex_digits_text (fuel : nat) :
  forall n acc,
    0 <= n < 16 ^ Z.of_nat fuel -> (0 < fuel)%nat ->
    exists ds, ds <> [] /\ Forall hex_digit_ok ds /\ hex_val 0 ds = n /\
               Py.hex_digits fuel n acc = hex_text ds ++ acc.
Proof.
  induction fuel as [|f IH]; intros n acc Hn Hf; [lia|].
  cbn [Py.hex_digits].
  assert (Hd : 0 <= n mod 16 < 16) by (apply Z.mod_pos_bound; lia).
  destruct (n / 16 =? 0) eqn:E.
  - apply Z.eqb_eq in E. exists [(false, n mod 16)].
    split; [discriminate|]. split; [now repeat constructor|].
    split; [|reflexivity]. cbn [hex_val].
    revert E. Z.div_mod_to_equations. lia.
  - apply Z.eqb_neq in E.
    assert (Hq : 0 <= n / 16 < 16 ^ Z.of_nat f).
    { rewrite Nat2Z.inj_succ, Z.pow_succ_r in Hn by lia.
      revert E. Z.div_mod_to_equations. lia. }
    assert (Hf' : (0 < f)%nat).
    { destruct f; [|lia]. cbn in Hq. lia. }
    destruct (IH (n / 16) (String (Py.hex_digit (n mod 16)) acc) Hq Hf')
      as (ds & Hne & Hds & Hv & ->).
    exists (ds ++ [(false, n mod 16)])%list.
    split; [now destruct ds|]. split.
    { apply Forall_app. split; [exact Hds|now repeat constructor]. }
    split.
    + rewrite hex_val_snoc, Hv. Z.div_mod_to_equations. lia.
    + now rewrite hex_text_snoc.
Qed.

Lemma hex_text_of (n : Z) :
  0 <= n ->
  exists ds, ds <> [] /\ Forall hex_digit_ok ds /\ hex_val 0 ds = n /\
             Py.hex n = "0x" ++ hex_text ds.
Proof.
  intro Hn. unfold Py.hex. rewrite Z.abs_eq by exact Hn.
  assert (E : (n <? 0) = false) by (apply Z.ltb_ge; lia). rewrite E.
  destruct (hex_digits_text (S (Z.to_nat (Z.log2 n))) n "") as
    (ds & Hne & Hds & Hv & Hd).
  - pose proof (Z.log2_nonneg n) as Hl.
    rewrite Nat2Z.inj_succ, Z2Nat.id by exact Hl.
    split; [exact Hn|].
    destruct (Z.eq_dec n 0) as [->|Hz]; [reflexivity|].
    assert (H2 : n < 2 ^ Z.succ (Z.log2 n)) by (apply Z.log2_spec; lia).
    assert (H16 : 2 ^ Z.succ (Z.log2 n) <= 16 ^ Z.succ (Z.log2 n))
      by (apply Z.pow_le_mono_l; lia).
    lia.
  - lia.
  - exists ds. rewrite Hd.
    assert (Ha : forall s, s ++ "" = s) by (induction s; cbn; congruence).
    now rewrite Ha.
Qed.

(** [hex_to_float] reads what [hex] writes. *)
Lemma hex_to_float_hex (n : Z) :
  0 <= n < 2 ^ 32 ->
  hex_to_float (Py.hex n) = Ok (Struct.to_double (Struct.single_of_bits n)).
Proof.
  intros Hn. destruct (hex_text_of n) as (ds & Hne & Hds & Hv & ->); [lia|].
  unfold hex_to_float. fold (without_prefix ("0x" ++ hex_text ds)).
  rewrite (without_prefix_hex_text ds "0x" Hds) by auto.
  rewrite (int_hex_text ds Hne Hds), Hv. cbn [bind].
  now apply pack_I_unpack_f.
Qed.

(** X11. The hexadecimal form that [display] prints,
    [hex(int(self.binary_representation, 2))], is read back by
    [hex_to_float] as the float that [binary_to_float] reads from the
    binary representation. *)
Theorem hex_of_representation_decodes (v : spec_float)
        (o : IEEE754SinglePrecision) :
  float_to_ieee754 v = Ok o ->
  exists n x,
    Py.int (binary_representation o) 2 = Ok n /\
    hex_to_float (Py.hex n) = Ok x /\
    binary_to_float (binary_representation o) = Ok x.
Proof.
  unfold float_to_ieee754. intro Ho.
  destruct (init_pattern v o Ho) as [Hp Hf].
  destruct (init_fields_binary _ _ _ Hf) as [-> _].
  destruct (format_032b_bits _ Hp) as (-> & Ll & Lv).
  destruct (binary_to_float_bits _ Ll) as (_ & Hi & Hb).
  rewrite Lv in Hi, Hb.
  exists (bit_pattern v), (Struct.to_double (Struct.single_of_bits (bit_pattern v))).
  split; [exact Hi|]. split; [|exact Hb].
  now apply hex_to_float_hex.
Qed.

(** The object of 1.0, whose hexadecimal form is 0x3f800000. *)
Lemma hex_of_representation_decodes_witness :
  exists n x,
    Py.int (binary_representation one_object) 2 = Ok n /\
    hex_to_float (Py.hex n) = Ok x /\
    binary_to_float (binary_representation one_object) = Ok x.
Proof.
  apply (hex_of_representation_decodes Float.one one_object).
  vm_compute. reflexivity.
Defined.

(** [int(text, 2)] on a sign followed by binary digits. *)
Lemma int_signed_bits (neg : bool) (l : list bool) :
  l <> [] ->
  Py.int (String (if neg then "-" else "+")%char (bits_str l)) 2 =
  Ok ((if neg then -1 else 1) * bits_val 0 l).
Proof.
  intro Hl. rewrite int_ascii.
  2:{ change (Py.code_points
                (String (if neg then "-" else "+")%char (bits_str l)))
        with (N_of_ascii (if neg then "-" else "+")%char
              :: Py.code_points (bits_str l)).
      cbn [forallb]. rewrite bits_str_ascii. now destruct neg. }
  unfold Py.PyLong_FromString. cbn [list_ascii_of_string Py.skip_space].
  assert (Hs : Py.Py_ISSPACE (if neg then "-" else "+")%char = false)
    by now destruct neg.
  rewrite Hs.
  assert (Hr : Py.read_sign
                 ((if neg then "-" else "+")%char
                  :: list_ascii_of_string (bits_str l)) =
               (if neg then -1 else 1, list_ascii_of_string (bits_str l)))
    by now destruct neg.
  rewrite Hr.
  destruct l as [|b l]; [congruence|].
  cbn [bits_str list_ascii_of_string].
  destruct (bit_char_facts b) as (_ & _ & Hus & _).
  assert (Hpre : Py.skip_prefix 2
                   (bit_char b :: list_ascii_of_string (bits_str l)) =
                 bit_char b :: list_ascii_of_string (bits_str l)).
  { destruct l as [|b' l]; [reflexivity|].
    cbn [bits_str list_ascii_of_string Py.skip_prefix].
    destruct (bit_char_facts b') as (_ & _ & _ & _ & _ & _ & _ & Hpl).
    now rewrite Hpl, andb_false_r. }
  rewrite Hpre. cbn [Py.starts_with_underscore]. rewrite Hus.
  change (bit_char b :: list_ascii_of_string (bits_str l))
    with (list_ascii_of_string (bits_str (b :: l))).
  rewrite scan_digits_bits.
  change (negb (Py.is_power_of_two 2)) with false. cbn [andb].
  cbn [bits_str list_ascii_of_string List.length Nat.eqb Py.skip_space].
  reflexivity.
Qed.

(** X12. A sign in front of 31 binary digits makes a text of 32
    characters that [binary_to_float] does not reject for its length:
    with a plus sign it returns the float of the pattern of the 31
    digits; with a minus sign it returns 0.0 when every digit is 0 and
    raises [struct.error], not [ValueError], otherwise. *)
Theorem binary_to_float_signed (l : list bool) :
  List.length l = 31%nat ->
  binary_to_float (String "+" (bits_str l)) =
  Ok (Struct.to_double (Struct.single_of_bits (bits_val 0 l))) /\
  binary_to_float (String "-" (bits_str l)) =
  if bits_val 0 l =? 0 then Ok (S754_zero false) else Raise StructError.
Proof.
  intro Hl. pose proof (bits_val_bounds l) as Hb. rewrite Hl in Hb.
  change (Z.of_nat 31) with 31 in Hb.
  assert (Hne : l <> []) by eauto using bits_ne.
  unfold binary_to_float. rewrite !code_points_length. cbn [String.length].
  rewrite bits_str_length, Hl. cbn [Nat.eqb negb].
  rewrite (int_signed_bits false l Hne), (int_signed_bits true l Hne).
  cbn [bind]. change (2 ^ 31) with 2147483648 in Hb. split.
  - rewrite Z.mul_1_l. apply pack_I_unpack_f.
    change (2 ^ 32) with 4294967296. lia.
  - destruct (bits_val 0 l =? 0) eqn:E.
    + apply Z.eqb_eq in E. rewrite E. reflexivity.
    + apply Z.eqb_neq in E. apply pack_I_unpack_f.
      change (2 ^ 32) with 4294967296. lia.
Qed.

(** A minus sign before a one and thirty zeros. *)
Lemma binary_to_float_signed_witness :
  binary_to_float "+1000000000000000000000000000000" =
  Ok (Struct.to_double (Struct.single_of_bits 0x40000000)) /\
  binary_to_float "-1000000000000000000000000000000" = Raise StructError.
Proof.
  apply (binary_to_float_signed
           (true :: repeat false 30)).
  reflexivity.
Defined.

(** ** Overflow *)

(** One shift to the right: the bit that leaves is the round bit, and the
    old round bit joins the sticky bit. *)
Lemma shr_1_spec (m : Z) (r s : bool) :
  0 <= m ->
  shr_1 (Build_shr_record m r s) =
  Build_shr_record (m / 2) (Z.odd m) (r || s).
Proof.
  intro Hm. destruct m as [|[q|q|]|q]; try lia; cbn [shr_1 Z.odd].
  - reflexivity.
  - replace (Zpos q~1 / 2) with (Zpos q); [reflexivity|].
    rewrite Pos2Z.inj_xI. apply (Z.div_unique _ _ _ 1); lia.
  - replace (Zpos q~0 / 2) with (Zpos q); [reflexivity|].
    rewrite Pos2Z.inj_xO. apply (Z.div_unique _ _ _ 0); lia.
  - reflexivity.
Qed.

(** [p] shifts of an exact number: the quotient, the last bit shifted
    out, and whether a lower bit was set. *)
Lemma shr_iter_loc (m : Z) (p : positive) :
  0 <= m ->
  Pos.iter shr_1 (Build_shr_record m false false) p =
  Build_shr_record (m / 2 ^ Zpos p)
                   (Z.odd (m / 2 ^ (Zpos p - 1)))
                   (negb (m mod 2 ^ (Zpos p - 1) =? 0)).
Proof.
  intro Hm. induction p as [|p IH] using Pos.peano_ind.
  - cbn [Pos.iter]. rewrite shr_1_spec by exact Hm.
    change (2 ^ (1 - 1)) with 1. rewrite Z.div_1_r, Z.mod_1_r. reflexivity.
  - rewrite Pos.iter_succ, IH.
    assert (Hq : 0 <= m / 2 ^ Zpos p) by (apply Z.div_pos; lia).
    rewrite shr_1_spec by exact Hq.
    rewrite Pos2Z.inj_succ.
    replace (Z.succ (Zpos p) - 1) with (Zpos p) by lia.
    rewrite Z.pow_succ_r by lia.
    f_equal.
    + rewrite Z.div_div by lia. f_equal. ring.
    + replace (Zpos p) with (Z.succ (Zpos p - 1)) at 3 by lia.
      rewrite Z.pow_succ_r by lia.
      rewrite (Z.mul_comm 2), Z.rem_mul_r by lia.
      pose proof (Zmod_odd (m / 2 ^ (Zpos p - 1))) as Ho.
      assert (Hr : 0 <= m mod 2 ^ (Zpos p - 1) < 2 ^ (Zpos p - 1))
        by (apply Z.mod_pos_bound; lia).
      destruct (Z.odd (m / 2 ^ (Zpos p - 1))); rewrite Ho; cbn [orb].
      * symmetry. apply negb_true_iff, Z.eqb_neq. lia.
      * now rewrite Z.mul_0_r, Z.add_0_r.
Qed.

Lemma Zdigits2_mono (a b : Z) : 0 < a <= b -> Zdigits2 a <= Zdigits2 b.
Proof.
  intro H. rewrite !Zdigits2_log2 by lia.
  apply Z.add_le_mono_r, Z.log2_le_mono. lia.
Qed.

Lemma Zdigits2_succ (a : Z) : 0 < a -> Zdigits2 (a + 1) <= Zdigits2 a + 1.
Proof.
  intro H. rewrite !Zdigits2_log2 by lia.
  assert (Z.log2 (a + 1) < Z.log2 a + 2); [|lia].
  apply Z.log2_lt_pow2; [lia|].
  pose proof (Z.log2_spec a H) as Hs. pose proof (Z.log2_nonneg a) as Hn.
  replace (Z.log2 a + 2) with (Z.succ (Z.succ (Z.log2 a))) by lia.
  rewrite (Z.pow_succ_r 2 (Z.succ (Z.log2 a))) by lia. lia.
Qed.

Section Overflow.

Variables prec emax : Z.
Hypothesis prec_pos : 0 < prec.

(** When the rounded significand is not zero, the result of
    [binary_round_aux] is infinite exactly when the exponent after the
    second shift is above the largest one. *)
Lemma binary_round_aux_infinity (s : bool) (m : positive) (e : Z)
      (l : location) :
  e <= fexp prec emax (Zpos (digits2_pos m) + e) ->
  let mrs := fst (shr_fexp prec emax (Zpos m) e l) in
  let f := fexp prec emax (Zpos (digits2_pos m) + e) in
  let m2 := round_nearest_even (shr_m mrs) (loc_of_shr_record mrs) in
  Float.is_infinity (binary_round_aux prec emax s (Zpos m) e l) =
  (0 <? m2) && negb (fexp prec emax (Zdigits2 m2 + f) <=? emax - prec).
Proof.
  intros He mrs f m2. unfold binary_round_aux.
  pose proof (shr_fexp_post prec emax (Zpos m) e l eq_refl He) as H1.
  subst mrs f m2.
  destruct (shr_fexp prec emax (Zpos m) e l) as [mrs' e'].
  cbn [fst snd Zdigits2] in *. destruct H1 as (E1 & P1 & D1 & Z1).
  pose proof (round_nearest_even_bounds (shr_m mrs') (loc_of_shr_record mrs'))
    as Hr.
  rewrite <- E1.
  set (m2 := round_nearest_even (shr_m mrs') (loc_of_shr_record mrs')) in *.
  destruct (Z.eq_dec m2 0) as [Hz|Hnz].
  - rewrite Hz. pose proof (shr_fexp_zero prec emax e' loc_Exact) as H0.
    destruct (shr_fexp prec emax 0 e' loc_Exact) as [mrs'' e''].
    cbn [fst] in H0. now rewrite H0.
  - assert (Hm2 : 0 < m2) by lia.
    assert (Hd2 : 1 <= Zdigits2 m2).
    { rewrite Zdigits2_log2 by lia. pose proof (Z.log2_nonneg m2). lia. }
    assert (He2 : e' <= fexp prec emax (Zdigits2 m2 + e')).
    { destruct (Z.eq_dec (shr_m mrs') 0) as [Hs|Hs].
      - specialize (Z1 Hs). subst e'. unfold fexp in *. lia.
      - pose proof (Zdigits2_mono (shr_m mrs') m2 ltac:(lia)) as Hle.
        specialize (D1 ltac:(lia)). subst e'. unfold fexp in *. lia. }
    pose proof (shr_fexp_post prec emax m2 e' loc_Exact Hm2 He2) as H2.
    destruct (shr_fexp prec emax m2 e' loc_Exact) as [mrs'' e''].
    cbn [fst snd] in H2. destruct H2 as (E2 & P2 & D2 & Z2).
    assert (E0 : (0 <? m2) = true) by (apply Z.ltb_lt; lia).
    rewrite E0, <- E2. cbn [andb].
    destruct (shr_m mrs'') as [|m3|m3] eqn:E3; [|
      now destruct (e'' <=? emax - prec) |lia].
    specialize (Z2 eq_refl). rewrite E2, E1 in Z2.
    unfold fexp in Z2. lia.
Qed.

(** The number of digits of the rounded significand. *)
Lemma rounded_digits (m : positive) (e : Z) (l : location) :
  e <= fexp prec emax (Zpos (digits2_pos m) + e) ->
  let mrs := fst (shr_fexp prec emax (Zpos m) e l) in
  let f := fexp prec emax (Zpos (digits2_pos m) + e) in
  let m2 := round_nearest_even (shr_m mrs) (loc_of_shr_record mrs) in
  0 < m2 ->
  (0 < shr_m mrs ->
   Zpos (digits2_pos m) + e <= Zdigits2 m2 + f <= Zpos (digits2_pos m) + e + 1)
  /\ (shr_m mrs = 0 -> Zdigits2 m2 + f = 1 + f /\
                       Zpos (digits2_pos m) + e <= f).
Proof.
  intros He mrs f m2 Hm2.
  pose proof (shr_fexp_post prec emax (Zpos m) e l eq_refl He) as H1.
  cbn zeta in H1. fold mrs in H1. cbn [Zdigits2] in H1. fold f in H1.
  destruct H1 as (E1 & P1 & D1 & Z1).
  pose proof (round_nearest_even_bounds (shr_m mrs) (loc_of_shr_record mrs))
    as Hr. fold m2 in Hr.
  split.
  - intro Hq. specialize (D1 Hq). rewrite E1 in D1.
    pose proof (Zdigits2_mono (shr_m mrs) m2 ltac:(lia)) as Ha.
    pose proof (Zdigits2_succ (shr_m mrs) Hq) as Hb.
    pose proof (Zdigits2_mono m2 (shr_m mrs + 1) ltac:(lia)) as Hc.
    lia.
  - intro Hq. specialize (Z1 Hq). rewrite E1 in Z1.
    assert (m2 = 1) as -> by lia. split; [reflexivity|exact Z1].
Qed.

End Overflow.

Lemma scaled_pow_bounds (m : positive) (e : Z) :
  -1074 <= e ->
  2 ^ (Zpos (digits2_pos m) + e + 1073) <= scaled (Zpos m) e
  < 2 ^ (Zpos (digits2_pos m) + e + 1074).
Proof.
  intro He. pose proof (digits2_bounds m) as [H1 H2]. unfold scaled.
  assert (Hd : 1 <= Zpos (digits2_pos m)) by lia.
  replace (Zpos (digits2_pos m) + e + 1073)
    with ((Zpos (digits2_pos m) - 1) + (e + 1074)) by lia.
  replace (Zpos (digits2_pos m) + e + 1074)
    with (Zpos (digits2_pos m) + (e + 1074)) by lia.
  rewrite (Z.pow_add_r 2 (Zpos (digits2_pos m) - 1)) by lia.
  rewrite (Z.pow_add_r 2 (Zpos (digits2_pos m))) by lia.
  assert (0 < 2 ^ (e + 1074)) by (apply Z.pow_pos_nonneg; lia).
  split; [apply Z.mul_le_mono_nonneg_r; lia|apply Z.mul_lt_mono_pos_r; lia].
Qed.

Lemma threshold_bounds :
  2 ^ 1201 <= scaled (2 ^ 25 - 1) 103 < 2 ^ 1202.
Proof.
  unfold scaled. split; [apply Z.leb_le|apply Z.ltb_lt]; vm_compute;
    reflexivity.
Qed.

(** At exponent 75 the threshold is the significand
    [(2^25 - 1) * 2^28]. *)
Lemma threshold_at_75 (m : Z) :
  (scaled (2 ^ 25 - 1) 103 <=? scaled m 75) = (2 ^ 25 - 1 <=? m / 2 ^ 28).
Proof.
  unfold scaled. change (103 + 1074) with (28 + 1149).
  change (75 + 1074) with 1149. rewrite (Z.pow_add_r 2 28 1149) by lia.
  assert (HK : 0 < 2 ^ 1149) by (apply Z.pow_pos_nonneg; lia).
  rewrite Z.mul_assoc.
  change (2 ^ 25 - 1) with 33554431. change (2 ^ 28) with 268435456.
  destruct (Z.leb_spec (33554431 * 268435456 * 2 ^ 1149) (m * 2 ^ 1149))
    as [L|L];
    [apply Z.mul_le_mono_pos_r in L; [|exact HK]
    |apply Z.mul_lt_mono_pos_r in L; [|exact HK]];
    symmetry; [apply Z.leb_le|apply Z.leb_gt];
    Z.div_mod_to_equations; lia.
Qed.

(** The last step of rounding in binary32 at exponent 104. *)
Lemma round_at_104 (M : Z) :
  2 ^ 23 <= M <= 2 ^ 24 ->
  (0 <? M) &&
  negb (fexp Struct.prec Struct.emax (Zdigits2 M + 104)
        <=? Struct.emax - Struct.prec) = (2 ^ 24 <=? M).
Proof.
  change (2 ^ 23) with 8388608. change (2 ^ 24) with 16777216. intro HM.
  assert (E0 : (0 <? M) = true) by (apply Z.ltb_lt; lia). rewrite E0.
  destruct (Z.leb_spec 16777216 M) as [L|L].
  - assert (M = 16777216) as -> by lia. reflexivity.
  - assert (Hd : Zdigits2 M = 24).
    { rewrite Zdigits2_log2 by lia.
      rewrite (Z.log2_unique M 23); [reflexivity|lia|].
      change (2 ^ 23) with 8388608. change (2 ^ Z.succ 23) with 16777216.
      lia. }
    rewrite Hd. reflexivity.
Qed.

(** The conversion of a binary64 number to binary32 overflows exactly
    from [2^128 - 2^103] on. *)
Lemma to_single_overflow (s : bool) (m : positive) (e : Z) :
  bounded Float.prec Float.emax m e = true ->
  Float.is_infinity (binary_round Struct.prec Struct.emax s m e) =
  (scaled (2 ^ 25 - 1) 103 <=? scaled (Zpos m) e).
Proof.
  intro Hb. unfold bounded, canonical_mantissa in Hb.
  apply andb_prop in Hb. destruct Hb as [Hc Hle].
  apply Z.eqb_eq in Hc. apply Z.leb_le in Hle.
  unfold fexp, emin, Float.prec, Float.emax in Hc, Hle.
  pose proof (digits2_bounds m) as Hdb.
  pose proof threshold_bounds as Ht.
  assert (He : -1074 <= e) by lia.
  pose proof (scaled_pow_bounds m e He) as Hsc.
  unfold binary_round.
  destruct (shl_align_spec m e (fexp Struct.prec Struct.emax
                                  (Zpos (digits2_pos m) + e))) as [Es Ef].
  destruct (shl_align m e _) as [mz ez]. cbn [fst snd] in Es, Ef.
  assert (Hd : Zpos (digits2_pos mz) + ez = Zpos (digits2_pos m) + e).
  { apply same_value_digits. unfold same_value. subst ez.
    set (f := fexp Struct.prec Struct.emax (Zpos (digits2_pos m) + e)) in *.
    rewrite (Z.min_l (Z.min e f) e) by lia.
    rewrite Z.sub_diag. simpl (2 ^ 0). lia. }
  assert (Hez : ez <= fexp Struct.prec Struct.emax
                        (Zpos (digits2_pos mz) + ez)).
  { rewrite Hd, Es. apply Z.le_min_r. }
  rewrite (binary_round_aux_infinity Struct.prec Struct.emax eq_refl
             s mz ez loc_Exact Hez).
  pose proof (shr_fexp_post Struct.prec Struct.emax (Zpos mz) ez loc_Exact
                eq_refl Hez) as H1.
  pose proof (rounded_digits Struct.prec Struct.emax mz ez loc_Exact Hez)
    as H2.
  cbn zeta in H1, H2 |- *. cbn [Zdigits2] in H1.
  destruct (Z_le_dec (Zpos (digits2_pos m) + e) 127) as [C1|C1];
    [|destruct (Z_le_dec 129 (Zpos (digits2_pos m) + e)) as [C2|C2]].
  - (* below 2^127 *)
    assert (Hp : 2 ^ (Zpos (digits2_pos m) + e + 1074) <= 2 ^ 1201)
      by (apply Z.pow_le_mono_r; lia).
    destruct (Z.leb_spec (scaled (2 ^ 25 - 1) 103) (scaled (Zpos m) e))
      as [L|L]; [lia|].
    destruct (0 <? _) eqn:E0; [|reflexivity]. apply Z.ltb_lt in E0.
    cbn [andb]. apply negb_false_iff, Z.leb_le.
    specialize (H2 E0). destruct H2 as [Ha Hz].
    destruct H1 as (_ & P1 & _ & _). rewrite Hd in *.
    destruct (Z.eq_dec (shr_m (fst (shr_fexp Struct.prec Struct.emax
                                      (Zpos mz) ez loc_Exact))) 0) as [Q|Q].
    + destruct (Hz Q) as [-> Hf].
      unfold fexp, emin, Struct.prec, Struct.emax in *. lia.
    + specialize (Ha ltac:(lia)).
      unfold fexp, emin, Struct.prec, Struct.emax in *. lia.
  - (* from 2^128 on *)
    assert (Hp : 2 ^ 1202 <= 2 ^ (Zpos (digits2_pos m) + e + 1073))
      by (apply Z.pow_le_mono_r; lia).
    destruct (Z.leb_spec (scaled (2 ^ 25 - 1) 103) (scaled (Zpos m) e))
      as [L|L]; [|lia].
    destruct H1 as (E1 & P1 & _ & Z1). rewrite Hd in *.
    pose proof (round_nearest_even_bounds
                  (shr_m (fst (shr_fexp Struct.prec Struct.emax
                                 (Zpos mz) ez loc_Exact)))
                  (loc_of_shr_record
                     (fst (shr_fexp Struct.prec Struct.emax
                             (Zpos mz) ez loc_Exact)))) as Hr.
    assert (Q : 0 < shr_m (fst (shr_fexp Struct.prec Struct.emax
                                  (Zpos mz) ez loc_Exact))).
    { destruct (Z.eq_dec (shr_m (fst (shr_fexp Struct.prec Struct.emax
                                        (Zpos mz) ez loc_Exact))) 0) as [Q|Q];
        [|lia].
      specialize (Z1 Q). rewrite E1 in Z1.
      unfold fexp, emin, Struct.prec, Struct.emax in *. lia. }
    assert (E0 : 0 < round_nearest_even
                       (shr_m (fst (shr_fexp Struct.prec Struct.emax
                                      (Zpos mz) ez loc_Exact)))
                       (loc_of_shr_record
                          (fst (shr_fexp Struct.prec Struct.emax
                                  (Zpos mz) ez loc_Exact)))) by lia.
    destruct (H2 E0) as [Ha _]. specialize (Ha Q).
    apply Z.ltb_lt in E0. rewrite E0. cbn [andb].
    apply negb_true_iff, Z.leb_gt.
    unfold fexp, emin, Struct.prec, Struct.emax in *. lia.
  - (* between 2^127 and 2^128 *)
    clear H1 H2.
    assert (H53 : Zpos (digits2_pos m) = 53) by lia.
    assert (e = 75) by lia. subst e. rewrite H53 in *.
    change (fexp Struct.prec Struct.emax (53 + 75)) with 104 in *.
    change (Z.min 75 104) with 75 in *. subst ez.
    change (2 ^ (75 - 75)) with 1 in Ef. rewrite Z.mul_1_r in Ef.
    apply Pos2Z.inj in Ef. subst mz.
    assert (Hshr : shr_fexp Struct.prec Struct.emax (Zpos m) 75 loc_Exact =
                   (Build_shr_record (Zpos m / 2 ^ 29)
                      (Z.odd (Zpos m / 2 ^ 28))
                      (negb (Zpos m mod 2 ^ 28 =? 0)), 104)).
    { unfold shr_fexp. cbn [Zdigits2]. rewrite H53.
      change (fexp Struct.prec Struct.emax (53 + 75) - 75) with 29.
      cbn [shr_record_of_loc shr]. rewrite iter_pos_iter, shr_iter_loc by lia.
      reflexivity. }
    rewrite Hshr, threshold_at_75. cbn [fst shr_m].
    change (2 ^ (53 - 1)) with 4503599627370496 in Hdb.
    change (2 ^ 53) with 9007199254740992 in Hdb.
    assert (Hq : Zpos m / 2 ^ 29 = Zpos m / 2 ^ 28 / 2)
      by (rewrite Z.div_div by lia; reflexivity).
    rewrite Hq.
    assert (Ha : 2 ^ 24 <= Zpos m / 2 ^ 28 < 2 ^ 25).
    { change (2 ^ 24) with 16777216. change (2 ^ 25) with 33554432.
      change (2 ^ 28) with 268435456. Z.div_mod_to_equations. lia. }
    generalize (negb (Zpos m mod 2 ^ 28 =? 0)). intro st.
    clear Hq. revert Ha. generalize (Zpos m / 2 ^ 28). intros a Ha.
    pose proof (Zmod_odd a) as Ho. pose proof (Zmod_even (a / 2)) as Hv.
    change (2 ^ 24) with 16777216 in Ha. change (2 ^ 25) with 33554432 in Ha.
    change (2 ^ 25 - 1) with 33554431.
    assert (Hr : 2 ^ 23 <= round_nearest_even (a / 2)
                             (loc_of_shr_record
                                (Build_shr_record (a / 2) (Z.odd a) st))
                 <= 2 ^ 24 /\
                 ((2 ^ 24 <=? round_nearest_even (a / 2)
                               (loc_of_shr_record
                                  (Build_shr_record (a / 2) (Z.odd a) st)))
                  = (33554431 <=? a))).
    { change (2 ^ 23) with 8388608. change (2 ^ 24) with 16777216.
      destruct (Z.odd a); destruct st;
        cbn [loc_of_shr_record round_nearest_even];
        try destruct (Z.even (a / 2));
        (split; [Z.div_mod_to_equations; lia|]);
        match goal with
        | |- (_ <=? ?X) = _ =>
            destruct (Z.leb_spec 16777216 X), (Z.leb_spec 33554431 a);
            try reflexivity; exfalso; Z.div_mod_to_equations; lia
        end. }
    destruct Hr as [Hr1 Hr2]. rewrite <- Hr2, H53.
    change (fexp Struct.prec Struct.emax (53 + 75)) with 104.
    apply round_at_104. exact Hr1.
Qed.

(** X13. The constructor raises [OverflowError] exactly for the finite
    floats of magnitude [2^128 - 2^103] or more, which round to a binary32
    infinity; it builds an object for every other float: the smaller
    finite ones, the zeros, the infinities and NaN. *)
Theorem overflow_threshold (v : spec_float) :
  valid_binary Float.prec Float.emax v = true ->
  (too_large v -> float_to_ieee754 v = Raise OverflowError) /\
  (~ too_large v -> exists o, float_to_ieee754 v = Ok o).
Proof.
  intro Hv. unfold float_to_ieee754. split.
  - destruct v as [s|s| |s m e]; cbn [too_large]; try contradiction.
    intro Ht. cbn [valid_binary] in Hv.
    unfold __init__, _get_binary_representation, Struct.pack_f.
    cbn [Struct.to_single Float.is_infinity].
    rewrite (to_single_overflow s m e Hv).
    apply Z.leb_le in Ht. rewrite Ht. reflexivity.
  - intro Ht.
    assert (Hc : Float.is_infinity (Struct.to_single v)
                 && negb (Float.is_infinity v) = false).
    { destruct v as [s|s| |s m e]; try reflexivity.
      cbn [valid_binary too_large] in Hv, Ht.
      cbn [Struct.to_single Float.is_infinity].
      rewrite (to_single_overflow s m e Hv).
      apply Z.nle_gt, Z.leb_gt in Ht. now rewrite Ht. }
    destruct (init_when_packed v Hc) as (_ & o & Ho & _). now exists o.
Qed.

(** The float [2^128 - 2^103] itself. *)
Lemma overflow_threshold_witness :
  float_to_ieee754 (S754_finite false 9007198986305536 75) =
  Raise OverflowError.
Proof.
  refine (proj1 (overflow_threshold
                   (S754_finite false 9007198986305536 75) eq_refl) _).
  cbn [too_large]. apply Z.leb_le. vm_compute. reflexivity.
Defined.

(** ** The exponent of a float that binary32 represents *)

(** The fields of a pattern given by its three parts. *)
Lemma pattern_parts (sf E M : Z) :
  0 <= sf <= 1 -> 0 <= E < 256 -> 0 <= M < 2 ^ 23 ->
  let p := sf * 2 ^ 31 + E * 2 ^ 23 + M in
  0 <= p < 2 ^ 32 /\ (p / 2 ^ 23) mod 256 = E /\ p mod 2 ^ 23 = M.
Proof.
  change (2 ^ 23) with 8388608. change (2 ^ 31) with 2147483648.
  change (2 ^ 32) with 4294967296. intros Hs HE HM p. subst p.
  repeat split; try lia; Z.div_mod_to_equations; lia.
Qed.

(** X14. For every nonzero finite float that binary32 represents, the
    unbiased exponent of its object is the exponent of the float,
    [floor(log2 |v|)], or -127 when the float is a binary32 subnormal,
    below [2^-126]; [is_special] returns "Denormalized" in that case and
    [None] otherwise. *)
Theorem exponent_is_log2 (s : bool) (m : positive) (e : Z)
        (o : IEEE754SinglePrecision) :
  single_representable (S754_finite s m e) ->
  float_to_ieee754 (S754_finite s m e) = Ok o ->
  get_exponent_unbiased o = Ok (Z.max (-127) (Z.log2 (Zpos m) + e)) /\
  is_special o =
  Ok (if Z.log2 (Zpos m) + e <? -126 then Some "Denormalized" else None).
Proof.
  intros (m' & e' & Hb & Hs) Ho. unfold float_to_ieee754 in Ho.
  destruct (init_pattern _ o Ho) as [Hp Hi].
  destruct (pattern_accessors _ _ o Hp Hi) as (_ & Hraw & _).
  unfold get_exponent_unbiased. rewrite Hraw. cbn [bind].
  rewrite (is_special_pattern _ _ o Hp Hi). cbv zeta.
  pose proof (same_value_digits _ _ _ _ Hs) as Hd.
  rewrite !digits2_log2 in Hd.
  assert (Hl : Z.log2 (Zpos m) + e = Z.log2 (Zpos m') + e') by lia.
  rewrite Hl. clear Hd Hl Hraw Hp Hi Ho.
  unfold bit_pattern. cbn [Struct.to_single].
  rewrite (binary_round_exact _ _ s m m' e e' Hb Hs).
  cbn [Struct.bits_of_single].
  apply bounded_single_cases in Hb.
  assert (Hsf : 0 <= Struct.sign_field s <= 1) by (destruct s; cbn; lia).
  destruct Hb as [[Hm He]|[Hm He]].
  - assert (E : (Zpos m' <? 2 ^ 23) = true) by (apply Z.ltb_lt; lia).
    rewrite E. subst e'.
    assert (Hlog : Z.log2 (Zpos m') < 23) by (apply Z.log2_lt_pow2; lia).
    destruct (pattern_parts (Struct.sign_field s) 0 (Zpos m'))
      as (_ & E1 & E2); [lia|lia|lia|].
    cbv zeta in E1, E2. rewrite Z.mul_0_l, Z.add_0_r in E1, E2.
    rewrite E1, E2. cbn [Z.eqb]. split.
    + f_equal. lia.
    + assert (E3 : (Z.log2 (Zpos m') + -149 <? -126) = true)
        by (apply Z.ltb_lt; lia).
      now rewrite E3.
  - assert (E : (Zpos m' <? 2 ^ 23) = false) by (apply Z.ltb_ge; lia).
    rewrite E.
    assert (Hlog : Z.log2 (Zpos m') = 23).
    { apply Z.log2_unique; [lia|]. change (Z.succ 23) with 24. lia. }
    destruct (pattern_parts (Struct.sign_field s) (e' + 150)
                            (Zpos m' - 2 ^ 23)) as (_ & E1 & E2);
      [lia|lia|change (2 ^ 24) with (2 * 2 ^ 23) in Hm; lia|].
    cbv zeta in E1, E2. rewrite E1, E2, Hlog. split.
    + f_equal. lia.
    + assert (E3 : (e' + 150 =? 255) = false) by (apply Z.eqb_neq; lia).
      assert (E4 : (e' + 150 =? 0) = false) by (apply Z.eqb_neq; lia).
      assert (E5 : (23 + e' <? -126) = false) by (apply Z.ltb_ge; lia).
      now rewrite E3, E4, E5.
Qed.

(** 0.15625 = 1.25 * 2^-3. *)
Lemma exponent_is_log2_witness :
  get_exponent_unbiased
    {| value := S754_finite false 5629499534213120 (-55);
       binary_representation := "00111110001000000000000000000000";
       sign_bit := "0";
       exponent_bits := "01111100";
       mantissa_bits := "01000000000000000000000" |} = Ok (-3) /\
  is_special
    {| value := S754_finite false 5629499534213120 (-55);
       binary_representation := "00111110001000000000000000000000";
       sign_bit := "0";
       exponent_bits := "01111100";
       mantissa_bits := "01000000000000000000000" |} = Ok None.
Proof.
  apply (exponent_is_log2 false 5629499534213120 (-55)).
  - exists 10485760%positive, (-26). split; reflexivity.
  - vm_compute. reflexivity.
Defined.
